(* ===== verification/_CoqProject ===== *)
-Q . S2P
Prelude.v
Values.v
Response.v
Regex.v
Request.v
ReadLoop.v
Uploads.v
RequestMeta.v
Routes.v
Middleware.v
Lifecycle.v
Application.v
Discovery.v
