(* ===== verification/Prelude.v ===== *)
(** * A Rocq model of the restipy request pipeline

    restipy (src/src/restipy/core/) is a small synchronous WSGI framework:
    a RestiPy application discovers its views and middlewares in the
    modules its settings name, and dispatches each WSGI request through
    the middleware phases, the router and the view's hooks.  This
    development models its parts in one file each, in dependency order:

    - [Prelude.v] (this file): the state-and-exception monad [st] in which
      every Python method that mutates the request or raises is written
      ([let* x := m in k], [sraise], [stry]), its laws, machines given by
      a step function ([iterate], determinism, uniqueness of normal
      forms), the loop combinator [for_each] ([for x in xs: f(x)]), the
      generic list lemmas, the hint database [restipy] and the shared
      tactics.
    - [Values.v]: the Python values the code handles ([pyval]: None, bool,
      int, str, bytes, list, dict as an association list in insertion
      order), the ASCII [str.upper]/[str.lower], [dict.__setitem__],
      [dict(pairs)], [int(str)], Python truthiness, and the exception
      taxonomy [exc] (HTTPException, RestiPyException with its [from]
      cause, any other Exception) with [str(e)] and
      [traceback.format_exc()].
    - [Response.v]: the Response object (restipy/core/response.py, which
      is not part of the sources: modelled from the spec and from
      src/tests/test_response.py), its status table, constructor,
      [set_status] setter, [header_list] and [get_response].
    - [Regex.v]: the subset of Python's [re] that route patterns use: a
      compiled pattern is a [regex] tree with named groups, [re_match] is
      [Pattern.match] (anchored at the start only, backtracking in
      Python's priority order) and [groupdict]; the matcher is sound and
      complete for the inductive semantics [matches] ([re_match_none_iff]),
      and reports the first match in Python's backtracking order, the
      head of the reference enumeration [all_matches] ([re_match_first]),
      with [sre]'s zero-width protection: a star iteration may match
      the empty string, and is then the last.
    - [Request.v]: the Request object of src/src/restipy/core/request.py:
      its slots as the record [request], the WSGI environment [environ]
      (CGI variables as a gmap, [wsgi.input] as the remaining bytes of the
      stream, [wsgi.errors] as an optional log), the properties
      ([method], [path], [content_length], [content_type], ...), the
      bounded body reader [_read_body] as a fuelled loop over 64 KiB
      chunks, and the lazily cached body accessors ([json], [form],
      [files]) with their shared [_form] cache.  Decoding, [parse_qsl],
      [json.loads] and the MIME parser are library calls: they are the
      operations of the class [BodyCodec], and the theorems hold for any
      instance.
    - [ReadLoop.v]: the same reading loop defined by well-founded
      recursion (Equations) on the bytes left in the stream, and the proof
      that the fuel [_read_body] gives suffices ([read_loop_terminates]).
    - [Uploads.v]: the temporary files of [_parse_multipart_files]:
      every entry of [_files] names a temporary file the request created
      ([save_files_tmp]), and a repeated field name orphans one.
    - [RequestMeta.v]: the remaining properties of Request: [header]
      with its [_headers] cache, [host], [origin], [url] and [href]
      ([urljoin] as the method of the class [UrlLib]), [query],
      [charset], [app] and [__repr__].
    - [Routes.v]: the View interface (route, methods, four hooks) as a
      record of monadic operations, the route table
      [gmap string (list view)] of [RestiPy._routes], [RestiPy._add_view]
      and [RestiPy.match] with its HEAD-to-GET fallback as the nested
      loops of the code; with the matcher's completeness, [match]
      raises its 404 exactly when no searched pattern matches a prefix of
      the path ([match_route_404_iff]).
    - [Middleware.v]: the three parallel hook lists of RestiPy,
      [add_middleware], and the phase runners [run_before] and
      [run_after] of [process_request].
    - [Lifecycle.v]: the view stage of [process_request] (the inner
      [try]): [run_view] as a function of the monad, and the state
      machine [vstep] of the spec's section 4.3 (one transition per hook
      call) proved to compute exactly [run_view] in four steps
      ([vstep_adequate]), and the routing of exceptions by their class
      ([on_exception_restipy_only]).
    - [Application.v]: the RestiPy instance (settings, route table,
      registry), [register_all] (the registrations [bootstrap] makes once
      the classes are found, used to build the fixtures),
      [RestiPy.process_request] (both error tiers, the debug gate, the
      error stream, and the shared default [params] dict it passes from
      one request to the next), [RestiPy.wsgi] (HEAD suppresses the body), and
      end-to-end runs of a small application.
    - [Discovery.v]: [RestiPy.bootstrap] and the module discovery it
      performs: the interpreter's modules as a table from dotted name to
      module (its [__name__] and its attributes in definition order, a
      class by its [__module__] and the View or Middleware instance it
      builds), [_import_module] with [ModuleNotFoundError],
      [_get_module_members] ([inspect.getmembers] sorted by name,
      filtered on [__module__]), [_import_view], [_import_middleware],
      and [RestiPy.__call__].  The application is threaded through
      [st restipy exc], so a failed import keeps what was registered
      before it.

    Correspondence.  Python methods that read or write [self] of a Request,
    or that raise, are functions [st request exc A] (a state transformer
    returning the new request and [Ok a] or [Exn e]).  Hooks written by the
    application (views and middleware) are arbitrary functions of that
    type, so every theorem about the pipeline holds for all hooks.  The
    registries of RestiPy are a record updated by pure functions.

    Theorems.  Each component file states its invariant and proves that the
    operations preserve it ([add_view_invariants], [add_middleware_aligned],
    [bootstrap_invariants], which holds also when an import fails), the
    behaviour of every branch, errors
    included ([match_route_first], [read_body_spec], [json_malformed],
    the [process_*] theorems, one per path through [process_request]),
    the lifecycle machine computing the view stage ([vstep_adequate]),
    round trips ([add_view_match_roundtrip]: what [_add_view] registers
    is what [match] finds), termination ([read_loop_terminates]), the
    discovery ([get_module_members_spec]: the classes a
    module defines, sorted by name; [bootstrap_missing_view]), and the
    properties the spec lists (first-match
    precedence, HEAD fallback, 404 on no match, middleware short-circuit,
    contract violations, the 413 check, the debug gate, end-to-end
    routing of [/users/(?P<id>\d+)]).  Where the code disagrees with the
    spec the theorem states what the code does: after-handler middleware
    is skipped by every early return, a handler's contract violation goes
    to [on_exception], [DEBUG is False] leaks the trace for other falsy
    settings, the reader can buffer up to 64 KiB past the limit, the
    body caches are tested by truthiness, a string route is never
    compiled, views of one module take precedence in the order of their
    class names rather than of their definitions ([discovery_precedence]),
    and the default [params={}] of [Request.__init__] carries
    what one request's hooks wrote into [req.params] to the next.  Each
    theorem with hypotheses has a closed witness.

    Bounds and fuel.  [_read_body]'s loop is a [Fixpoint] on a fuel
    argument; [read_fuel] gives it one more unit than the stream has bytes,
    which suffices because every iteration that does not stop consumes at
    least one byte (ReadLoop.v proves the fuelled loop equal to the loop
    by well-founded recursion, so the fuel never runs out).  The
    regex star loop has fuel [S (length input - position)] for the same
    reason.  The lifecycle machine needs no fuel: [vstep_adequate]
    shows that four steps always reach its only final state.  Integers (content
    length, MAX_BODY_SIZE, status codes) are unbounded [Z], as Python's
    int is.

    Not modelled.  What [importlib.import_module] does besides finding
    the module (running the module's code, caching it in [sys.modules])
    and the construction of an instance by [mview(self)], which the model
    takes as part of the class; a settings module without [VIEWS] or
    [MIDDLEWARES] (an AttributeError).  The frame
    lines of a traceback, [traceback.print_exc] to the process's stderr,
    temporary-file creation for uploads (a fresh path per file is drawn
    from a counter) are I/O.  The helper [env_to_h] of restipy/utils is
    not among the sources and is modelled from its use.  When two
    environment variables give the same header name, which one
    [req.header] keeps depends on the order of the WSGI dict, which the
    gmap of the environment does not record.  The modules the two
    source files import but that are not among the sources
    (restipy/core/response.py, exceptions.py, view.py, middleware.py and
    restipy/utils) are modelled only as far as the spec, the test file
    and their uses in the sources fix them; that is why the Response,
    the exceptions and the helpers are only partly modelled.  The text
    syntax of route patterns ([re.compile]'s parser) is not modelled:
    patterns are given compiled. *)

From stdpp Require Import base list relations sorting.
From Stdlib Require Import Lia.

Declare Scope restipy_scope.
Delimit Scope restipy_scope with rp.
Open Scope restipy_scope.

(** ** Outcomes and the state-and-exception monad *)

(** A Python call either returns a value or raises an exception. *)
Inductive outcome (E A : Type) : Type :=
| Ok (a : A)
| Exn (e : E).
Arguments Ok {E A} a.
Arguments Exn {E A} e.

(** A computation over a mutable object of type [S] that may raise [E]. *)
Definition st (S E A : Type) : Type := S -> S * outcome E A.

Section Monad.
Context {S E : Type}.

Definition sret {A} (a : A) : st S E A := fun s => (s, Ok a).

Definition sbind {A B} (m : st S E A) (f : A -> st S E B) : st S E B :=
  fun s =>
    match m s with
    | (s', Ok a) => f a s'
    | (s', Exn e) => (s', Exn e)
    end.

Definition sraise {A} (e : E) : st S E A := fun s => (s, Exn e).

Definition sget : st S E S := fun s => (s, Ok s).

Definition sput (s : S) : st S E unit := fun _ => (s, Ok tt).

Definition smodify (f : S -> S) : st S E unit := fun s => (f s, Ok tt).

Definition sgets {A} (f : S -> A) : st S E A := fun s => (s, Ok (f s)).

(** [try: m except ...]: the handler returns [None] for an exception it
    does not catch, which then propagates unchanged. *)
Definition stry {A} (m : st S E A) (h : E -> option (st S E A)) : st S E A :=
  fun s =>
    match m s with
    | (s', Ok a) => (s', Ok a)
    | (s', Exn e) =>
        match h e with
        | Some k => k s'
        | None => (s', Exn e)
        end
    end.

(** Lift a pure fallible result. *)
Definition sof {A} (o : outcome E A) : st S E A := fun s => (s, o).
End Monad.

(** [for x in xs: f(x)]: the loop stops at the first exception. *)
Fixpoint for_each {S E A} (f : A -> st S E unit) (xs : list A) : st S E unit :=
  fun s =>
    match xs with
    | [] => (s, Ok tt)
    | x :: xs => sbind (f x) (fun _ => for_each f xs) s
    end.

Notation "'let*' x ':=' m 'in' k" := (sbind m (fun x => k))
  (at level 10, x name, m at level 100, k at level 200) : restipy_scope.
Notation "'let*' ' p ':=' m 'in' k" := (sbind m (fun x => match x with p => k end))
  (at level 10, p pattern, m at level 100, k at level 200) : restipy_scope.

(** ** Monad laws and run lemmas *)

Section MonadLaws.
Context {S E : Type}.

Lemma sbind_ret_l {A B} (a : A) (f : A -> st S E B) s :
  sbind (sret a) f s = f a s.
Proof. reflexivity. Qed.

Lemma sbind_ret_r {A} (m : st S E A) s : sbind m sret s = m s.
Proof. unfold sbind, sret. by destruct (m s) as [? []]. Qed.

Lemma sbind_assoc {A B C} (m : st S E A) (f : A -> st S E B)
      (g : B -> st S E C) s :
  sbind (sbind m f) g s = sbind m (fun a => sbind (f a) g) s.
Proof. unfold sbind. by destruct (m s) as [? []]. Qed.

Lemma sbind_ext {A B} (m : st S E A) (f g : A -> st S E B) s :
  (forall a s', f a s' = g a s') -> sbind m f s = sbind m g s.
Proof. intros Hfg. unfold sbind. destruct (m s) as [? []]; auto. Qed.

Lemma sbind_ok {A B} (m : st S E A) (f : A -> st S E B) s s' a :
  m s = (s', Ok a) -> sbind m f s = f a s'.
Proof. unfold sbind. by intros ->. Qed.

Lemma sbind_exn {A B} (m : st S E A) (f : A -> st S E B) s s' e :
  m s = (s', Exn e) -> sbind m f s = (s', Exn e).
Proof. unfold sbind. by intros ->. Qed.

Lemma stry_ok {A} (m : st S E A) h s s' a :
  m s = (s', Ok a) -> stry m h s = (s', Ok a).
Proof. unfold stry. by intros ->. Qed.

Lemma stry_caught {A} (m : st S E A) h k s s' e :
  m s = (s', Exn e) -> h e = Some k -> stry m h s = k s'.
Proof. unfold stry. by intros -> ->. Qed.

Lemma stry_uncaught {A} (m : st S E A) h s s' e :
  m s = (s', Exn e) -> h e = None -> stry m h s = (s', Exn e).
Proof. unfold stry. by intros -> ->. Qed.

(** Running a computation whose result is [Ok]: the shape every
    functional lemma of the components takes. *)
Definition returns {A} (m : st S E A) (s : S) (a : A) (s' : S) : Prop :=
  m s = (s', Ok a).

Definition raises {A} (m : st S E A) (s : S) (e : E) (s' : S) : Prop :=
  m s = (s', Exn e).

Lemma for_each_app {A} (f : A -> st S E unit) xs ys s :
  for_each f (xs ++ ys) s = sbind (for_each f xs) (fun _ => for_each f ys) s.
Proof.
  revert s. induction xs as [|x xs IH]; intros s; [done|]. cbn [app for_each].
  rewrite sbind_assoc. apply sbind_ext. intros _ s'. apply IH.
Qed.

(** A property of the state every iteration preserves, whether it returns
    or raises, holds after the loop. *)
Lemma for_each_inv {A} (P : S -> Prop) (f : A -> st S E unit) xs s s' o :
  (forall x s s' o, P s -> f x s = (s', o) -> P s') -> P s -> for_each f xs s = (s', o) -> P s'.
Proof.
  intros Hf. revert s. induction xs as [|x xs IH]; intros s Hs; cbn [for_each]; [by intros [= <- _]|].
  unfold sbind. destruct (f x s) as [s1 [[]|e]] eqn:Hfx; [|intros [= <- _]]; eauto.
Qed.

Lemma sbind_inv {A B} (P : S -> Prop) (m : st S E A) (f : A -> st S E B) s s' o :
  (forall s s' o, P s -> m s = (s', o) -> P s') ->
  (forall a s s' o, P s -> f a s = (s', o) -> P s') ->
  P s -> sbind m f s = (s', o) -> P s'.
Proof. intros Hm Hf Hs. unfold sbind. destruct (m s) as [s1 [a|e]] eqn:Hms; [|intros [= <- _]]; eauto. Qed.

(** A loop whose every iteration returns returns. *)
Lemma for_each_total {A} (f : A -> st S E unit) xs s :
  Forall (fun x => forall s, exists s', f x s = (s', Ok tt)) xs ->
  exists s', for_each f xs s = (s', Ok tt).
Proof.
  intros Hall. revert s. induction Hall as [|x xs Hx _ IH]; intros s; [by eexists|].
  destruct (Hx s) as [s1 Hs1]. cbn [for_each]. rewrite (sbind_ok _ _ _ _ _ Hs1). apply IH.
Qed.

End MonadLaws.


Create HintDb restipy discriminated.
Create Rewrite HintDb restipy_rw.
#[export] Hint Rewrite @sbind_ret_l @sbind_assoc : restipy_rw.
#[export] Hint Resolve sbind_ok sbind_exn stry_ok stry_uncaught : restipy.

(** ** Lists *)

(** [find]-style first match: the first element for which [f] answers. *)
Fixpoint first_some {A B} (f : A -> option B) (l : list A) : option B :=
  match l with
  | [] => None
  | x :: l' => match f x with Some b => Some b | None => first_some f l' end
  end.

Lemma first_some_app {A B} (f : A -> option B) l1 l2 :
  first_some f (l1 ++ l2) =
  match first_some f l1 with Some b => Some b | None => first_some f l2 end.
Proof. induction l1 as [|x l1 IH]; simpl; [done|]. by destruct (f x). Qed.

Lemma first_some_None {A B} (f : A -> option B) l :
  first_some f l = None <-> Forall (fun x => f x = None) l.
Proof.
  induction l as [|x l IH]; simpl; [split; constructor|].
  destruct (f x) eqn:Hx; rewrite Forall_cons; naive_solver.
Qed.

Lemma first_some_Some {A B} (f : A -> option B) l b :
  first_some f l = Some b ->
  exists l1 x l2, l = l1 ++ x :: l2 /\ f x = Some b /\
                  Forall (fun y => f y = None) l1.
Proof.
  induction l as [|x l IH]; simpl; [done|].
  destruct (f x) eqn:Hx.
  - intros [= ->]. by exists [], x, l.
  - intros H. destruct (IH H) as (l1 & y & l2 & -> & Hy & Hl1).
    exists (x :: l1), y, l2. auto.
Qed.

#[export] Hint Rewrite @first_some_app : restipy_rw.

Lemma first_some_ext {A B} (f g : A -> option B) l :
  (forall x, f x = g x) -> first_some f l = first_some g l.
Proof. intros Hfg. induction l as [|x l IH]; simpl; [done|]. by rewrite Hfg, IH. Qed.

Lemma first_some_bind {A B C} (f : B -> option C) (g : A -> list B) l :
  first_some f (l ≫= g) = first_some (fun x => first_some f (g x)) l.
Proof.
  induction l as [|x l IH]; [done|]. cbn [first_some]. rewrite <- IH.
  change ((x :: l) ≫= g) with (g x ++ l ≫= g). by rewrite first_some_app.
Qed.

Lemma first_some_map {A B C} (f : B -> option C) (g : A -> B) l :
  first_some f (map g l) = first_some (fun x => f (g x)) l.
Proof. induction l as [|x l IH]; simpl; [done|]. by rewrite IH. Qed.

(** A property every step of a [for] loop without exceptions keeps. *)
Lemma foldl_inv {S A} (P : S -> Prop) (f : S -> A -> S) l s :
  Forall (fun x => forall s, P s -> P (f s x)) l -> P s -> P (foldl f s l).
Proof. intros Hall. revert s. induction Hall; intros s Hs; cbn [foldl]; auto. Qed.

(** An association list without duplicate keys is functional. *)
Lemma NoDup_fst_inj {A B} (l : list (A * B)) x y1 y2 :
  NoDup (l.*1) -> (x, y1) ∈ l -> (x, y2) ∈ l -> y1 = y2.
Proof.
  induction l as [|[a b] l IH]; csimpl; intros Hnd H1 H2; [set_solver|].
  apply NoDup_cons in Hnd as [Hn Hnd]. apply elem_of_cons in H1, H2.
  destruct H1 as [H1|H1], H2 as [H2|H2]; simplify_eq; auto;
    destruct Hn; apply list_elem_of_fmap; eexists; (split; [|eassumption]); done.
Qed.

Lemma StronglySorted_filter {A} (R : relation A) (P : A -> Prop) `{!∀ x, Decision (P x)} l :
  StronglySorted R l -> StronglySorted R (filter P l).
Proof.
  intros Hs. induction Hs as [|x l Hl IH Hx]; [constructor|]. rewrite filter_cons. case_decide; [|done].
  constructor; [done|]. rewrite Forall_forall in Hx |- *.
  intros y Hy. apply list_elem_of_filter in Hy as [_ Hy]. by apply Hx.
Qed.

(** ** Machines given by a step function

    A transition relation [R] that a partial function [next] decides: the
    relation is deterministic, its normal forms are where [next] stops,
    and iterating [next] walks along it. *)

Section StepFunction.
Context {A : Type} (R : relation A) (next : A -> option A).
Hypothesis Hnext : forall x y, R x y <-> next x = Some y.

Fixpoint iterate (n : nat) (x : A) : A :=
  match n with
  | O => x
  | S n' => match next x with Some y => iterate n' y | None => x end
  end.

Lemma step_det x y z : R x y -> R x z -> y = z.
Proof. rewrite !Hnext. congruence. Qed.

Lemma step_nf x : nf R x <-> next x = None.
Proof.
  unfold nf, red. split.
  - intros Hn. destruct (next x) as [y|] eqn:E; [|done]. exfalso. apply Hn. exists y. by apply Hnext.
  - intros E [y Hy]. apply Hnext in Hy. congruence.
Qed.

Lemma iterate_bsteps n x : bsteps R n x (iterate n x).
Proof.
  revert x. induction n as [|n IH]; intros x; cbn [iterate]; [constructor|].
  destruct (next x) as [y|] eqn:E.
  - eapply bsteps_l; [by apply Hnext|apply IH].
  - apply bsteps_refl.
Qed.

(** In a deterministic system two runs from one state that both stop
    stop in the same state. *)
Lemma rtc_nf_unique x y z : rtc R x y -> rtc R x z -> nf R y -> nf R z -> y = z.
Proof.
  intros Hy. revert z. induction Hy as [x|x x' y Hxx' _ IH]; intros z Hz Hny Hnz.
  - destruct Hz as [|x x'' z Hxx'']; [done|]. exfalso. apply Hny. by exists x''.
  - destruct Hz as [|x x'' z Hxx'' Hz]; [exfalso; apply Hnz; by exists x'|].
    rewrite (step_det _ _ _ Hxx' Hxx'') in IH. by apply IH.
Qed.
End StepFunction.

(** ** Tactics *)

(** Unfold one layer of the monad in the goal and case on the result of
    the first computation, naming the equation. *)
Ltac run_bind :=
  match goal with
  | |- context [sbind ?m _ ?s] =>
      let r := fresh "r" in
      let Hr := fresh "Hr" in
      destruct (m s) as [? [r|r]] eqn:Hr;
      [rewrite (sbind_ok _ _ _ _ _ Hr) | rewrite (sbind_exn _ _ _ _ _ Hr)]
  end.

(** Close [lhs = rhs] on closed data by evaluating [lhs] with the virtual
    machine first; used by the concrete runs, where [rhs] may hold
    existential variables that [reflexivity] then instantiates. *)
Ltac run_lhs :=
  match goal with
  | |- ?lhs = _ => let v := eval vm_compute in lhs in change lhs with v; reflexivity
  end.

(** Close goals of the shape [returns]/[raises] by unfolding. *)
Ltac unfold_run := unfold returns, raises in *.
