(* ===== verification/Values.v ===== *)
(** * Python values, builtins and the exception taxonomy

    The values the pipeline passes around: [pyval] for the Python objects
    stored in a request's caches, in a response body and in settings;
    Python dicts as association lists in insertion order ([dict_set] is
    [d[k] = v], [dict_of_pairs] is [dict(pairs)]); truthiness; the ASCII
    parts of [str.upper], [str.lower], [str.split], [str.startswith],
    [str.splitlines] and [int(str)]; and [exc], the three tiers of
    exceptions of the spec (section 7) with [str(e)] and the lines of
    [traceback.format_exc()]. *)

From stdpp Require Import base list sets strings pretty.
From Stdlib Require Import ZArith Ascii.
From Stdlib.Strings Require Import Byte.
From S2P Require Import Prelude.

Local Open Scope string_scope.
#[local] Set Warnings "-register-all".

#[export] Instance byte_eq_dec : EqDecision byte := Byte.byte_eq_dec.

(** ** Python values *)

(** Dict keys: the code only uses [str] keys, and [None] where a MIME part
    has no [name] parameter ([Request._parse_multipart_form]). *)
Inductive pykey : Type :=
| KStr (s : string)
| KNone.

#[export] Instance pykey_eq_dec : EqDecision pykey.
Proof. solve_decision. Defined.

Inductive pyval : Type :=
| PNone
| PBool (b : bool)
| PInt (z : Z)
| PStr (s : string)
| PBytes (b : list byte)
| PList (l : list pyval)
| PDict (d : list (pykey * pyval)).

(** [bool(v)]. *)
Definition truthy (v : pyval) : bool :=
  match v with
  | PNone => false
  | PBool b => b
  | PInt z => negb (Z.eqb z 0)
  | PStr s => negb (String.eqb s "")
  | PBytes b => negb (bool_decide (b = []))
  | PList l => negb (bool_decide (l = []))
  | PDict d => negb (bool_decide (d = []))
  end.

(** ** Dicts in insertion order *)

Section Dict.
Context {K V : Type} `{EqDecision K}.

(** [d[k] = v]: an existing key keeps its position, a new key goes last. *)
Fixpoint dict_set (d : list (K * V)) (k : K) (v : V) : list (K * V) :=
  match d with
  | [] => [(k, v)]
  | (k', v') :: d' =>
      if decide (k = k') then (k, v) :: d' else (k', v') :: dict_set d' k v
  end.

(** [d.get(k)] / [d[k]] (None for a missing key). *)
Fixpoint dict_get (d : list (K * V)) (k : K) : option V :=
  match d with
  | [] => None
  | (k', v') :: d' => if decide (k = k') then Some v' else dict_get d' k
  end.

(** [dict(pairs)]: later pairs overwrite earlier ones. *)
Definition dict_of_pairs (l : list (K * V)) : list (K * V) :=
  foldl (fun d kv => dict_set d kv.1 kv.2) [] l.

Lemma dict_get_set_eq d k v : dict_get (dict_set d k v) k = Some v.
Proof.
  induction d as [|[k' v'] d IH]; simpl; [by rewrite decide_True|].
  case_decide; simpl; [by rewrite decide_True|by rewrite decide_False].
Qed.

Lemma dict_get_set_ne d k k' v :
  k <> k' -> dict_get (dict_set d k v) k' = dict_get d k'.
Proof.
  intros Hne. induction d as [|[k1 v1] d IH]; simpl.
  - by rewrite decide_False.
  - repeat case_decide; simpl; subst; try done.
    + by rewrite decide_False.
    + by rewrite decide_True.
    + by rewrite decide_False.
Qed.

Lemma dict_set_keys d k v :
  map fst (dict_set d k v) =
  if bool_decide (k ∈ map fst d) then map fst d else (map fst d ++ [k])%list.
Proof.
  induction d as [|[k' v'] d IH]; simpl; [done|].
  destruct (decide (k = k')) as [->|Hk]; simpl.
  - rewrite bool_decide_true; [done|apply elem_of_cons; by left].
  - rewrite IH, (bool_decide_ext (k ∈ k' :: map fst d) (k ∈ map fst d)).
    + by case_bool_decide.
    + rewrite elem_of_cons. naive_solver.
Qed.
End Dict.

(** ** Strings *)

Definition ascii_upper (c : ascii) : ascii :=
  let n := nat_of_ascii c in
  if (Nat.leb 97 n) && (Nat.leb n 122) then ascii_of_nat (n - 32)%nat else c.

Definition ascii_lower (c : ascii) : ascii :=
  let n := nat_of_ascii c in
  if (Nat.leb 65 n) && (Nat.leb n 90) then ascii_of_nat (n + 32)%nat else c.

(** [s.upper()] and [s.lower()] on ASCII text. *)
Fixpoint str_upper (s : string) : string :=
  match s with
  | EmptyString => EmptyString
  | String c s' => String (ascii_upper c) (str_upper s')
  end.

Fixpoint str_lower (s : string) : string :=
  match s with
  | EmptyString => EmptyString
  | String c s' => String (ascii_lower c) (str_lower s')
  end.

(** [s.startswith(p)]. *)
Definition str_startswith (s p : string) : bool := String.prefix p s.

(** [s.split(sep)[0]] for a one-character separator: the text before the
    first separator. *)
Fixpoint split_first (sep : ascii) (s : string) : string :=
  match s with
  | EmptyString => EmptyString
  | String c s' => if Ascii.eqb c sep then EmptyString else String c (split_first sep s')
  end.

(** [s.split(sep)] for a one-character separator; [cur] is the current
    piece, reversed.  There is always at least one piece. *)
Fixpoint split_acc (sep : ascii) (cur : list ascii) (s : string) : list string :=
  match s with
  | EmptyString => [String.string_of_list_ascii (rev cur)]
  | String c s' =>
      if Ascii.eqb c sep then String.string_of_list_ascii (rev cur) :: split_acc sep [] s'
      else split_acc sep (c :: cur) s'
  end.

Definition str_split (sep : ascii) (s : string) : list string := split_acc sep [] s.

(** [sub in s]. *)
Fixpoint str_contains (s sub : string) : bool :=
  String.prefix sub s ||
  match s with EmptyString => false | String _ s' => str_contains s' sub end.

(** [s[n:]]. *)
Definition str_drop (n : nat) (s : string) : string :=
  String.string_of_list_ascii (drop n (String.list_ascii_of_string s)).

Definition is_alpha (c : ascii) : bool :=
  let n := nat_of_ascii c in ((Nat.leb 65 n) && (Nat.leb n 90)) || ((Nat.leb 97 n) && (Nat.leb n 122)).

(** [s.title()] on ASCII text: a letter is upper-cased when it follows a
    non-letter, lower-cased when it follows a letter. *)
Fixpoint title_acc (prev_alpha : bool) (s : string) : string :=
  match s with
  | EmptyString => EmptyString
  | String c s' =>
      String (if is_alpha c then (if prev_alpha then ascii_lower c else ascii_upper c) else c)
             (title_acc (is_alpha c) s')
  end.

Definition str_title (s : string) : string := title_acc false s.

(** [s.replace(a, b)] for single characters. *)
Fixpoint str_replace_char (a b : ascii) (s : string) : string :=
  match s with
  | EmptyString => EmptyString
  | String c s' => String (if Ascii.eqb c a then b else c) (str_replace_char a b s')
  end.

Fixpoint drop_while (p : ascii -> bool) (l : list ascii) : list ascii :=
  match l with
  | c :: l' => if p c then drop_while p l' else l
  | [] => []
  end.

(** [s.rstrip(c)] for one character. *)
Definition str_rstrip (c : ascii) (s : string) : string :=
  String.string_of_list_ascii
    (rev (drop_while (fun x => Ascii.eqb x c) (rev (String.list_ascii_of_string s)))).

(** The line boundaries of [str.splitlines] in ASCII: \n, \r, \x0b,
    \x0c, \x1c, \x1d, \x1e; \r\n counts as one boundary. *)
Definition is_line_break (c : ascii) : bool :=
  let n := nat_of_ascii c in
  (Nat.eqb n 10) || (Nat.eqb n 13) || (Nat.eqb n 11) || (Nat.eqb n 12) || (Nat.eqb n 28) || (Nat.eqb n 29) || (Nat.eqb n 30).

(** [s.splitlines()]: [cur] is the current line, reversed. *)
Fixpoint splitlines_acc (cur : list ascii) (s : string) : list string :=
  match s with
  | EmptyString =>
      match cur with [] => [] | _ => [String.string_of_list_ascii (rev cur)] end
  | String c s' =>
      if is_line_break c then
        let rest :=
          match s' with
          | String c2 s'' =>
              if Nat.eqb (nat_of_ascii c) 13 && Nat.eqb (nat_of_ascii c2) 10 then s'' else s'
          | EmptyString => s'
          end in
        String.string_of_list_ascii (rev cur) :: splitlines_acc [] rest
      else splitlines_acc (c :: cur) s'
  end.

Definition splitlines (s : string) : list string := splitlines_acc [] s.

(** [sep.join(l)]. *)
Fixpoint str_join (sep : string) (l : list string) : string :=
  match l with
  | [] => ""
  | [x] => x
  | x :: l' => x ++ sep ++ str_join sep l'
  end.

Lemma str_lower_app a b : str_lower (a ++ b) = str_lower a ++ str_lower b.
Proof.
  induction a as [|c a IH]; [reflexivity|].
  change (String c a ++ b) with (String c (a ++ b)). cbn [str_lower]. rewrite IH. reflexivity.
Qed.

#[export] Hint Rewrite str_lower_app : restipy_rw.

(** ** [int(s)] on a string

    Python's [int(str)] strips ASCII whitespace, accepts one sign and then
    decimal digits in groups separated by single underscores; anything
    else raises ValueError. *)

Definition is_space (c : ascii) : bool :=
  let n := nat_of_ascii c in (Nat.eqb n 32) || ((Nat.leb 9 n) && (Nat.leb n 13)).

Definition digit_value (c : ascii) : option Z :=
  let n := nat_of_ascii c in
  if (Nat.leb 48 n) && (Nat.leb n 57) then Some (Z.of_nat (n - 48)%nat) else None.

Fixpoint strip_left (l : list ascii) : list ascii :=
  match l with
  | c :: l' => if is_space c then strip_left l' else l
  | [] => []
  end.

Definition strip (s : string) : list ascii :=
  rev (strip_left (rev (strip_left (String.list_ascii_of_string s)))).

(** [s.strip()]. *)
Definition str_strip (s : string) : string := String.string_of_list_ascii (strip s).

(** Digits with single underscores between them; [prev_digit] says the
    previous character was a digit. *)
Fixpoint parse_digits (acc : Z) (prev_digit : bool) (l : list ascii) : option Z :=
  match l with
  | [] => if prev_digit then Some acc else None
  | c :: l' =>
      match digit_value c with
      | Some d => parse_digits (acc * 10 + d)%Z true l'
      | None =>
          if Ascii.eqb c "_"%char && prev_digit then
            match l' with
            | [] => None
            | _ => parse_digits acc false l'
            end
          else None
      end
  end.

Definition py_int (s : string) : option Z :=
  match strip s with
  | "-"%char :: l => option_map Z.opp (parse_digits 0 false l)
  | "+"%char :: l => parse_digits 0 false l
  | l => parse_digits 0 false l
  end.

(** ** Exceptions *)

(** The three tiers of section 7 of the spec.  [HTTPException] carries
    its message, status code, machine-readable code and headers
    (restipy/core/exceptions.py is not among the sources: the fields are
    those application.py and request.py pass).  [RestiPyException] is the
    application error a view's [on_exception] recovers from, with the
    exception it was raised [from].  [PyError cls msg] is any other
    exception, [cls] its printed class name. *)
Inductive exc : Type :=
| HTTPException (message : string) (status_code : Z) (code : string)
                (headers : option (list (string * pyval)))
| RestiPyException (message : string) (cause : option exc)
| PyError (cls : string) (message : string).

(** [str(e)]. *)
Definition exc_str (e : exc) : string :=
  match e with
  | HTTPException m _ _ _ => m
  | RestiPyException m _ => m
  | PyError _ m => m
  end.

(** The qualified class name [traceback] prints. *)
Definition exc_type_name (e : exc) : string :=
  match e with
  | HTTPException _ _ _ _ => "restipy.core.exceptions.HTTPException"
  | RestiPyException _ _ => "restipy.core.exceptions.RestiPyException"
  | PyError cls _ => cls
  end.

(** The last line of a traceback: [Type: message], or [Type] alone. *)
Definition exc_line (e : exc) : string :=
  match exc_str e with
  | "" => exc_type_name e
  | m => exc_type_name e ++ ": " ++ m
  end.

(** The lines of [traceback.format_exc()] for [e], frames left out: the
    chained cause first (for [raise ... from e]), then the header and the
    exception line. *)
Fixpoint format_exc_lines (e : exc) : list string :=
  let own := ["Traceback (most recent call last):"; exc_line e] in
  match e with
  | RestiPyException _ (Some c) =>
      format_exc_lines c ++
      [""; "The above exception was the direct cause of the following exception:"; ""]
      ++ own
  | _ => own
  end.

(** [traceback.format_exc()]: the lines, each ended by a newline. *)
Definition format_exc (e : exc) : string :=
  foldr (fun l acc => l ++ String "010"%char acc) "" (format_exc_lines e).

(** [isinstance(e, HTTPException)] and [isinstance(e, RestiPyException)]. *)
Definition is_http_exception (e : exc) : bool :=
  match e with HTTPException _ _ _ _ => true | _ => false end.

Definition is_restipy_exception (e : exc) : bool :=
  match e with RestiPyException _ _ => true | _ => false end.

(** Errors the interpreter raises on its own. *)
Definition attribute_error (obj attr : string) : exc :=
  PyError "AttributeError" ("'" ++ obj ++ "' object has no attribute '" ++ attr ++ "'").

Definition key_error (k : string) : exc := PyError "KeyError" ("'" ++ k ++ "'").

Definition type_error (msg : string) : exc := PyError "TypeError" msg.

(** ** Lemmas on tracebacks *)

Lemma splitlines_acc_nonempty cur s :
  (cur <> [] \/ s <> EmptyString) -> splitlines_acc cur s <> [].
Proof.
  revert cur. induction s as [|c s IH]; intros cur Hne; cbn.
  - destruct cur; [by destruct Hne|done].
  - destruct (is_line_break c); [done|]. apply IH. left. done.
Qed.

Lemma format_exc_lines_head e :
  exists rest, format_exc_lines e = "Traceback (most recent call last):" :: rest.
Proof.
  revert e. fix IH 1. intros [m st c hs| m [c|] | cls m]; cbn; eauto.
  destruct (IH c) as [rest ->]. eauto.
Qed.

(** The trace of any exception has at least one line. *)
Lemma format_exc_splitlines_nonempty e : splitlines (format_exc e) <> [].
Proof.
  unfold splitlines, format_exc. destruct (format_exc_lines_head e) as [rest ->].
  apply splitlines_acc_nonempty. right. cbn. discriminate.
Qed.
