(* ===== verification/Response.v ===== *)
(** * The Response object

    restipy/core/response.py is not among the sources.  What application.py
    needs of it, and what src/tests/test_response.py checks, is modelled
    here from the spec (sections 3 and 6): a body, a status code that must
    be in the table of recognised codes ([HTTP_STATUS_LINES] of
    restipy.routing, built from Python's http.HTTPStatus), and a header
    dict whose first entry is the default JSON content type.  The
    constructor and the [set_status] setter raise
    [Exception('Invalid status code.')] on an unknown code; [header_list]
    converts every value with [str]; [get_response] serialises the body:
    bytes and text pass through, anything else goes through [json.dumps]. *)

From stdpp Require Import base list strings pretty.
From Stdlib Require Import ZArith Ascii.
From Stdlib.Strings Require Import Byte.
From S2P Require Import Prelude Values.

Local Open Scope string_scope.

(** ** The status table *)

Definition HTTP_STATUS_LINES : list (Z * string) :=
  [(100, "Continue"); (101, "Switching Protocols"); (102, "Processing");
   (103, "Early Hints");
   (200, "OK"); (201, "Created"); (202, "Accepted");
   (203, "Non-Authoritative Information"); (204, "No Content");
   (205, "Reset Content"); (206, "Partial Content"); (207, "Multi-Status");
   (208, "Already Reported"); (226, "IM Used");
   (300, "Multiple Choices"); (301, "Moved Permanently"); (302, "Found");
   (303, "See Other"); (304, "Not Modified"); (305, "Use Proxy");
   (307, "Temporary Redirect"); (308, "Permanent Redirect");
   (400, "Bad Request"); (401, "Unauthorized"); (402, "Payment Required");
   (403, "Forbidden"); (404, "Not Found"); (405, "Method Not Allowed");
   (406, "Not Acceptable"); (407, "Proxy Authentication Required");
   (408, "Request Timeout"); (409, "Conflict"); (410, "Gone");
   (411, "Length Required"); (412, "Precondition Failed");
   (413, "Request Entity Too Large"); (414, "Request-URI Too Long");
   (415, "Unsupported Media Type"); (416, "Requested Range Not Satisfiable");
   (417, "Expectation Failed"); (418, "I'm a Teapot");
   (421, "Misdirected Request"); (422, "Unprocessable Entity");
   (423, "Locked"); (424, "Failed Dependency"); (425, "Too Early");
   (426, "Upgrade Required"); (428, "Precondition Required");
   (429, "Too Many Requests"); (431, "Request Header Fields Too Large");
   (451, "Unavailable For Legal Reasons");
   (500, "Internal Server Error"); (501, "Not Implemented");
   (502, "Bad Gateway"); (503, "Service Unavailable");
   (504, "Gateway Timeout"); (505, "HTTP Version Not Supported");
   (506, "Variant Also Negotiates"); (507, "Insufficient Storage");
   (508, "Loop Detected"); (510, "Not Extended");
   (511, "Network Authentication Required")]%Z.

(** [HTTP_STATUS_LINES[code]]: ["404 Not Found"]. *)
Definition status_line_of (code : Z) : option string :=
  match dict_get HTTP_STATUS_LINES code with
  | Some phrase => Some (pretty code ++ " " ++ phrase)
  | None => None
  end.

Definition status_valid (code : Z) : bool := bool_decide (is_Some (dict_get HTTP_STATUS_LINES code)).

Definition invalid_status_code : exc := PyError "Exception" "Invalid status code.".

(** ** The object *)

Record response : Type := mkResponse {
  resp_body : pyval;
  resp_status : Z;
  resp_headers : list (string * pyval)
}.

Definition default_content_type : string := "application/json; charset=utf-8".

(** [Response(body, status_code=..., headers=...)]: the default content
    type first, then the given headers in order (a given content type
    replaces the default in place). *)
Definition new_response (body : pyval) (status : Z)
    (headers : option (list (string * pyval))) : outcome exc response :=
  if status_valid status then
    Ok {| resp_body := body; resp_status := status;
          resp_headers := foldl (fun d kv => dict_set d kv.1 kv.2)
                            [("content-type", PStr default_content_type)]
                            (default [] headers) |}
  else Exn invalid_status_code.

(** [resp.set_status = code]: an unknown code raises and leaves the
    response as it was. *)
Definition set_status (r : response) (code : Z) : outcome exc response :=
  if status_valid code then Ok {| resp_body := resp_body r; resp_status := code;
                                  resp_headers := resp_headers r |}
  else Exn invalid_status_code.

(** ** [str] and [json.dumps] of values *)

Fixpoint py_repr (v : pyval) : string :=
  match v with
  | PNone => "None"
  | PBool true => "True"
  | PBool false => "False"
  | PInt z => pretty z
  | PStr s => "'" ++ s ++ "'"
  | PBytes b => "b'" ++ String.string_of_list_byte b ++ "'"
  | PList l => "[" ++ str_join ", " (map py_repr l) ++ "]"
  | PDict d =>
      "{" ++ str_join ", "
        (map (fun kv => match kv.1 with KStr k => "'" ++ k ++ "'" | KNone => "None" end
                        ++ ": " ++ py_repr kv.2) d) ++ "}"
  end.

(** [str(v)]: a string is itself, anything else its repr. *)
Definition py_str (v : pyval) : string :=
  match v with PStr s => s | _ => py_repr v end.

Definition dquote : string := String (ascii_of_nat 34) EmptyString.

Definition json_escape_char (c : ascii) : string :=
  let n := nat_of_ascii c in
  if Nat.eqb n 34 then "\" ++ dquote else
  if Nat.eqb n 92 then "\\" else
  if Nat.eqb n 10 then "\n" else
  if Nat.eqb n 13 then "\r" else
  if Nat.eqb n 9 then "\t" else
  if Nat.eqb n 8 then "\b" else
  if Nat.eqb n 12 then "\f" else
  if Nat.ltb n 32 then
    "\u00" ++ String (ascii_of_nat (48 + n / 16)) (String (
      let d := n mod 16 in ascii_of_nat (if Nat.ltb d 10 then 48 + d else 87 + d)) "")
  else String c "".

Fixpoint json_escape (s : string) : string :=
  match s with
  | EmptyString => ""
  | String c s' => json_escape_char c ++ json_escape s'
  end.

(** [json.dumps(v)] with the default separators; bytes are not JSON
    serialisable (TypeError, here [None]). *)
Fixpoint json_dumps (v : pyval) : option string :=
  match v with
  | PNone => Some "null"
  | PBool true => Some "true"
  | PBool false => Some "false"
  | PInt z => Some (pretty z)
  | PStr s => Some (dquote ++ json_escape s ++ dquote)
  | PBytes _ => None
  | PList l =>
      let fix items l := match l with
                         | [] => Some []
                         | x :: l' => match json_dumps x, items l' with
                                      | Some a, Some b => Some (a :: b)
                                      | _, _ => None end end in
      match items l with Some xs => Some ("[" ++ str_join ", " xs ++ "]") | None => None end
  | PDict d =>
      let fix items d := match d with
                         | [] => Some []
                         | (k, x) :: d' =>
                             match json_dumps x, items d' with
                             | Some a, Some b =>
                                 let key := match k with KStr k => dquote ++ json_escape k ++ dquote
                                                       | KNone => dquote ++ "null" ++ dquote end in
                                 Some ((key ++ ": " ++ a) :: b)
                             | _, _ => None end end in
      match items d with Some xs => Some ("{" ++ str_join ", " xs ++ "}") | None => None end
  end.

(** ** Emission *)

(** [resp.header_list]: the header dict with every value passed through
    [str]. *)
Definition header_list (r : response) : list (string * string) :=
  map (fun kv => (kv.1, py_str kv.2)) (resp_headers r).

Definition status_line (r : response) : string := default "" (status_line_of (resp_status r)).

(** [resp.get_response()]: the body bytes, the status line and the header
    list. *)
Definition get_response (r : response) : outcome exc (list byte * string * list (string * string)) :=
  let data :=
    match resp_body r with
    | PBytes b => Some b
    | PStr s => Some (String.list_byte_of_string s)
    | v => option_map String.list_byte_of_string (json_dumps v)
    end in
  match data with
  | Some b => Ok (b, status_line r, header_list r)
  | None => Exn (type_error "Object of type bytes is not JSON serializable")
  end.

(** ** Lemmas *)

Lemma status_valid_line code :
  status_valid code = true <-> is_Some (status_line_of code).
Proof.
  unfold status_valid, status_line_of. rewrite bool_decide_eq_true.
  destruct (dict_get HTTP_STATUS_LINES code); split; intros []; eauto; discriminate.
Qed.

Lemma status_valid_500 : status_valid 500 = true.
Proof. reflexivity. Qed.

Lemma status_valid_404 : status_valid 404 = true.
Proof. reflexivity. Qed.

(** The constructor with a recognised status cannot fail. *)
Lemma new_response_not_exn body code headers e :
  status_valid code = true -> new_response body code headers <> Exn e.
Proof. unfold new_response. by intros ->. Qed.

Lemma new_response_ok body code headers :
  status_valid code = true ->
  exists r, new_response body code headers = Ok r /\
            resp_body r = body /\ resp_status r = code.
Proof. unfold new_response. intros ->. by eexists. Qed.

Lemma new_response_invalid body code headers :
  status_valid code = false -> new_response body code headers = Exn invalid_status_code.
Proof. unfold new_response. by intros ->. Qed.

(** The test [test_response_header_list]: the default content type first,
    the other values converted with [str]. *)
Example test_response_header_list :
  match new_response (PDict [(KStr "firstname", PStr "john"); (KStr "lastname", PStr "doe")])
          404 (Some [("header-1", PStr "1"); ("header-3", PInt 4)]) with
  | Ok r => header_list r = [("content-type", "application/json; charset=utf-8");
                             ("header-1", "1"); ("header-3", "4")]
            /\ status_line r = "404 Not Found"
  | Exn _ => False
  end.
Proof. vm_compute. auto. Qed.

Example test_response_set_status_error :
  match new_response PNone 404 None with
  | Ok r => set_status r 9090 = Exn invalid_status_code
  | Exn _ => False
  end.
Proof. reflexivity. Qed.

#[export] Hint Resolve new_response_invalid : restipy.
