(* ===== verification/Regex.v ===== *)
(** * Compiled route patterns: a subset of Python's [re]

    [RestiPy.match] calls [view.route.match(path)] on a compiled pattern
    and returns [match.groupdict()].  This file models the part of [re]
    that route patterns use: literals, [.], character classes with [\d],
    [\w], [\s] and ranges, concatenation, alternation, greedy and lazy
    repetition, named and unnamed groups, [^] and [$].  Characters are
    ASCII.  A pattern is given compiled (the tree [regex]); parsing the
    pattern text is [re.compile]'s job and is not modelled, which the code
    never reaches anyway (see [Routes._add_view]).

    [mt] is a backtracking matcher in continuation-passing style that tries
    alternatives in Python's order (left branch first; a greedy star tries
    one more iteration before stopping, a lazy one the reverse), so the
    first success is the match [re] reports.  A star iteration may match
    the empty string, but it is then the last one and the rest of the
    pattern follows with its captures: this is the zero-width protection
    of [sre]'s [MAX_UNTIL]/[MIN_UNTIL] ([last_ptr]), so
    [re.match(r'(?:(?P<x>a?))*', '')] reports [x = ''] here as in Python
    ([star_empty_iteration]).  Every iteration but the last consumes a
    character, which bounds the loop by the length of the subject: its
    fuel is [S (length w - i)], enough for every iteration the engine can
    take.  [matches] is the
    declarative semantics: [mt_sound] shows that every match the matcher
    reports is one of the pattern, and [matches_complete] that the
    matcher finds a match whenever the pattern matches a prefix of the
    subject, so [re_match] answers [None] exactly when there is none
    ([re_match_none_iff]).  Which match it reports is fixed by
    [all_matches], the list of every match in the order Python's engine
    tries them: [re_match] answers the head of that list
    ([re_match_first]). *)

From stdpp Require Import base list strings.
From Stdlib Require Import Ascii Lia.
From S2P Require Import Prelude Values.

Local Open Scope string_scope.

(** ** Syntax *)

Inductive class_item : Type :=
| CRange (lo hi : ascii)      (** [a-z], or one character when lo = hi *)
| CDigit                      (** [\d] *)
| CWord                       (** [\w] *)
| CSpace.                     (** [\s] *)

Inductive regex : Type :=
| REmpty
| RChar (c : ascii)
| RAny                                  (** [.]: anything but a newline *)
| RClass (negated : bool) (items : list class_item)
| RSeq (r1 r2 : regex)
| RAlt (r1 r2 : regex)
| RStar (greedy : bool) (r : regex)     (** [r*] and [r*?] *)
| RGroup (name : option string) (r : regex)   (** [(?P<name>r)] and [(r)] *)
| RBol                                  (** [^] *)
| REol.                                 (** [$] *)

(** [r+] and [r?] as [re] compiles them. *)
Definition RPlus (r : regex) : regex := RSeq r (RStar true r).
Definition ROpt (r : regex) : regex := RAlt r REmpty.

(** A literal string. *)
Fixpoint RLit (s : string) : regex :=
  match s with
  | EmptyString => REmpty
  | String c EmptyString => RChar c
  | String c s' => RSeq (RChar c) (RLit s')
  end.

Definition is_digit (c : ascii) : bool :=
  let n := nat_of_ascii c in Nat.leb 48 n && Nat.leb n 57.

Definition is_word (c : ascii) : bool :=
  let n := nat_of_ascii c in
  is_digit c || (Nat.leb 65 n && Nat.leb n 90) || (Nat.leb 97 n && Nat.leb n 122) || Nat.eqb n 95.

Definition item_matches (c : ascii) (it : class_item) : bool :=
  match it with
  | CRange lo hi => Nat.leb (nat_of_ascii lo) (nat_of_ascii c) && Nat.leb (nat_of_ascii c) (nat_of_ascii hi)
  | CDigit => is_digit c
  | CWord => is_word c
  | CSpace => is_space c
  end.

Definition class_matches (neg : bool) (items : list class_item) (c : ascii) : bool :=
  xorb neg (existsb (item_matches c) items).

Definition newline : ascii := ascii_of_nat 10.

(** ** The matcher *)

(** The captures of named groups, in the order groups were closed. *)
Definition caps := list (string * string).

Definition slice (w : list ascii) (i j : nat) : string :=
  String.string_of_list_ascii (take (j - i) (drop i w)).

Definition at_end (w : list ascii) (i : nat) : bool :=
  Nat.eqb i (length w) ||
  (Nat.eqb (S i) (length w) && bool_decide (w !! i = Some newline)).

Section Matcher.
Variable w : list ascii.

(** One character test at position [i]. *)
Definition char_step (p : ascii -> bool) (k : nat -> caps -> option (nat * caps))
    (i : nat) (c : caps) : option (nat * caps) :=
  match w !! i with
  | Some x => if p x then k (S i) c else None
  | None => None
  end.

(** The loop of [r*] ([MAX_UNTIL] and [MIN_UNTIL] of CPython's [sre]):
    [body] matches one iteration and [g] says whether to try one more
    iteration before the rest of the pattern.  An iteration may match the
    empty string, but then it is the last one: the engine's zero-width
    protection ([last_ptr]) goes on with the rest of the pattern, keeping
    the captures of that empty iteration. *)
Fixpoint star_loop (body : (nat -> caps -> option (nat * caps)) -> nat -> caps -> option (nat * caps))
    (g : bool) (k : nat -> caps -> option (nat * caps)) (n i : nat) (c : caps)
    : option (nat * caps) :=
  match n with
  | 0 => k i c
  | S n' =>
      let more := body (fun j c' => if Nat.ltb i j then star_loop body g k n' j c' else k j c') i c in
      if g then match more with Some x => Some x | None => k i c end
      else match k i c with Some x => Some x | None => more end
  end.

Fixpoint mt (r : regex) (k : nat -> caps -> option (nat * caps))
    (i : nat) (c : caps) {struct r} : option (nat * caps) :=
  match r with
  | REmpty => k i c
  | RChar ch => char_step (fun x => Ascii.eqb x ch) k i c
  | RAny => char_step (fun x => negb (Ascii.eqb x newline)) k i c
  | RClass neg items => char_step (class_matches neg items) k i c
  | RSeq r1 r2 => mt r1 (fun j c' => mt r2 k j c') i c
  | RAlt r1 r2 =>
      match mt r1 k i c with
      | Some x => Some x
      | None => mt r2 k i c
      end
  | RStar g r1 => star_loop (mt r1) g k (S (length w - i)) i c
  | RGroup nm r1 =>
      mt r1 (fun j c' => k j (match nm with
                              | Some n => dict_set c' n (slice w i j)
                              | None => c' end)) i c
  | RBol => if Nat.eqb i 0 then k i c else None
  | REol => if at_end w i then k i c else None
  end.
End Matcher.

(** The names of the named groups, in the order of their opening
    parentheses (the order of [groupdict]). *)
Fixpoint group_names (r : regex) : list string :=
  match r with
  | RSeq r1 r2 | RAlt r1 r2 => group_names r1 ++ group_names r2
  | RStar _ r1 => group_names r1
  | RGroup (Some n) r1 => n :: group_names r1
  | RGroup None r1 => group_names r1
  | _ => []
  end.

(** A match object: where the match ends and the captured groups. *)
Record re_match_obj : Type := mkMatch { m_end : nat; m_caps : caps }.

(** [pattern.match(s)]: anchored at the start of [s], not at its end. *)
Definition re_match (r : regex) (s : string) : option re_match_obj :=
  match mt (String.list_ascii_of_string s) r (fun j c => Some (j, c)) 0 [] with
  | Some (j, c) => Some (mkMatch j c)
  | None => None
  end.

(** [m.groupdict()]: every named group, [None] for one that did not take
    part in the match. *)
Definition groupdict (r : regex) (m : re_match_obj) : list (pykey * pyval) :=
  map (fun n => (KStr n, match dict_get (m_caps m) n with
                         | Some v => PStr v
                         | None => PNone
                         end)) (group_names r).

(** ** Declarative semantics *)

(** [matches w r i j c c']: [r] matches [w] from position [i] to [j],
    turning the captures [c] into [c']. *)
Inductive matches (w : list ascii) : regex -> nat -> nat -> caps -> caps -> Prop :=
| m_empty i c : matches w REmpty i i c c
| m_char i ch c : w !! i = Some ch -> matches w (RChar ch) i (S i) c c
| m_any i x c : w !! i = Some x -> x <> newline -> matches w RAny i (S i) c c
| m_class i x neg items c :
    w !! i = Some x -> class_matches neg items x = true ->
    matches w (RClass neg items) i (S i) c c
| m_seq r1 r2 i j l c1 c2 c3 :
    matches w r1 i j c1 c2 -> matches w r2 j l c2 c3 -> matches w (RSeq r1 r2) i l c1 c3
| m_alt_l r1 r2 i j c c' : matches w r1 i j c c' -> matches w (RAlt r1 r2) i j c c'
| m_alt_r r1 r2 i j c c' : matches w r2 i j c c' -> matches w (RAlt r1 r2) i j c c'
| m_star_stop g r i c : matches w (RStar g r) i i c c
| m_star_empty g r i c1 c2 : matches w r i i c1 c2 -> matches w (RStar g r) i i c1 c2
| m_star_more g r i j l c1 c2 c3 :
    i < j -> matches w r i j c1 c2 -> matches w (RStar g r) j l c2 c3 ->
    matches w (RStar g r) i l c1 c3
| m_group nm r i j c c' :
    matches w r i j c c' ->
    matches w (RGroup nm r) i j c
      (match nm with Some n => dict_set c' n (slice w i j) | None => c' end)
| m_bol c : matches w RBol 0 0 c c
| m_eol i c : at_end w i = true -> matches w REol i i c c.

#[export] Hint Constructors matches : restipy.

(** ** Soundness of the matcher *)

(** Matching never moves backwards. *)
Lemma matches_le w r i j c c' : matches w r i j c c' -> i <= j.
Proof. induction 1; lia. Qed.

Definition cont_sound (w : list ascii) (r : regex) (i : nat) (c : caps)
    (k : nat -> caps -> option (nat * caps)) (res : nat * caps) : Prop :=
  exists j c', matches w r i j c c' /\ k j c' = Some res.

Lemma char_step_sound w p k i c res :
  char_step w p k i c = Some res ->
  exists x, w !! i = Some x /\ p x = true /\ k (S i) c = Some res.
Proof.
  unfold char_step. destruct (w !! i) as [x|]; [|done].
  destruct (p x) eqn:Hp; [eauto|done].
Qed.

(** The star loop: every result it reports is a run of iterations,
    each consuming input, followed by the continuation. *)
Lemma star_loop_sound w g r1 k
    (IH : forall k i c res, mt w r1 k i c = Some res -> cont_sound w r1 i c k res) :
  forall n i c res,
    star_loop (mt w r1) g k n i c = Some res -> cont_sound w (RStar g r1) i c k res.
Proof.
  induction n as [|n IHn]; intros i c res H; simpl in H.
  { exists i, c. split; [constructor|done]. }
  set (more := mt w r1 _ i c) in H.
  assert (Hmore : more = Some res -> cont_sound w (RStar g r1) i c k res).
  { intros Hm. destruct (IH _ _ _ _ Hm) as (j & c' & Hm1 & Hk).
    destruct (Nat.ltb_spec i j) as [Hij|Hji].
    - destruct (IHn _ _ _ Hk) as (l & c'' & Hm2 & Hk2).
      exists l, c''. split; [econstructor; eauto|done].
    - pose proof (matches_le _ _ _ _ _ _ Hm1). assert (j = i) as -> by lia.
      exists i, c'. split; [by constructor|done]. }
  assert (Hstop : k i c = Some res -> cont_sound w (RStar g r1) i c k res).
  { intros Hk. exists i, c. split; [constructor|done]. }
  destruct g; [destruct more eqn:E | destruct (k i c) eqn:E]; simplify_eq; auto.
Qed.

Theorem mt_sound w r : forall k i c res,
  mt w r k i c = Some res -> cont_sound w r i c k res.
Proof.
  induction r as [| ch | | neg items | r1 IH1 r2 IH2 | r1 IH1 r2 IH2
                 | g r1 IH1 | nm r1 IH1 | |]; intros k i c res H; simpl in H.
  - exists i, c. split; [constructor|done].
  - destruct (char_step_sound _ _ _ _ _ _ H) as (x & Hx & Hp & Hk).
    apply Ascii.eqb_eq in Hp as ->. exists (S i), c. split; [by constructor|done].
  - destruct (char_step_sound _ _ _ _ _ _ H) as (x & Hx & Hp & Hk).
    exists (S i), c. split; [|done]. constructor 3 with x; [done|].
    intros ->. by rewrite Ascii.eqb_refl in Hp.
  - destruct (char_step_sound _ _ _ _ _ _ H) as (x & Hx & Hp & Hk).
    exists (S i), c. split; [econstructor; eauto|done].
  - destruct (IH1 _ _ _ _ H) as (j & c' & Hm1 & Hk).
    destruct (IH2 _ _ _ _ Hk) as (l & c'' & Hm2 & Hk2).
    exists l, c''. split; [econstructor; eauto|done].
  - destruct (mt w r1 k i c) eqn:E1.
    + simplify_eq. destruct (IH1 _ _ _ _ E1) as (j & c' & ? & ?).
      exists j, c'. split; [by apply m_alt_l|done].
    + destruct (IH2 _ _ _ _ H) as (j & c' & ? & ?). exists j, c'. split; [by apply m_alt_r|done].
  - exact (star_loop_sound w g r1 k IH1 (S (length w - i)) i c res H).
  - destruct (IH1 _ _ _ _ H) as (j & c' & Hm & Hk).
    eexists j, _. split; [econstructor; eauto|exact Hk].
  - destruct (Nat.eqb_spec i 0) as [->|]; [|done]. exists 0, c. split; [constructor|done].
  - destruct (at_end w i) eqn:E; [|done]. exists i, c. split; [by constructor|done].
Qed.

(** What [re_match] reports is a match of the pattern on a prefix of the
    subject, with the captures it reports. *)
Corollary re_match_sound r s m :
  re_match r s = Some m ->
  matches (String.list_ascii_of_string s) r 0 (m_end m) [] (m_caps m).
Proof.
  unfold re_match. destruct (mt _ r _ 0 []) as [[j c]|] eqn:E; [|done].
  intros [= <-]. destruct (mt_sound _ _ _ _ _ _ E) as (j' & c' & Hm & [= -> ->]).
  done.
Qed.

(** A match covers a prefix of the subject: [m_end] is at most its
    length. *)
Lemma matches_bounds w r i j c c' : matches w r i j c c' -> i <= length w -> i <= j <= length w.
Proof.
  induction 1; intros Hi;
    repeat match goal with
    | H : _ !! _ = Some _ |- _ => apply lookup_lt_Some in H
    | IH : _ <= length _ -> _ |- _ => specialize (IH ltac:(lia))
    end; lia.
Qed.

(** ** Completeness of the matcher *)

Lemma char_step_complete w p k i x c :
  w !! i = Some x -> p x = true -> is_Some (k (S i) c) -> is_Some (char_step w p k i c).
Proof. unfold char_step. by intros -> ->. Qed.

(** What a derivation gives the matcher: for a continuation that accepts
    its end, [mt] succeeds; for a star, so does the loop with any fuel
    larger than the input the derivation consumes. *)
Definition complete_at (w : list ascii) (r : regex) (i j : nat) (c c' : caps) : Prop :=
  (forall k, is_Some (k j c') -> is_Some (mt w r k i c)) /\
  match r with
  | RStar g r1 => forall k n, j - i < n -> is_Some (k j c') -> is_Some (star_loop (mt w r1) g k n i c)
  | _ => True
  end.

Lemma complete_star w g r1 i j c c' :
  j <= length w ->
  (forall k n, j - i < n -> is_Some (k j c') -> is_Some (star_loop (mt w r1) g k n i c)) ->
  complete_at w (RStar g r1) i j c c'.
Proof. intros Hj H. split; [|done]. intros k Hk. cbn [mt]. apply H; [lia|done]. Qed.

Lemma matches_complete w r i j c c' :
  matches w r i j c c' -> i <= length w -> complete_at w r i j c c'.
Proof.
  induction 1 as [i c|i ch c Hx|i x c Hx Hn|i x neg items c Hx Hc
                 |r1 r2 i j l c1 c2 c3 H1 IH1 H2 IH2|r1 r2 i j c c' H IH|r1 r2 i j c c' H IH
                 |g r i c|g r i c1 c2 H IH|g r i j l c1 c2 c3 Hij H1 IH1 H2 IH2|nm r i j c c' H IH|c|i c He]; intros Hi.
  - by split.
  - split; [|done]. intros k Hk. eapply char_step_complete; [done|apply Ascii.eqb_refl|done].
  - split; [|done]. intros k Hk. eapply char_step_complete; [done| |done].
    by destruct (Ascii.eqb_spec x newline).
  - split; [|done]. intros k Hk. by eapply char_step_complete.
  - pose proof (matches_bounds _ _ _ _ _ _ H1 Hi). split; [|done]. intros k Hk.
    apply (proj1 (IH1 Hi)), (proj1 (IH2 ltac:(lia))), Hk.
  - split; [|done]. intros k Hk. cbn [mt]. by destruct (proj1 (IH Hi) k Hk) as [? ->].
  - split; [|done]. intros k Hk. cbn [mt]. destruct (mt w r1 k i c); [done|]. by apply (proj1 (IH Hi)).
  - apply complete_star; [done|]. intros k [|n] Hn Hk; [lia|]. cbn [star_loop].
    destruct g; [destruct (mt w r _ i c); [done|]|destruct Hk as [? ->]]; done.
  - apply complete_star; [done|]. intros k [|n] Hn Hk; [lia|]. cbn [star_loop].
    assert (Hmore : is_Some (mt w r (fun j' c' => if Nat.ltb i j' then star_loop (mt w r) g k n j' c' else k j' c') i c1)).
    { apply (proj1 (IH Hi)). by rewrite Nat.ltb_irrefl. }
    destruct g; [by destruct Hmore as [? ->]|]. destruct (k i c1); [done|]. by destruct Hmore as [? ->].
  - pose proof (matches_bounds _ _ _ _ _ _ H1 Hi).
    pose proof (matches_bounds _ _ _ _ _ _ H2 ltac:(lia)).
    apply complete_star; [lia|]. intros k [|n] Hn Hk; [lia|]. cbn [star_loop].
    assert (Hmore : is_Some (mt w r (fun j' c' => if Nat.ltb i j' then star_loop (mt w r) g k n j' c' else k j' c') i c1)).
    { apply (proj1 (IH1 Hi)). destruct (Nat.ltb_spec i j); [|lia]. apply (proj2 (IH2 ltac:(lia))); [lia|done]. }
    destruct g; [by destruct Hmore as [? ->]|]. destruct (k i c1); [done|]. by destruct Hmore as [? ->].
  - split; [|done]. intros k Hk. apply (proj1 (IH Hi)), Hk.
  - split; [|done]. intros k Hk. done.
  - split; [|done]. intros k Hk. cbn [mt]. by rewrite He.
Qed.

(** [re_match] finds a match whenever a prefix of the subject is in the
    language of the pattern. *)
Lemma re_match_complete r s j c :
  matches (String.list_ascii_of_string s) r 0 j [] c -> is_Some (re_match r s).
Proof.
  intros H. destruct (proj1 (matches_complete _ _ _ _ _ _ H ltac:(lia)) (fun j c => Some (j, c)) ltac:(eauto))
    as [[j' c'] Hm].
  unfold re_match. by rewrite Hm.
Qed.

(** C4: the route-pattern matcher answers [None] exactly when no prefix of
    the path is in the pattern's language: [pattern.match] neither misses
    a match nor invents one. *)
Theorem re_match_none_iff r s :
  re_match r s = None <-> forall j c, ~ matches (String.list_ascii_of_string s) r 0 j [] c.
Proof.
  split.
  - intros Hn j c Hm. destruct (re_match_complete _ _ _ _ Hm) as [m Hs]. congruence.
  - intros Hno. destruct (re_match r s) as [m|] eqn:E; [|done].
    by destruct (Hno _ _ (re_match_sound _ _ _ E)).
Qed.

(** ** Which match [re] reports *)

(** The reference semantics of Python's backtracking order: every way
    the pattern can match from [i], listed in the order the engine tries
    them (left branch first; a greedy star one more iteration first, a
    lazy one the reverse; an iteration must consume input). *)
Section Successes.
Variable w : list ascii.

Definition char_all (p : ascii -> bool) (i : nat) (c : caps) : list (nat * caps) :=
  match w !! i with
  | Some x => if p x then [(S i, c)] else []
  | None => []
  end.

Fixpoint star_all (body : nat -> caps -> list (nat * caps)) (g : bool) (n i : nat) (c : caps)
    : list (nat * caps) :=
  match n with
  | 0 => [(i, c)]
  | S n' =>
      let more := body i c ≫= (fun jc => if Nat.ltb i jc.1 then star_all body g n' jc.1 jc.2 else [jc]) in
      if g then more ++ [(i, c)] else (i, c) :: more
  end.

Fixpoint all_matches (r : regex) (i : nat) (c : caps) {struct r} : list (nat * caps) :=
  match r with
  | REmpty => [(i, c)]
  | RChar ch => char_all (fun x => Ascii.eqb x ch) i c
  | RAny => char_all (fun x => negb (Ascii.eqb x newline)) i c
  | RClass neg items => char_all (class_matches neg items) i c
  | RSeq r1 r2 => all_matches r1 i c ≫= (fun jc => all_matches r2 jc.1 jc.2)
  | RAlt r1 r2 => all_matches r1 i c ++ all_matches r2 i c
  | RStar g r1 => star_all (all_matches r1) g (S (length w - i)) i c
  | RGroup nm r1 =>
      map (fun jc => (jc.1, match nm with
                            | Some n => dict_set jc.2 n (slice w i jc.1)
                            | None => jc.2 end)) (all_matches r1 i c)
  | RBol => if Nat.eqb i 0 then [(i, c)] else []
  | REol => if at_end w i then [(i, c)] else []
  end.
End Successes.

(** The continuation applied to a list of results: the first it accepts. *)
Definition first_accepted (k : nat -> caps -> option (nat * caps)) (l : list (nat * caps)) :=
  first_some (fun jc => k jc.1 jc.2) l.

Lemma char_step_all w p k i c : char_step w p k i c = first_accepted k (char_all w p i c).
Proof. unfold char_step, char_all, first_accepted. destruct (w !! i); [|done]. destruct (p a); cbn; [by destruct (k (S i) c)|done]. Qed.

Lemma star_loop_all (body_mt : (nat -> caps -> option (nat * caps)) -> nat -> caps -> option (nat * caps))
    (body_all : nat -> caps -> list (nat * caps)) g :
  (forall k i c, body_mt k i c = first_accepted k (body_all i c)) ->
  forall n k i c, star_loop body_mt g k n i c = first_accepted k (star_all body_all g n i c).
Proof.
  intros Hbody. induction n as [|n IH]; intros k i c; [by cbn; destruct (k i c)|]. cbn [star_loop star_all].
  unfold first_accepted. rewrite Hbody. unfold first_accepted.
  rewrite (first_some_ext _ (fun jc => first_some (fun jc => k jc.1 jc.2)
             (if Nat.ltb i jc.1 then star_all body_all g n jc.1 jc.2 else [jc])));
    [|intros [j c']; cbn [fst snd]; destruct (Nat.ltb i j); [apply IH|cbn; by destruct (k j c')]].
  rewrite <- first_some_bind. destruct g.
  - rewrite first_some_app. cbn [first_some fst snd]. destruct (first_some _ _); [done|by destruct (k i c)].
  - cbn [first_some fst snd]. by destruct (k i c).
Qed.

(** The matcher tries the matches in that order: with any continuation,
    it answers what the continuation gives for the first match it
    accepts. *)
Lemma mt_all w r : forall k i c, mt w r k i c = first_accepted k (all_matches w r i c).
Proof.
  induction r as [| ch | | neg items | r1 IH1 r2 IH2 | r1 IH1 r2 IH2
                 | g r1 IH1 | nm r1 IH1 | |]; intros k i c; cbn [mt all_matches];
    try apply char_step_all; unfold first_accepted in *.
  - cbn. by destruct (k i c).
  - rewrite IH1, first_some_bind. apply first_some_ext. intros [j c']. apply IH2.
  - by rewrite IH1, IH2, first_some_app.
  - apply star_loop_all, IH1.
  - rewrite IH1, first_some_map. by apply first_some_ext.
  - destruct (Nat.eqb i 0); cbn; [by destruct (k i c)|done].
  - destruct (at_end w i); cbn; [by destruct (k i c)|done].
Qed.

(** The continuation that accepts exactly one result. *)
Definition accept_only (x : nat * caps) (j : nat) (c : caps) : option (nat * caps) :=
  if decide ((j, c) = x) then Some x else None.

Lemma first_accepted_only x l : first_accepted (accept_only x) l = Some x <-> x ∈ l.
Proof.
  unfold first_accepted. induction l as [|y l IH]; cbn [first_some]; [rewrite elem_of_nil; split; [done|tauto]|].
  rewrite elem_of_cons, <- IH. unfold accept_only. destruct y as [j c]. cbn [fst snd].
  case_decide as Hy; [subst; naive_solver|]. naive_solver.
Qed.

(** The reference enumeration lists exactly the matches of the pattern. *)
Lemma all_matches_spec w r i j c c' :
  i <= length w -> (j, c') ∈ all_matches w r i c <-> matches w r i j c c'.
Proof.
  intros Hi. rewrite <- first_accepted_only, <- mt_all. split.
  - intros H. destruct (mt_sound _ _ _ _ _ _ H) as (j' & c'' & Hm & Hk).
    unfold accept_only in Hk. case_decide; simplify_eq. done.
  - intros Hm. destruct (proj1 (matches_complete _ _ _ _ _ _ Hm Hi) (accept_only (j, c')))
      as [y Hy]; [unfold accept_only; rewrite decide_True; eauto|].
    destruct (mt_sound _ _ _ _ _ _ Hy) as (j' & c'' & _ & Hk). unfold accept_only in Hk.
    case_decide; simplify_eq. done.
Qed.

(** C5: [pattern.match] reports the first of the pattern's matches in
    Python's backtracking order, empty star iterations taken as [sre]'s
    zero-width protection takes them: its end and its captures are those of
    the head of [all_matches], which lists exactly the matches of the
    pattern on a prefix of the subject. *)
Theorem re_match_first r s :
  re_match r s =
    option_map (fun jc => mkMatch jc.1 jc.2) (head (all_matches (String.list_ascii_of_string s) r 0 [])) /\
  (forall j c, (j, c) ∈ all_matches (String.list_ascii_of_string s) r 0 [] <->
               matches (String.list_ascii_of_string s) r 0 j [] c).
Proof.
  split; [|intros j c; apply all_matches_spec; lia].
  unfold re_match. rewrite mt_all. unfold first_accepted.
  by destruct (all_matches _ r 0 []) as [|[j c] l].
Qed.

(** Priority at work: a greedy first group takes the whole word, a lazy
    one leaves it to the second group. *)
Example greedy_lazy_priority :
  let two g := RSeq (RGroup (Some "a") (RStar g (RClass false [CWord]))) (RGroup (Some "b") (RStar true (RClass false [CWord]))) in
  option_map m_caps (re_match (two true) "ab") = Some [("a", "ab"); ("b", "")] /\
  option_map m_caps (re_match (two false) "ab") = Some [("a", ""); ("b", "ab")].
Proof. split; vm_compute; reflexivity. Qed.

(** Zero-width protection: [re.match(r'(?:(?P<x>a?))*', '')] takes one
    empty iteration and reports [x = ''], and a starred group around
    [a*] (the pattern [r'(a*' ')*'] in two pieces) matched against ['b']
    reports the empty group, also on ['aab'], where the second
    iteration matches empty after the first took ['aa']. *)
Example star_empty_iteration :
  option_map m_caps (re_match (RStar true (RGroup (Some "x") (ROpt (RChar "a")))) "") = Some [("x", "")] /\
  option_map m_caps (re_match (RStar true (RGroup (Some "1") (RStar true (RChar "a")))) "b") = Some [("1", "")] /\
  option_map m_caps (re_match (RStar true (RGroup (Some "1") (RStar true (RChar "a")))) "aab") = Some [("1", "")].
Proof. repeat split; vm_compute; reflexivity. Qed.

(** ** Witness *)

(** [re.compile(r'/u(?P<id>\d+)')]. *)
Definition id_pattern : regex :=
  RSeq (RLit "/u") (RGroup (Some "id") (RPlus (RClass false [CDigit]))).

Lemma re_match_sound_witness :
  matches (String.list_ascii_of_string "/u42") id_pattern 0 4 [] [("id", "42")].
Proof. apply (re_match_sound id_pattern "/u42" (mkMatch 4 [("id", "42")])). vm_compute. reflexivity. Defined.
