(* ===== verification/Request.v ===== *)
(** * The Request object (src/src/restipy/core/request.py)

    [environ] is the WSGI environment: the CGI variables as a gmap, the
    unread bytes of [wsgi.input], the text written to [wsgi.errors] ([None]
    when the key is absent) and the settings reachable through
    [env['restipy.app'].config].  [request] has the slots of the class
    ([env], [ctx], [_params], [_headers], [_files], [_form]) and the
    temporary files it has written.  [_params] starts as the default
    argument [params={}] of [__init__], one dict for the whole process:
    the slot says whether it still points there, and [req_default] holds
    that shared dict's content, which [process_request] hands from one
    request to the next.  Methods that read or change the request, or raise, are
    computations [RM A] of the state monad of the prelude.

    [_read_body] is the bounded reader: its loop [read_loop] reads 64 KiB
    chunks while fewer than [max(content_length, MAX_BODY_SIZE)] bytes have
    been read.  The theorems give its closed form ([read_body_spec]: it
    reads [CHUNK * nchunks 0 toread] bytes or the whole stream, whichever
    is shorter), its error branches, the fuel it needs, and how far past
    [CONTENT_LENGTH] and [MAX_BODY_SIZE] it reads.

    The body accessors [json], [form] and [files] are lazily cached in
    [_form] and [_files], with the cache tested by truthiness; the
    library functions they call are the operations of [BodyCodec]. *)

From stdpp Require Import base list strings gmap pretty.
From Stdlib Require Import ZArith Ascii Lia.
From Stdlib.Strings Require Import Byte.
From S2P Require Import Prelude Values.

Local Open Scope string_scope.

(** ** The WSGI environment *)

(** What the code reads of [self.config] (spec, section 6). *)
Record settings : Type := mkSettings {
  DEBUG : option pyval;          (** [None]: the attribute is missing *)
  MAX_BODY_SIZE : option Z
}.

Record environ : Type := mkEnv {
  env_vars : gmap string string;
  wsgi_input : list byte;
  wsgi_errors : option (list string);
  (** [env['restipy.app'].config]: [None] when the key is missing,
      [Some None] when the application has no [config] attribute. *)
  restipy_app : option (option settings)
}.

Record uploaded_file : Type := mkUploaded {
  uf_filename : string;
  uf_content_type : string;
  uf_filepath : string
}.

(** Where [_params] points: the default dict of [__init__], one object
    shared by every Request built without [params], or a dict of the
    request's own. *)
Inductive params_slot : Type :=
| SharedDefault
| OwnDict (d : list (pykey * pyval)).

Record request : Type := mkRequest {
  req_env : environ;
  req_ctx : list (string * pyval);
  req_params : params_slot;
  (** The content of the shared default dict while this request runs. *)
  req_default : list (pykey * pyval);
  (** [_headers]: [None] until [req.header] is first read. *)
  req_headers : option (gmap string string);
  req_files : list (pykey * uploaded_file);
  req_form : pyval;
  req_tmpfiles : list (string * list byte)
}.

(** [Request(environ)]: [_params] is the default dict, whose content
    [dflt] is what earlier requests left in it; [_headers] is [None],
    [_form] and [_files] start empty. *)
Definition new_request (dflt : list (pykey * pyval)) (env : environ) : request :=
  {| req_env := env; req_ctx := []; req_params := SharedDefault; req_default := dflt;
     req_headers := None; req_files := [];
     req_form := PDict []; req_tmpfiles := [] |}.

Abbreviation RM := (st request exc).

Definition set_env (e : environ) (r : request) : request :=
  {| req_env := e; req_ctx := req_ctx r; req_params := req_params r; req_default := req_default r; req_headers := req_headers r;
     req_files := req_files r; req_form := req_form r; req_tmpfiles := req_tmpfiles r |}.
Definition set_input (inp : list byte) (r : request) : request :=
  set_env {| env_vars := env_vars (req_env r); wsgi_input := inp;
             wsgi_errors := wsgi_errors (req_env r); restipy_app := restipy_app (req_env r) |} r.
Definition set_params_field (p : list (pykey * pyval)) (r : request) : request :=
  {| req_env := req_env r; req_ctx := req_ctx r; req_params := OwnDict p; req_default := req_default r; req_headers := req_headers r;
     req_files := req_files r; req_form := req_form r; req_tmpfiles := req_tmpfiles r |}.
Definition set_form (f : pyval) (r : request) : request :=
  {| req_env := req_env r; req_ctx := req_ctx r; req_params := req_params r; req_default := req_default r; req_headers := req_headers r;
     req_files := req_files r; req_form := f; req_tmpfiles := req_tmpfiles r |}.

(** ** Properties *)

Definition env_get (r : request) (k d : string) : string :=
  default d (env_vars (req_env r) !! k).

(** [req.method]. *)
Definition method (r : request) : string := str_upper (env_get r "REQUEST_METHOD" "GET").

(** [req.path]. *)
Definition path (r : request) : string := env_get r "PATH_INFO" "/".

(** [req.content_type]. *)
Definition content_type (r : request) : string := env_get r "CONTENT_TYPE" "".

(** [req.protocol] and [req.secure]. *)
Definition protocol (r : request) : string := str_upper (env_get r "wsgi.url_scheme" "http").
Definition secure (r : request) : bool := String.eqb (protocol r) "HTTPS".

(** [req.accept]: lower-cased when present and non-empty. *)
Definition accept (r : request) : option string :=
  match env_vars (req_env r) !! "HTTP_ACCEPT" with
  | Some a => if String.eqb a "" then Some a else Some (str_lower a)
  | None => None
  end.

(** [req.content_length]: [int(...)] raises ValueError on bad text. *)
Definition content_length : RM Z :=
  fun r =>
    let s := env_get r "CONTENT_LENGTH" "0" in
    match py_int s with
    | Some z => (r, Ok z)
    | None => (r, Exn (PyError "ValueError" ("invalid literal for int() with base 10: '" ++ s ++ "'")))
    end.

(** [req.set_params = params]. *)
Definition set_params (p : list (pykey * pyval)) : RM unit := smodify (set_params_field p).

(** [req.params]: the dict [_params] points to. *)
Definition params (r : request) : list (pykey * pyval) :=
  match req_params r with SharedDefault => req_default r | OwnDict d => d end.

Definition set_default (d : list (pykey * pyval)) (r : request) : request :=
  {| req_env := req_env r; req_ctx := req_ctx r; req_params := req_params r; req_default := d;
     req_headers := req_headers r; req_files := req_files r; req_form := req_form r;
     req_tmpfiles := req_tmpfiles r |}.

(** [req.params[k] = v], as a hook may write it: the dict [_params]
    points to is updated in place, the shared default one included. *)
Definition params_setitem (k : pykey) (v : pyval) : RM unit :=
  smodify (fun r => match req_params r with
                    | SharedDefault => set_default (dict_set (req_default r) k v) r
                    | OwnDict d => set_params_field (dict_set d k v) r
                    end).

(** ** [_read_body] *)

Definition CHUNK : Z := 65536.

(** [64 * 1024] as a length; never unfolded by [simpl]. *)
Definition chunk_len : nat := Z.to_nat CHUNK.
Arguments chunk_len : simpl never.

(** [while readbytes < toread: chunk = input.read(64 * 1024); if not
    chunk: break; readbytes += len(chunk); yield chunk].  [input.read(n)]
    returns the next [n] bytes, fewer only at the end of the stream. *)
Fixpoint read_loop (fuel : nat) (readbytes toread : Z) (inp : list byte)
    : list (list byte) * list byte :=
  match fuel with
  | O => ([], inp)
  | S f =>
      if Z.ltb readbytes toread then
        let chunk := take chunk_len inp in
        let rest := drop chunk_len inp in
        match chunk with
        | [] => ([], rest)
        | _ => let '(cs, r) := read_loop f (readbytes + Z.of_nat (length chunk)) toread rest in
               (chunk :: cs, r)
        end
      else ([], inp)
  end.

(** One more unit of fuel than the stream has bytes. *)
Definition read_fuel (inp : list byte) : nat := S (length inp).

Definition body_too_large : exc :=
  HTTPException "Request body too large." 413 "REQUEST_BODY_TOO_LARGE" None.

Definition missing_max_body_size : exc :=
  HTTPException "Missing MAX_BODY_SIZE in settings." 500 "MISSING_MAX_BODY_SIZE" None.

(** [self.app.config.MAX_BODY_SIZE] inside its [try]: any failure
    becomes the 500 HTTPException. *)
Definition max_body_size : RM Z :=
  fun r =>
    match restipy_app (req_env r) with
    | Some (Some cfg) =>
        match MAX_BODY_SIZE cfg with
        | Some m => (r, Ok m)
        | None => (r, Exn missing_max_body_size)
        end
    | _ => (r, Exn missing_max_body_size)
    end.

Definition reads_body (m : string) : bool :=
  bool_decide (m ∈ ["POST"; "PUT"; "PATCH"]).

(** [Request._read_body]: the chunks read, the stream advanced past them. *)
Definition _read_body : RM (list (list byte)) :=
  fun r =>
    if negb (reads_body (method r)) then (r, Ok []) else
    (let* cl := content_length in
     let* mbs := max_body_size in
     if Z.gtb cl mbs then sraise body_too_large else
     fun r =>
       let inp := wsgi_input (req_env r) in
       let '(chunks, rest) := read_loop (read_fuel inp) 0 (Z.max cl mbs) inp in
       (set_input rest r, Ok chunks)) r.

(** The number of chunks the loop reads from [readbytes] up to [toread]
    when the stream does not run out. *)
Definition nchunks (readbytes toread : Z) : nat :=
  if Z.ltb readbytes toread then Z.to_nat ((toread - readbytes + CHUNK - 1) / CHUNK) else 0.
Arguments nchunks : simpl never.

(** ** The reading loop *)

Lemma chunk_len_pos : (0 < chunk_len)%nat.
Proof. unfold chunk_len, CHUNK. lia. Qed.

Lemma chunk_len_Z : Z.of_nat chunk_len = CHUNK.
Proof. unfold chunk_len, CHUNK. lia. Qed.

(** One full chunk less to read. *)
Lemma nchunks_step r t :
  (r < t)%Z -> nchunks r t = S (nchunks (r + CHUNK) t).
Proof.
  unfold nchunks, CHUNK. intros Hlt.
  rewrite (proj2 (Z.ltb_lt r t) Hlt).
  destruct (Z.ltb_spec (r + 65536) t) as [Hlt'|Hge].
  - assert ((t - r + 65536 - 1) / 65536 = (t - (r + 65536) + 65536 - 1) / 65536 + 1)%Z as ->.
    { rewrite <- (Z.div_add _ 1 65536) by lia. f_equal. lia. }
    rewrite Z2Nat.inj_add; [lia| |lia]. apply Z.div_pos; lia.
  - assert ((t - r + 65536 - 1) / 65536 = 1)%Z as -> by (symmetry; apply Z.div_unique with (t - r - 1)%Z; lia).
    reflexivity.
Qed.

Lemma nchunks_stop r t : (t <= r)%Z -> nchunks r t = 0%nat.
Proof. unfold nchunks. intros H. by rewrite (proj2 (Z.ltb_ge r t) H). Qed.

(** Closed form of the loop: it reads [CHUNK * nchunks] bytes, or the
    whole stream when that is shorter, and leaves the rest unread. *)
Lemma read_loop_spec f r t inp :
  (length inp < f)%nat ->
  concat (read_loop f r t inp).1 = take (chunk_len * nchunks r t) inp /\
  (read_loop f r t inp).2 = drop (chunk_len * nchunks r t) inp.
Proof.
  revert r inp. induction f as [|f IH]; intros r inp Hf; [lia|]. cbn [read_loop].
  destruct (Z.ltb_spec r t) as [Hlt|Hge]; cycle 1.
  { rewrite nchunks_stop by lia. by rewrite Nat.mul_0_r. }
  pose proof chunk_len_pos as Hc.
  destruct inp as [|b inp'] eqn:Einp.
  { rewrite take_nil, drop_nil. cbn [concat fst snd]. by rewrite take_nil, drop_nil. }
  rewrite <- Einp. destruct (take chunk_len inp) as [|c cs] eqn:Ech.
  { apply (f_equal length) in Ech. rewrite length_take, Einp in Ech. cbn [length] in Ech. lia. }
  rewrite <- Ech.
  destruct (IH (r + Z.of_nat (length (take chunk_len inp)))%Z (drop chunk_len inp))
    as [IHc IHr].
  { rewrite length_drop, Einp. cbn [length] in *. lia. }
  destruct (read_loop f _ t _) as [cs' rest] eqn:Eloop. cbn [concat fst snd] in *.
  rewrite nchunks_step by done.
  destruct (decide (chunk_len <= length inp)%nat) as [Hfull|Hshort].
  - rewrite length_take_le in IHc, IHr by done. rewrite chunk_len_Z in IHc, IHr.
    rewrite IHc, IHr, Nat.mul_succ_r, (Nat.add_comm _ chunk_len), <- take_take_drop, drop_drop.
    done.
  - assert (Ht : take chunk_len inp = inp) by (apply take_ge; lia).
    assert (Hd : drop chunk_len inp = []) by (apply drop_ge; lia).
    rewrite Ht, Hd in *. rewrite take_nil in IHc. rewrite drop_nil in IHr.
    rewrite IHc, IHr, app_nil_r.
    split; [symmetry; apply take_ge|symmetry; apply drop_ge]; nia.
Qed.

(** The loop stops before its fuel runs out: any fuel larger than the
    stream gives the same result. *)
Lemma read_loop_fuel f1 f2 r t inp :
  (length inp < f1)%nat -> (length inp < f2)%nat ->
  read_loop f1 r t inp = read_loop f2 r t inp.
Proof.
  revert f2 r inp. induction f1 as [|f1 IH]; intros [|f2] r inp H1 H2; try lia.
  cbn [read_loop]. destruct (Z.ltb r t); [|done].
  destruct (take chunk_len inp) as [|c cs] eqn:Ech; [done|].
  rewrite (IH f2); [done| |].
  all: rewrite length_drop; pose proof chunk_len_pos;
       destruct inp; [by rewrite take_nil in Ech|cbn [length] in *; lia].
Qed.

(** [nchunks 0 t] chunks cover [t] bytes and overshoot by less than one
    chunk. *)
Lemma nchunks_cover t :
  (0 < t)%Z ->
  (t <= Z.of_nat (chunk_len * nchunks 0 t) < t + CHUNK)%Z.
Proof.
  intros Ht. unfold nchunks. rewrite (proj2 (Z.ltb_lt 0 t) Ht).
  rewrite Nat2Z.inj_mul, chunk_len_Z, Z2Nat.id; [|apply Z.div_pos; unfold CHUNK; lia].
  unfold CHUNK. Z.div_mod_to_equations. lia.
Qed.

(** The branches of [_read_body] once the method, the content length and
    the limit are known. *)
Lemma read_body_eq r cl mbs :
  reads_body (method r) = true ->
  content_length r = (r, Ok cl) ->
  max_body_size r = (r, Ok mbs) ->
  _read_body r =
    if Z.gtb cl mbs then (r, Exn body_too_large)
    else let inp := wsgi_input (req_env r) in
         let '(chunks, rest) := read_loop (read_fuel inp) 0 (Z.max cl mbs) inp in
         (set_input rest r, Ok chunks).
Proof.
  intros Hm Hcl Hmax. unfold _read_body. rewrite Hm. cbn [negb].
  rewrite (sbind_ok _ _ _ _ _ Hcl), (sbind_ok _ _ _ _ _ Hmax).
  by destruct (Z.gtb cl mbs).
Qed.

(** ** Properties of [_read_body] *)

Lemma read_body_spec_core r cl mbs :
  reads_body (method r) = true ->
  content_length r = (r, Ok cl) ->
  max_body_size r = (r, Ok mbs) ->
  (cl <= mbs)%Z ->
  exists chunks,
    _read_body r = (set_input (drop (chunk_len * nchunks 0 mbs) (wsgi_input (req_env r))) r,
                    Ok chunks) /\
    concat chunks = take (chunk_len * nchunks 0 mbs) (wsgi_input (req_env r)).
Proof.
  intros Hm Hcl Hmax Hle. rewrite (read_body_eq r cl mbs) by done.
  rewrite Z.gtb_ltb, (proj2 (Z.ltb_ge mbs cl)) by lia.
  rewrite Z.max_r by lia. cbv zeta.
  destruct (read_loop_spec (read_fuel (wsgi_input (req_env r))) 0 mbs (wsgi_input (req_env r)))
    as [Hc Hr]; [unfold read_fuel; lia|].
  destruct (read_loop _ _ _ _) as [chunks rest]. cbn [fst snd] in *. subst rest.
  exists chunks. split; [reflexivity|exact Hc].
Qed.

(** C19: the body read is the first [chunk_len * nchunks 0 MAX_BODY_SIZE]
    bytes of the stream (or all of it, when shorter), and the stream is
    left just after them. *)
Theorem read_body_spec r cl mbs :
  reads_body (method r) = true ->
  content_length r = (r, Ok cl) ->
  max_body_size r = (r, Ok mbs) ->
  (cl <= mbs)%Z ->
  exists chunks,
    _read_body r = (set_input (drop (chunk_len * nchunks 0 mbs) (wsgi_input (req_env r))) r,
                    Ok chunks) /\
    concat chunks = take (chunk_len * nchunks 0 mbs) (wsgi_input (req_env r)).
Proof. exact (read_body_spec_core r cl mbs). Qed.

(** C18: The bound [_read_body] really enforces: with [MAX_BODY_SIZE > 0], the
    body read is shorter than [MAX_BODY_SIZE + 64 KiB], and it is at least
    [min(len(stream), MAX_BODY_SIZE)] bytes long whatever
    [CONTENT_LENGTH] says: the reader goes past the declared length, and
    past the limit to the end of the chunk. *)
Theorem read_body_bounds r cl mbs r' chunks :
  reads_body (method r) = true ->
  content_length r = (r, Ok cl) ->
  max_body_size r = (r, Ok mbs) ->
  (cl <= mbs)%Z -> (0 < mbs)%Z ->
  _read_body r = (r', Ok chunks) ->
  (Z.of_nat (length (concat chunks)) < mbs + CHUNK)%Z /\
  (Z.min (Z.of_nat (length (wsgi_input (req_env r)))) mbs <= Z.of_nat (length (concat chunks)))%Z.
Proof.
  intros Hm Hcl Hmax Hle Hpos Hr.
  destruct (read_body_spec_core r cl mbs Hm Hcl Hmax Hle) as (chunks' & Hr' & Hc).
  rewrite Hr in Hr'. simplify_eq. rewrite Hc, length_take.
  pose proof (nchunks_cover mbs Hpos). lia.
Qed.

Lemma read_body_too_large_core r cl mbs :
  reads_body (method r) = true ->
  content_length r = (r, Ok cl) ->
  max_body_size r = (r, Ok mbs) ->
  (mbs < cl)%Z ->
  _read_body r = (r, Exn body_too_large).
Proof.
  intros Hm Hcl Hmax Hlt. rewrite (read_body_eq r cl mbs) by done.
  by rewrite Z.gtb_ltb, (proj2 (Z.ltb_lt mbs cl)).
Qed.

(** C17: A body larger than [MAX_BODY_SIZE] by its declared length is refused
    with 413 before anything is read. *)
Theorem read_body_too_large r cl mbs :
  reads_body (method r) = true ->
  content_length r = (r, Ok cl) ->
  max_body_size r = (r, Ok mbs) ->
  (mbs < cl)%Z ->
  _read_body r = (r, Exn body_too_large).
Proof. exact (read_body_too_large_core r cl mbs). Qed.

(** Only POST, PUT and PATCH have a body: any other method reads nothing
    and changes nothing. *)
Lemma read_body_no_body r :
  reads_body (method r) = false -> _read_body r = (r, Ok []).
Proof. intros Hm. unfold _read_body. by rewrite Hm. Qed.

(** A missing MAX_BODY_SIZE (or application, or config) is the 500
    HTTPException [MISSING_MAX_BODY_SIZE], raised before reading. *)
Lemma read_body_missing_limit r cl :
  reads_body (method r) = true ->
  content_length r = (r, Ok cl) ->
  max_body_size r = (r, Exn missing_max_body_size) ->
  _read_body r = (r, Exn missing_max_body_size).
Proof.
  intros Hm Hcl Hmax. unfold _read_body. rewrite Hm. cbn [negb].
  by rewrite (sbind_ok _ _ _ _ _ Hcl), (sbind_exn _ _ _ _ _ Hmax).
Qed.

(** An empty [CONTENT_LENGTH], which PEP 3333 allows, is not a number for
    [int()]: reading the body of such a POST raises ValueError, which is
    not an HTTPException. *)
Theorem read_body_empty_content_length r :
  reads_body (method r) = true ->
  env_vars (req_env r) !! "CONTENT_LENGTH" = Some "" ->
  _read_body r = (r, Exn (PyError "ValueError" "invalid literal for int() with base 10: ''")).
Proof.
  intros Hm Hcl. unfold _read_body. rewrite Hm. cbn [negb].
  unfold sbind, content_length, env_get. by rewrite Hcl.
Qed.

(** ** Fixtures *)

(** A request as a WSGI server builds it: method, declared length, body
    stream, and an application whose settings carry [mbs]. *)
Definition fixture_request (meth cl ctype : string) (inp : list byte) (mbs : option Z) : request :=
  new_request []
    {| env_vars := list_to_map [("REQUEST_METHOD", meth); ("CONTENT_LENGTH", cl);
                                ("CONTENT_TYPE", ctype); ("PATH_INFO", "/")];
       wsgi_input := inp; wsgi_errors := Some [];
       restipy_app := Some (Some {| DEBUG := Some (PBool false); MAX_BODY_SIZE := mbs |}) |}.

Definition bytes_of (s : string) : list byte := String.list_byte_of_string s.

(** A POST declaring 5 bytes, a limit of 10, and 100 bytes in the stream:
    all 100 are read. *)
Lemma read_body_bounds_witness :
  let r := fixture_request "POST" "5" "" (repeat x61 100) (Some 10%Z) in
  exists r' chunks,
    _read_body r = (r', Ok chunks) /\
    (Z.of_nat (length (concat chunks)) < 10 + CHUNK)%Z /\
    (Z.min (Z.of_nat (length (wsgi_input (req_env r)))) 10 <= Z.of_nat (length (concat chunks)))%Z /\
    length (concat chunks) = 100%nat.
Proof.
  intros r. eexists _, _. split; [reflexivity|].
  split; [|split].
  - eapply (read_body_bounds r 5 10); [reflexivity..|lia|lia|reflexivity].
  - eapply (read_body_bounds r 5 10); [reflexivity..|lia|lia|reflexivity].
  - reflexivity.
Defined.

Lemma read_body_spec_witness :
  let r := fixture_request "PUT" "3" "" (bytes_of "abc") (Some 8%Z) in
  exists chunks,
    _read_body r = (set_input (drop (chunk_len * nchunks 0 8) (wsgi_input (req_env r))) r,
                    Ok chunks) /\
    concat chunks = take (chunk_len * nchunks 0 8) (wsgi_input (req_env r)).
Proof. intros r. apply (read_body_spec r 3 8); [reflexivity..|lia]. Defined.

Lemma read_body_too_large_witness :
  let r := fixture_request "POST" "11" "" (bytes_of "abc") (Some 10%Z) in
  _read_body r = (r, Exn body_too_large).
Proof. intros r. apply (read_body_too_large r 11 10); [reflexivity..|lia]. Defined.

Lemma read_body_empty_content_length_witness :
  let r := fixture_request "POST" "" "" (bytes_of "abc") (Some 10%Z) in
  _read_body r = (r, Exn (PyError "ValueError" "invalid literal for int() with base 10: ''")).
Proof. intros r. apply read_body_empty_content_length; reflexivity. Defined.

(** ** The body parsers *)

(** A MIME part as [email.message] exposes it: [get_filename()],
    [get_param('name', header='content-disposition')],
    [get_content_type()] and [get_payload(decode=True)] ([None] for a
    part that is itself multipart). *)
Record mime_part : Type := mkPart {
  part_filename : option string;
  part_name : option string;
  part_content_type : string;
  part_payload : option (list byte)
}.

Inductive mime_message : Type :=
| NotMultipart
| Multipart (parts : list mime_part).

(** The library functions the parsers call: [bytes.decode()] (UTF-8,
    [None] for UnicodeDecodeError), [urllib.parse.parse_qsl],
    [json.loads] ([None] for a decoding error) and the
    [email.parser.BytesFeedParser] fed with the content type and the body. *)
Class BodyCodec : Type := {
  utf8_decode : list byte -> option string;
  parse_qsl : string -> list (string * string);
  json_loads : string -> option pyval;
  parse_message : string -> list byte -> mime_message
}.

Definition invalid_request_body : exc :=
  HTTPException "Invalid request body." 400 "INVALID_REQUEST_BODY" None.

Definition malformed_json : exc :=
  HTTPException "Malformed JSON body." 400 "INVALID_REQUEST_BODY" None.

Definition unicode_decode_error : exc :=
  PyError "UnicodeDecodeError" "'utf-8' codec can't decode bytes".

(** [target[k] = v]: only a dict supports item assignment with a [str]
    key. *)
Definition py_setitem (target : pyval) (k : pykey) (v : pyval) : outcome exc pyval :=
  match target with
  | PDict d => Ok (PDict (dict_set d k v))
  | PList _ => Exn (type_error "list indices must be integers or slices, not str")
  | PNone => Exn (type_error "'NoneType' object does not support item assignment")
  | PBool _ => Exn (type_error "'bool' object does not support item assignment")
  | PInt _ => Exn (type_error "'int' object does not support item assignment")
  | PStr _ => Exn (type_error "'str' object does not support item assignment")
  | PBytes _ => Exn (type_error "'bytes' object does not support item assignment")
  end.

Definition key_of (name : option string) : pykey :=
  match name with Some n => KStr n | None => KNone end.

(** [if not part.get_filename()]: [None] and [''] are both false. *)
Definition has_filename (p : mime_part) : bool :=
  match part_filename p with Some f => negb (String.eqb f "") | None => false end.

(** A fresh name for [tempfile.NamedTemporaryFile(delete=False)]. *)
Definition tmp_path (n : nat) : string := "/tmp/tmp" ++ pretty n.

Definition set_files (fs : list (pykey * uploaded_file)) (r : request) : request :=
  {| req_env := req_env r; req_ctx := req_ctx r; req_params := req_params r; req_default := req_default r; req_headers := req_headers r;
     req_files := fs; req_form := req_form r; req_tmpfiles := req_tmpfiles r |}.
Definition add_tmpfile (f : string * list byte) (r : request) : request :=
  {| req_env := req_env r; req_ctx := req_ctx r; req_params := req_params r; req_default := req_default r; req_headers := req_headers r;
     req_files := req_files r; req_form := req_form r; req_tmpfiles := req_tmpfiles r ++ [f] |}.

(** [dict(parse_qsl(body))]. *)
Definition form_of_pairs (l : list (string * string)) : pyval :=
  PDict (dict_of_pairs (map (fun kv => (KStr kv.1, PStr kv.2)) l)).

Section Parsers.
Context `{BodyCodec}.

(** [Request._parse_url_encoded_form]. *)
Definition _parse_url_encoded_form : RM (option pyval) :=
  let* f := sgets req_form in
  if truthy f then sret (Some f) else
  let* chunks := _read_body in
  match utf8_decode (concat chunks) with
  | None => sraise invalid_request_body
  | Some s =>
      let form := form_of_pairs (parse_qsl s) in
      let* _ := smodify (set_form form) in
      sret (if truthy form then Some form else None)
  end.

(** [Request._get_multipart_message]. *)
Definition _get_multipart_message : RM mime_message :=
  let* ct := sgets content_type in
  let* chunks := _read_body in
  sret (parse_message ct (concat chunks)).

(** The loop of [_parse_multipart_files]: each part with a file name is
    copied to a new temporary file and recorded under its field name. *)
Fixpoint save_files (parts : list mime_part) : RM unit :=
  match parts with
  | [] => sret tt
  | p :: ps =>
      if negb (has_filename p) then save_files ps else
      let* _ := (fun r =>
        let path := tmp_path (length (req_tmpfiles r)) in
        let r1 := add_tmpfile (path, default [] (part_payload p)) r in
        (set_files (dict_set (req_files r1) (key_of (part_name p))
                      {| uf_filename := default "" (part_filename p);
                         uf_content_type := part_content_type p;
                         uf_filepath := path |}) r1, Ok tt)) in
      save_files ps
  end.

(** [Request._parse_multipart_files]. *)
Definition _parse_multipart_files : RM (option (list (pykey * uploaded_file))) :=
  let* fs := sgets req_files in
  if negb (bool_decide (fs = [])) then sret (Some fs) else
  let* msg := _get_multipart_message in
  match msg with
  | NotMultipart => sret None
  | Multipart parts =>
      let* _ := save_files parts in
      let* fs := sgets req_files in
      sret (if bool_decide (fs = []) then None else Some fs)
  end.

(** The loop of [_parse_multipart_form]: each part without a file name
    is decoded and stored in [_form] under its field name. *)
Fixpoint store_fields (parts : list mime_part) : RM unit :=
  match parts with
  | [] => sret tt
  | p :: ps =>
      if has_filename p then store_fields ps else
      let* v := match part_payload p with
                | Some b => match utf8_decode b with
                            | Some s => sret (PStr s)
                            | None => sraise unicode_decode_error
                            end
                | None => sret PNone
                end in
      let* f := sgets req_form in
      let* f' := sof (py_setitem f (key_of (part_name p)) v) in
      let* _ := smodify (set_form f') in
      store_fields ps
  end.

(** [Request._parse_multipart_form]. *)
Definition _parse_multipart_form : RM (option pyval) :=
  let* f := sgets req_form in
  if truthy f then sret (Some f) else
  let* msg := _get_multipart_message in
  match msg with
  | NotMultipart => sret None
  | Multipart parts =>
      let* _ := store_fields parts in
      let* f := sgets req_form in
      sret (if truthy f then Some f else None)
  end.

Definition json_content_types : list string := ["application/json"; "application/json-rpc"].

(** [Request._parse_json_data]. *)
Definition _parse_json_data : RM (option pyval) :=
  let* f := sgets req_form in
  if truthy f then sret (Some f) else
  let* ct := sgets content_type in
  if negb (bool_decide (split_first ";" (str_lower ct) ∈ json_content_types)) then sret None else
  let* chunks := _read_body in
  let body := concat chunks in
  if bool_decide (body = []) then sret None else
  match utf8_decode body ≫= json_loads with
  | None => sraise malformed_json
  | Some v =>
      let* _ := smodify (set_form v) in
      sret (Some v)
  end.

(** The properties [req.json], [req.form] and [req.files]. *)
Definition json : RM (option pyval) := _parse_json_data.

Definition form : RM (option pyval) :=
  fun r => (if str_startswith (content_type r) "multipart/" then _parse_multipart_form
            else _parse_url_encoded_form) r.

Definition files : RM (option (list (pykey * uploaded_file))) := _parse_multipart_files.
End Parsers.

(** ** What [_read_body] changes *)

Lemma set_input_same r : set_input (wsgi_input (req_env r)) r = r.
Proof. by destruct r as [[]]. Qed.

Lemma wsgi_input_set_input inp r : wsgi_input (req_env (set_input inp r)) = inp.
Proof. reflexivity. Qed.

#[export] Hint Rewrite set_input_same wsgi_input_set_input : restipy_rw.

(** [_read_body] either reads nothing, or reads as [read_body_spec] says. *)
Lemma read_body_cases r r' chunks :
  _read_body r = (r', Ok chunks) ->
  (reads_body (method r) = false /\ r' = r /\ chunks = []) \/
  (exists cl mbs, reads_body (method r) = true /\ content_length r = (r, Ok cl) /\
     max_body_size r = (r, Ok mbs) /\ (cl <= mbs)%Z /\
     r' = set_input (drop (chunk_len * nchunks 0 mbs) (wsgi_input (req_env r))) r /\
     concat chunks = take (chunk_len * nchunks 0 mbs) (wsgi_input (req_env r))).
Proof.
  intros Hr. destruct (reads_body (method r)) eqn:Hm; cycle 1.
  { left. rewrite read_body_no_body in Hr by done. by simplify_eq. }
  right. destruct (content_length r) as [r0 [cl|e]] eqn:Hcl; cycle 1.
  { unfold _read_body in Hr. rewrite Hm in Hr. cbn [negb] in Hr.
    by rewrite (sbind_exn _ _ _ _ _ Hcl) in Hr. }
  assert (r0 = r) as -> by (unfold content_length in Hcl; by destruct (py_int _); simplify_eq).
  destruct (max_body_size r) as [r1 [mbs|e]] eqn:Hmax; cycle 1.
  { unfold _read_body in Hr. rewrite Hm in Hr. cbn [negb] in Hr.
    by rewrite (sbind_ok _ _ _ _ _ Hcl), (sbind_exn _ _ _ _ _ Hmax) in Hr. }
  assert (r1 = r) as -> by (unfold max_body_size in Hmax; by repeat case_match; simplify_eq).
  destruct (Z.le_gt_cases cl mbs) as [Hle|Hgt].
  - destruct (read_body_spec_core r cl mbs Hm Hcl Hmax Hle) as (chunks' & Hr' & Hc).
    rewrite Hr in Hr'. simplify_eq. by exists cl, mbs.
  - by rewrite (read_body_too_large_core r cl mbs) in Hr.
Qed.

(** A failing [_read_body] changes nothing. *)
Lemma read_body_exn r r' e : _read_body r = (r', Exn e) -> r' = r.
Proof.
  intros Hr. destruct (reads_body (method r)) eqn:Hm; cycle 1.
  { rewrite read_body_no_body in Hr by done. by simplify_eq. }
  destruct (content_length r) as [r0 [cl|e0]] eqn:Hcl;
    (assert (r0 = r) as -> by (unfold content_length in Hcl; by destruct (py_int _); simplify_eq)).
  2: { unfold _read_body in Hr. rewrite Hm in Hr. cbn [negb] in Hr.
       rewrite (sbind_exn _ _ _ _ _ Hcl) in Hr. by simplify_eq. }
  destruct (max_body_size r) as [r1 [mbs|e1]] eqn:Hmax;
    (assert (r1 = r) as -> by (unfold max_body_size in Hmax; by repeat case_match; simplify_eq)).
  2: { unfold _read_body in Hr. rewrite Hm in Hr. cbn [negb] in Hr.
       rewrite (sbind_ok _ _ _ _ _ Hcl), (sbind_exn _ _ _ _ _ Hmax) in Hr. by simplify_eq. }
  destruct (Z.le_gt_cases cl mbs) as [Hle|Hgt].
  - destruct (read_body_spec_core r cl mbs Hm Hcl Hmax Hle) as (chunks' & Hr' & _).
    by rewrite Hr in Hr'.
  - rewrite (read_body_too_large_core r cl mbs) in Hr by done. by simplify_eq.
Qed.

(** Reading the body moves the stream and nothing else. *)
Lemma read_body_frame r r' o :
  _read_body r = (r', o) -> r' = set_input (wsgi_input (req_env r')) r.
Proof.
  destruct o as [chunks|e]; intros Hr.
  - destruct (read_body_cases r r' chunks Hr)
      as [(_ & -> & _)|(cl & mbs & _ & _ & _ & _ & -> & _)];
      [by rewrite set_input_same|by rewrite wsgi_input_set_input].
  - apply read_body_exn in Hr as ->. by rewrite set_input_same.
Qed.

Lemma set_input_fields inp r :
  req_form (set_input inp r) = req_form r /\ method (set_input inp r) = method r /\
  content_type (set_input inp r) = content_type r /\
  content_length (set_input inp r) = (set_input inp r, (content_length r).2) /\
  max_body_size (set_input inp r) = (set_input inp r, (max_body_size r).2).
Proof.
  split; [done|]. split; [done|]. split; [done|]. split.
  - unfold content_length, env_get. cbn [set_input set_env req_env env_vars].
    by destruct (py_int _).
  - unfold max_body_size. cbn [set_input set_env req_env restipy_app].
    by repeat case_match.
Qed.

(** The properties read only the CGI variables and the settings. *)
Definition same_vars (r1 r2 : request) : Prop :=
  env_vars (req_env r1) = env_vars (req_env r2) /\
  restipy_app (req_env r1) = restipy_app (req_env r2).

Lemma env_props r1 r2 :
  same_vars r1 r2 ->
  method r1 = method r2 /\ content_type r1 = content_type r2 /\
  content_length r1 = (r1, (content_length r2).2) /\
  max_body_size r1 = (r1, (max_body_size r2).2).
Proof.
  intros [Ev Ea]. unfold method, content_type, content_length, max_body_size, env_get.
  rewrite Ev, Ea. repeat split; by repeat case_match.
Qed.

(** A request with the variables of one whose body could be read reads
    its own body the same way. *)
Lemma read_body_same_vars r1 r2 cl mbs :
  same_vars r1 r2 ->
  reads_body (method r2) = true ->
  content_length r2 = (r2, Ok cl) -> max_body_size r2 = (r2, Ok mbs) ->
  reads_body (method r1) = true /\ content_length r1 = (r1, Ok cl) /\
  max_body_size r1 = (r1, Ok mbs).
Proof.
  intros E Hm Hcl Hmax. destruct (env_props r1 r2 E) as (-> & _ & -> & ->).
  by rewrite Hcl, Hmax.
Qed.

Lemma req_env_set_form v r : req_env (set_form v r) = req_env r.
Proof. reflexivity. Qed.

Lemma same_vars_set_input inp r : same_vars (set_input inp r) r.
Proof. done. Qed.

Lemma same_vars_set_form v r : same_vars (set_form v r) r.
Proof. done. Qed.

Section ParserProperties.
Context `{BodyCodec}.

Ltac run_parser :=
  unfold json, _parse_json_data, sbind, sgets, sret, sraise, smodify.

(** A cached, truthy [_form] is returned as it is, whatever produced it. *)
Lemma json_cached r : truthy (req_form r) = true -> json r = (r, Ok (Some (req_form r))).
Proof. run_parser. by intros ->. Qed.

(** A JSON body that does not decode or parse is the 400
    [INVALID_REQUEST_BODY] HTTPException. *)
Theorem json_malformed r r' chunks :
  truthy (req_form r) = false ->
  split_first ";" (str_lower (content_type r)) ∈ json_content_types ->
  _read_body r = (r', Ok chunks) -> concat chunks <> [] ->
  utf8_decode (concat chunks) ≫= json_loads = None ->
  json r = (r', Exn malformed_json).
Proof.
  intros Hf Hct Hr Hne Hj. run_parser. rewrite Hf, bool_decide_true by done. cbn [negb].
  rewrite Hr, bool_decide_false by done. by rewrite Hj.
Qed.

(** A JSON body that parses is returned and stored in [_form]. *)
Lemma json_parsed r r' chunks v :
  truthy (req_form r) = false ->
  split_first ";" (str_lower (content_type r)) ∈ json_content_types ->
  _read_body r = (r', Ok chunks) -> concat chunks <> [] ->
  utf8_decode (concat chunks) ≫= json_loads = Some v ->
  json r = (set_form v r', Ok (Some v)).
Proof.
  intros Hf Hct Hr Hne Hj. run_parser. rewrite Hf, bool_decide_true by done. cbn [negb].
  rewrite Hr, bool_decide_false by done. by rewrite Hj.
Qed.

(** The shape of a [json] call that returned a value. *)
Lemma json_returned r r1 v :
  json r = (r1, Ok (Some v)) ->
  (truthy (req_form r) = true /\ r1 = r /\ v = req_form r) \/
  (exists r' chunks, truthy (req_form r) = false /\
     split_first ";" (str_lower (content_type r)) ∈ json_content_types /\
     _read_body r = (r', Ok chunks) /\ concat chunks <> [] /\
     utf8_decode (concat chunks) ≫= json_loads = Some v /\ r1 = set_form v r').
Proof.
  run_parser. destruct (truthy (req_form r)) eqn:Hf; [intros; left; by simplify_eq|].
  intros Hj. right. revert Hj.
  destruct (bool_decide_reflect (split_first ";" (str_lower (content_type r)) ∈ json_content_types))
    as [Hct|Hct]; cbn [negb]; [|done].
  destruct (_read_body r) as [r' [chunks|e]] eqn:Hr; [|done].
  destruct (bool_decide_reflect (concat chunks = [])) as [Hb|Hb]; [done|].
  destruct (utf8_decode (concat chunks) ≫= json_loads) as [v'|] eqn:Hv; [|done].
  intros. simplify_eq. eauto 10.
Qed.

Lemma json_some_form r r1 v : json r = (r1, Ok (Some v)) -> req_form r1 = v.
Proof.
  intros Hj. destruct (json_returned r r1 v Hj) as [(_ & -> & ->)|(? & ? & _ & _ & _ & _ & _ & ->)];
    reflexivity.
Qed.

(** C22: [json] and [form] share the [_form] cache: once [json] has
    returned a truthy value, [form] returns that same JSON value (a
    list, a number, ...) without looking at the body, whatever the
    content type. *)
Theorem form_after_json r r1 v :
  json r = (r1, Ok (Some v)) -> truthy v = true -> form r1 = (r1, Ok (Some v)).
Proof.
  intros Hj Hv. pose proof (json_some_form r r1 v Hj) as Hf.
  unfold form, _parse_multipart_form, _parse_url_encoded_form, sbind, sgets, sret.
  destruct (str_startswith _ _); cbv beta; by rewrite Hf, Hv.
Qed.

(** C21: a falsy JSON document ([0], [false], [null], [''], [[]], [{}]) is
    not cached: a second [req.json] reads the body again, finds the
    stream exhausted and returns [None] instead of the document. *)
Theorem json_falsy_reread r r1 v :
  json r = (r1, Ok (Some v)) -> truthy v = false ->
  wsgi_input (req_env r1) = [] ->
  json r1 = (r1, Ok None).
Proof.
  intros Hj Hv Hin. destruct (json_returned r r1 v Hj)
    as [(Hf & _ & ->)|(r' & chunks & Hf & Hct & Hr & Hne & Hdec & ->)]; [congruence|].
  destruct (read_body_cases r r' chunks Hr)
    as [(_ & _ & ->)|(cl & mbs & Hm & Hcl & Hmax & Hle & -> & _)]; [done|].
  remember (drop (chunk_len * nchunks 0 mbs) (wsgi_input (req_env r))) as D eqn:HD.
  rewrite req_env_set_form, wsgi_input_set_input in Hin. rewrite Hin in *. clear HD.
  destruct (read_body_same_vars (set_form v (set_input [] r)) r cl mbs)
    as (Hm1 & Hcl1 & Hmax1); [done..|].
  destruct (read_body_spec_core _ cl mbs Hm1 Hcl1 Hmax1 Hle) as (chunks1 & Hr1 & Hc1).
  rewrite req_env_set_form, wsgi_input_set_input, drop_nil in Hr1.
  rewrite req_env_set_form, wsgi_input_set_input, take_nil in Hc1.
  assert (Hsame : set_input [] (set_form v (set_input [] r)) = set_form v (set_input [] r))
    by reflexivity.
  rewrite Hsame in Hr1.
  run_parser. cbn [req_form set_form]. rewrite Hv.
  rewrite (bool_decide_true (_ ∈ json_content_types)) by exact Hct. cbn [negb].
  rewrite Hr1, Hc1. reflexivity.
Qed.
End ParserProperties.

Section MultipartProperties.
Context `{BodyCodec}.

(** Parts with a file name are skipped by the form loop. *)
Lemma store_fields_skip ps1 ps r :
  Forall (fun q => has_filename q = true) ps1 ->
  store_fields (ps1 ++ ps) r = store_fields ps r.
Proof. induction 1 as [|q ps1 Hq _ IH]; [done|]. cbn [app store_fields]. by rewrite Hq. Qed.

(** C23: a form field of a multipart body that is not valid UTF-8 raises
    a raw UnicodeDecodeError, not the 400 [INVALID_REQUEST_BODY]
    HTTPException the spec promises for malformed bodies. *)
Theorem multipart_field_not_utf8 r r' ps1 p ps2 b :
  truthy (req_form r) = false ->
  str_startswith (content_type r) "multipart/" = true ->
  _get_multipart_message r = (r', Ok (Multipart (ps1 ++ p :: ps2))) ->
  Forall (fun q => has_filename q = true) ps1 ->
  has_filename p = false -> part_payload p = Some b -> utf8_decode b = None ->
  form r = (r', Exn unicode_decode_error).
Proof.
  intros Hf Hct Hmsg Hps1 Hp Hpay Hdec.
  unfold form. rewrite Hct. unfold _parse_multipart_form, sbind at 1, sgets. rewrite Hf.
  rewrite (sbind_ok _ _ _ _ _ Hmsg), sbind_exn with (s' := r') (e := unicode_decode_error);
    [done|].
  rewrite store_fields_skip by done. cbn [store_fields]. rewrite Hp. cbn [negb].
  unfold sbind. by rewrite Hpay, Hdec.
Qed.
End MultipartProperties.

(** ** A codec for concrete runs

    Decoding accepts ASCII only, [parse_qsl] splits on [&] and the first
    [=] and drops blank values (without percent-decoding), [json.loads]
    knows a few documents, and the MIME parser reads a multipart body as
    one field [field] holding the whole body. *)

Definition ascii_decode (b : list byte) : option string :=
  if forallb (fun x => Nat.ltb (Byte.to_nat x) 128) b then Some (String.string_of_list_byte b)
  else None.

Fixpoint split_all (sep : ascii) (cur : list ascii) (s : string) : list string :=
  match s with
  | EmptyString => [String.string_of_list_ascii (rev cur)]
  | String c s' =>
      if Ascii.eqb c sep then String.string_of_list_ascii (rev cur) :: split_all sep [] s'
      else split_all sep (c :: cur) s'
  end.

Definition fixture_parse_qsl (s : string) : list (string * string) :=
  omap (fun field =>
          match split_all "=" [] field with
          | k :: v :: _ => if String.eqb v "" then None else Some (k, v)
          | _ => None
          end) (split_all "&" [] s).

Definition fixture_json_loads (s : string) : option pyval :=
  if String.eqb s "0" then Some (PInt 0)
  else if String.eqb s "[1]" then Some (PList [PInt 1])
  else if String.eqb s "{}" then Some (PDict [])
  else None.

Definition fixture_parse_message (ct : string) (body : list byte) : mime_message :=
  if str_startswith ct "multipart/" then
    Multipart [{| part_filename := None; part_name := Some "field";
                  part_content_type := "text/plain"; part_payload := Some body |}]
  else NotMultipart.

#[export] Instance fixture_codec : BodyCodec :=
  {| utf8_decode := ascii_decode; parse_qsl := fixture_parse_qsl;
     json_loads := fixture_json_loads; parse_message := fixture_parse_message |}.

Definition json_post (body : string) : request :=
  fixture_request "POST" (pretty (String.length body)) "application/json" (bytes_of body) (Some 100%Z).

Lemma json_malformed_witness :
  exists r' chunks, json (json_post "{bad") = (r', Exn malformed_json) /\
                    _read_body (json_post "{bad") = (r', Ok chunks).
Proof.
  eexists _, _. split; [|reflexivity].
  eapply json_malformed; [reflexivity|vm_compute; by left|reflexivity|discriminate|reflexivity].
Defined.

Lemma form_after_json_witness :
  exists r1, json (json_post "[1]") = (r1, Ok (Some (PList [PInt 1]))) /\
             form r1 = (r1, Ok (Some (PList [PInt 1]))).
Proof.
  exists (json (json_post "[1]")).1. split; [vm_compute; reflexivity|].
  apply (form_after_json (json_post "[1]")); [vm_compute; reflexivity|reflexivity].
Defined.

Lemma json_falsy_reread_witness :
  exists r1, json (json_post "0") = (r1, Ok (Some (PInt 0))) /\ json r1 = (r1, Ok None).
Proof.
  exists (json (json_post "0")).1. split; [vm_compute; reflexivity|].
  apply (json_falsy_reread (json_post "0") _ (PInt 0)); [vm_compute; reflexivity|reflexivity|].
  vm_compute. reflexivity.
Defined.

Lemma multipart_field_not_utf8_witness :
  let r := fixture_request "POST" "1" "multipart/form-data; boundary=x" [xff] (Some 100%Z) in
  exists r', form r = (r', Exn unicode_decode_error).
Proof.
  intros r. eexists.
  eapply (multipart_field_not_utf8 r _ [] _ [] [xff]).
  all: try reflexivity. constructor.
Defined.
