(* ===== verification/ReadLoop.v ===== *)
(** * Termination of the reading loop of [Request._read_body]

    [Request.read_loop] is the [while readbytes < toread] loop of
    src/src/restipy/core/request.py (lines 98-103) written with fuel.
    Here the same loop is defined by well-founded recursion on the number
    of bytes left in the stream, which Equations accepts because every
    iteration that goes on reads a non-empty chunk: the loop terminates
    on every input.  The theorem [read_loop_terminates] shows that the
    fuel [_read_body] gives ([read_fuel], one more than the stream's
    length) always suffices: the fuelled loop is the terminating one. *)

From Equations Require Import Equations.
From stdpp Require Import base list.
From Stdlib Require Import ZArith Lia.
From Stdlib.Strings Require Import Byte.
From S2P Require Import Prelude Values Request.

(** [64 * 1024] in unary is never computed here. *)
#[local] Opaque chunk_len.

(** The loop by well-founded recursion.  With an empty stream the loop
    ends with nothing read whether it stops on [readbytes >= toread] or
    on the empty chunk, so that case comes first. *)
Equations? read_loop_wf (readbytes toread : Z) (inp : list byte) : list (list byte) * list byte
  by wf (length inp) lt :=
  read_loop_wf readbytes toread [] := ([], []);
  read_loop_wf readbytes toread (b :: inp') with Z.ltb readbytes toread := {
    | false := ([], b :: inp');
    | true :=
        let chunk := take chunk_len (b :: inp') in
        let res := read_loop_wf (readbytes + Z.of_nat (length chunk)) toread (drop chunk_len (b :: inp')) in
        (chunk :: res.1, res.2) }.
Proof. rewrite length_drop. cbn [length]. pose proof chunk_len_pos. lia. Qed.

Lemma take_chunk_cons (b : byte) (l : list byte) : exists c cs, take chunk_len (b :: l) = c :: cs.
Proof.
  pose proof chunk_len_pos. exists b, (take (chunk_len - 1) l).
  replace chunk_len with (S (chunk_len - 1)) at 1 by lia. reflexivity.
Qed.

(** C24: the reading loop terminates: with more fuel than the stream has
    bytes, which is what [_read_body] gives it, the fuelled loop computes
    the loop defined by well-founded recursion. *)
Theorem read_loop_terminates f r t inp :
  (length inp < f)%nat -> read_loop f r t inp = read_loop_wf r t inp.
Proof.
  revert f. funelim (read_loop_wf r t inp); intros [|f] Hf; cbn [length] in Hf; try lia;
    simp read_loop_wf; cbn [read_loop].
  - destruct (Z.ltb _ _); [|done]. by rewrite take_nil, drop_nil.
  - rewrite Heq. destruct (take_chunk_cons b inp') as (c & cs & Hc). rewrite Hc in *.
    rewrite H; [by destruct (read_loop_wf _ _ _)|].
    rewrite length_drop. cbn [length]. pose proof chunk_len_pos. lia.
  - by rewrite Heq.
Qed.

Lemma read_loop_terminates_witness :
  (length [x61; x62; x63] < read_fuel [x61; x62; x63])%nat /\
  read_loop (read_fuel [x61; x62; x63]) 0 10 [x61; x62; x63] = read_loop_wf 0 10 [x61; x62; x63].
Proof. split; [unfold read_fuel; simpl; lia|]. apply read_loop_terminates. unfold read_fuel; simpl; lia. Defined.
