(* ===== verification/Uploads.v ===== *)
(** * Uploaded files and their temporary files (src/src/restipy/core/request.py)

    [Request._parse_multipart_files] (lines 158-197) copies every part of
    a multipart body that has a file name into a new
    [tempfile.NamedTemporaryFile(delete=False)] and records an
    [UploadedFile] under the part's field name in [_files].  The model's
    [save_files] (Request.v) keeps the files the request created in
    [req_tmpfiles], in creation order.

    [save_files_tmp] shows that the loop always finishes, creates one
    temporary file per part with a file name, and keeps the invariant
    that every entry of [_files] names one of the request's temporary
    files.  The converse fails: [_files] is a dict, so a second file part
    with the same field name replaces the first entry, and the first
    temporary file, which is never deleted, is no longer reachable
    ([save_files_orphan]). *)

From stdpp Require Import base list strings.
From Stdlib.Strings Require Import Byte.
From S2P Require Import Prelude Values Request.

Local Open Scope string_scope.

(** Every entry of [_files] points to a temporary file of the request. *)
Definition files_tmp_inv (r : request) : Prop :=
  forall k uf, dict_get (req_files r) k = Some uf -> exists data, (uf_filepath uf, data) ∈ req_tmpfiles r.

(** The parts the loop copies to a temporary file. *)
Definition file_parts (parts : list mime_part) : list mime_part :=
  filter (fun p => has_filename p = true) parts.

(** One iteration of the loop on a part with a file name. *)
Lemma save_file_inv p r :
  files_tmp_inv r ->
  let path := tmp_path (length (req_tmpfiles r)) in
  let r1 := add_tmpfile (path, default [] (part_payload p)) r in
  files_tmp_inv (set_files (dict_set (req_files r1) (key_of (part_name p))
                   {| uf_filename := default "" (part_filename p);
                      uf_content_type := part_content_type p; uf_filepath := path |}) r1).
Proof.
  intros Hinv path r1 k uf. cbn [req_files req_tmpfiles set_files add_tmpfile r1].
  destruct (decide (k = key_of (part_name p))) as [->|Hne].
  - rewrite dict_get_set_eq. intros [= <-]. eexists. apply elem_of_app. right. by left.
  - rewrite dict_get_set_ne by congruence. intros Hk. destruct (Hinv _ _ Hk) as [data Hd].
    exists data. apply elem_of_app. by left.
Qed.

(** C31: the loop of [_parse_multipart_files] always finishes, creates
    exactly one temporary file per part that has a file name, and every
    entry of [_files] it leaves names one of the request's temporary
    files. *)
Theorem save_files_tmp parts r :
  files_tmp_inv r ->
  exists r', save_files parts r = (r', Ok tt) /\
    length (req_tmpfiles r') = length (req_tmpfiles r) + length (file_parts parts) /\
    files_tmp_inv r'.
Proof.
  revert r. induction parts as [|p ps IH]; intros r Hinv; cbn [save_files].
  - exists r. rewrite Nat.add_0_r. by split.
  - unfold file_parts. rewrite filter_cons. destruct (has_filename p) eqn:Hp; cbn [negb].
    + rewrite decide_True by done. unfold sbind at 1.
      destruct (IH _ (save_file_inv p r Hinv)) as (r' & Hs & Hlen & Hinv').
      exists r'. split; [exact Hs|]. split; [|done]. unfold file_parts in Hlen. rewrite Hlen. cbn. rewrite length_app. cbn. lia.
    + rewrite decide_False by done. apply IH, Hinv.
Qed.

(** ** Witnesses *)

Definition upload (fname : string) : mime_part :=
  {| part_filename := Some fname; part_name := Some "doc"; part_content_type := "text/plain";
     part_payload := Some (String.list_byte_of_string fname) |}.

Definition upload_request : request :=
  new_request [] {| env_vars := ∅; wsgi_input := []; wsgi_errors := Some []; restipy_app := None |}.

Lemma save_files_tmp_witness :
  files_tmp_inv upload_request /\
  exists r', save_files [upload "a.txt"; upload "b.txt"] upload_request = (r', Ok tt) /\
    length (req_tmpfiles r') = length (req_tmpfiles upload_request) + length (file_parts [upload "a.txt"; upload "b.txt"]) /\
    files_tmp_inv r'.
Proof.
  assert (H0 : files_tmp_inv upload_request) by (intros k uf; cbn; done).
  split; [exact H0|]. exact (save_files_tmp _ _ H0).
Defined.

(** Two file parts under one field name: two temporary files are
    created, [_files] keeps the second, and the first is orphaned. *)
Example save_files_orphan :
  let r' := (save_files [upload "a.txt"; upload "b.txt"] upload_request).1 in
  map fst (req_tmpfiles r') = ["/tmp/tmp0"; "/tmp/tmp1"] /\
  map (fun kf => uf_filepath kf.2) (req_files r') = ["/tmp/tmp1"].
Proof. split; vm_compute; reflexivity. Qed.
