(* ===== verification/RequestMeta.v ===== *)
(** * The descriptive properties of Request (src/src/restipy/core/request.py)

    [req.header] (lines 337-351) collects the [HTTP_*] variables of the
    environment under their header names and caches the dict in
    [_headers]; [req.host], [req.origin], [req.url], [req.href],
    [req.query], [req.charset] and [repr(req)] read the environment
    (lines 353-440 and 495-503).  [env_to_h] comes from restipy/utils,
    which is not among the sources: it is modelled as its use here
    requires (underscores to dashes, then [str.title]).  [urljoin] is the
    library function of [urllib.parse]; like the body parsers' library
    calls it is the method of a class, [UrlLib], and the theorems hold
    for any instance.

    The environment is a gmap, which does not keep the insertion order of
    the WSGI dict: when two variables give the same header name, which
    one [req.header] keeps is not modelled (the theorems assume or show
    there is only one). *)

From stdpp Require Import base list strings gmap.
From Stdlib Require Import Ascii.
From S2P Require Import Prelude Values Request.

Local Open Scope string_scope.

Class UrlLib : Type := { urljoin : string -> string -> string }.

(** ** [req.header] *)

(** [env_to_h(k)]: [HTTP_USER_AGENT] becomes [Http-User-Agent]. *)
Definition env_to_h (k : string) : string := str_title (str_replace_char "_" "-" k).

(** The entry of the header dict an environment variable gives, if any:
    [env_to_h(k)[5:]: v for k, v in self.env.items() if
    k.startswith('HTTP_')]. *)
Definition header_entry (kv : string * string) : option (string * string) :=
  if str_startswith kv.1 "HTTP_" then Some (str_drop 5 (env_to_h kv.1), kv.2) else None.

Definition header_of_env (vars : gmap string string) : gmap string string :=
  list_to_map (omap header_entry (map_to_list vars)).

Definition set_headers (h : option (gmap string string)) (r : request) : request :=
  {| req_env := req_env r; req_ctx := req_ctx r; req_params := req_params r;
     req_default := req_default r; req_headers := h; req_files := req_files r; req_form := req_form r;
     req_tmpfiles := req_tmpfiles r |}.

(** [Request.header]: computed on the first read, then cached. *)
Definition header : RM (gmap string string) :=
  fun r =>
    match req_headers r with
    | Some h => (r, Ok h)
    | None => let h := header_of_env (env_vars (req_env r)) in (set_headers (Some h) r, Ok h)
    end.

(** ** Host, origin, URL *)

(** [req.host]: [self.env.get('HTTP_HOST')]. *)
Definition host (r : request) : option string := env_vars (req_env r) !! "HTTP_HOST".

(** [f'{x}'] of an optional string: [None] prints as [None]. *)
Definition fstr_opt (o : option string) : string := match o with Some s => s | None => "None" end.

(** [req.origin]: [f'{self.protocol}://{self.host}'.lower()]. *)
Definition origin (r : request) : string := str_lower (protocol r ++ "://" ++ fstr_opt (host r)).

Section Url.
Context `{UrlLib}.

(** [req.url]: [urljoin(self.origin, self.path).rstrip('/')]. *)
Definition url (r : request) : string := str_rstrip "/" (urljoin (origin r) (path r)).

(** [req.href]: [f'{self.url}?{self.env.get("QUERY_STRING", "")}']. *)
Definition href (r : request) : string := url r ++ "?" ++ env_get r "QUERY_STRING" "".
End Url.

(** [req.query]: [None] without a query string, else
    [dict(parse_qsl(qs))]. *)
Definition query `{BodyCodec} (r : request) : option pyval :=
  match env_vars (req_env r) !! "QUERY_STRING" with
  | None => None
  | Some qs => Some (form_of_pairs (parse_qsl qs))
  end.

(** ** [req.charset] *)

(** One [;]-separated part of the content type: [part.split('=')[1].strip()]
    when ['charset='] occurs in it. *)
Definition charset_of_part (part : string) : option string :=
  if str_contains part "charset=" then Some (str_strip (nth 1 (str_split "=" part) "")) else None.

(** [Request.charset]: [self.content_type] is a [str], never [None], so
    the first test of the method never fires; the first part that
    mentions [charset=] decides. *)
Definition charset (r : request) : option string :=
  first_some charset_of_part (str_split ";" (content_type r)).

(** [req.app]: [self.env['restipy.app']], of which the model keeps the
    [config] attribute (all the code reads of the application); a
    KeyError when the key is missing. *)
Definition app (r : request) : outcome exc (option settings) :=
  match restipy_app (req_env r) with
  | Some a => Ok a
  | None => Exn (key_error "restipy.app")
  end.

(** [repr(req)]: [f'<Request {self.method} {self.path}>']. *)
Definition req_repr (r : request) : string := "<Request " ++ method r ++ " " ++ path r ++ ">".

(** ** Properties *)

(** What [header] changes: only the cache. *)
Lemma header_frame r r1 h :
  header r = (r1, Ok h) ->
  r1 = set_headers (Some h) r \/ (r1 = r /\ req_headers r = Some h).
Proof. unfold header. destruct (req_headers r); intros [= <- <-]; auto. Qed.

(** C30: [req.header] is computed once: after the first read the cached
    dict is returned, even when the environment has changed since. *)
Theorem header_memo r r1 h e :
  header r = (r1, Ok h) -> header (set_env e r1) = (set_env e r1, Ok h).
Proof.
  intros Hh. destruct (header_frame _ _ _ Hh) as [->|[-> Hc]]; unfold header; cbn; [done|].
  by rewrite Hc.
Qed.

(** Every header comes from an environment variable whose name starts
    with [HTTP_]: the CGI variables [CONTENT_TYPE] and [CONTENT_LENGTH]
    never appear in [req.header]. *)
Theorem header_sound vars k v :
  header_of_env vars !! k = Some v ->
  exists ek, vars !! ek = Some v /\ str_startswith ek "HTTP_" = true /\ str_drop 5 (env_to_h ek) = k.
Proof.
  unfold header_of_env. intros Hk. apply elem_of_list_to_map_2, list_elem_of_omap in Hk
    as ([ek v'] & Hin & He). apply elem_of_map_to_list in Hin.
  unfold header_entry in He. cbn [fst snd] in He. destruct (str_startswith ek "HTTP_") eqn:Hs; [|done].
  injection He as <- <-. eauto.
Qed.

(** An [HTTP_] variable no other one collides with is in
    [req.header] under its name from [env_to_h] minus the [Http-]. *)
Theorem header_complete vars ek v :
  vars !! ek = Some v -> str_startswith ek "HTTP_" = true ->
  (forall ek' v', vars !! ek' = Some v' -> str_startswith ek' "HTTP_" = true ->
                  str_drop 5 (env_to_h ek') = str_drop 5 (env_to_h ek) -> ek' = ek) ->
  header_of_env vars !! str_drop 5 (env_to_h ek) = Some v.
Proof.
  intros Hv Hs Huniq. unfold header_of_env. apply elem_of_list_to_map_1'.
  - intros v' Hin. apply list_elem_of_omap in Hin as ([ek' v''] & Hin & He).
    apply elem_of_map_to_list in Hin. unfold header_entry in He. cbn [fst snd] in He.
    destruct (str_startswith ek' "HTTP_") eqn:Hs'; [|done]. injection He as Hk <-.
    rewrite (Huniq ek' v'' Hin Hs' Hk) in Hin. congruence.
  - apply list_elem_of_omap. exists (ek, v). split; [by apply elem_of_map_to_list|].
    unfold header_entry. cbn [fst snd]. by rewrite Hs.
Qed.

(** Without a [Host] header the origin is [<scheme>://none]: the
    f-string prints the missing host as [None], which [lower()] turns
    into [none]. *)
Theorem origin_no_host r : host r = None -> origin r = str_lower (protocol r) ++ "://none".
Proof. unfold origin. intros ->. by autorewrite with restipy_rw. Qed.

(** C32: the charset is read from the first [;]-separated part of the
    content type in which [charset=] occurs anywhere, as the text between
    its first and second [=]; a parameter value that contains
    [charset=] (a multipart boundary, say) is taken for the charset. *)
Theorem charset_first_part r ps1 p ps2 :
  str_split ";" (content_type r) = (ps1 ++ p :: ps2)%list ->
  Forall (fun q => str_contains q "charset=" = false) ps1 ->
  str_contains p "charset=" = true ->
  charset r = Some (str_strip (nth 1 (str_split "=" p) "")).
Proof.
  intros Hs H1 Hp. unfold charset. rewrite Hs, first_some_app.
  replace (first_some charset_of_part ps1) with (@None string).
  - cbn. unfold charset_of_part. by rewrite Hp.
  - symmetry. apply first_some_None. eapply Forall_impl; [exact H1|].
    intros q Hq. unfold charset_of_part. by rewrite Hq.
Qed.

(** ** Witnesses *)

Definition meta_env (vars : list (string * string)) : environ :=
  {| env_vars := list_to_map vars; wsgi_input := []; wsgi_errors := Some [];
     restipy_app := None |}.

Definition meta_request (vars : list (string * string)) : request := new_request [] (meta_env vars).

Lemma header_memo_witness :
  let r := meta_request [("HTTP_USER_AGENT", "curl")] in
  header (set_env (meta_env [("HTTP_USER_AGENT", "wget")]) (header r).1) =
    (set_env (meta_env [("HTTP_USER_AGENT", "wget")]) (header r).1,
     Ok (header_of_env (env_vars (meta_env [("HTTP_USER_AGENT", "curl")])))).
Proof. intros r. apply (header_memo r). reflexivity. Defined.

Lemma header_sound_witness :
  exists ek, env_vars (meta_env [("HTTP_X_REQUEST_ID", "7"); ("CONTENT_TYPE", "text/plain")]) !! ek = Some "7" /\
    str_startswith ek "HTTP_" = true /\ str_drop 5 (env_to_h ek) = "X-Request-Id".
Proof. apply header_sound. vm_compute. reflexivity. Defined.

Lemma header_complete_witness :
  header_of_env (list_to_map [("HTTP_USER_AGENT", "curl"); ("PATH_INFO", "/")])
    !! str_drop 5 (env_to_h "HTTP_USER_AGENT") = Some "curl".
Proof.
  apply header_complete; [reflexivity|reflexivity|].
  intros ek' v' Hin Hs _. apply elem_of_list_to_map_2 in Hin. set_solver.
Defined.

Lemma origin_no_host_witness :
  origin (meta_request [("wsgi.url_scheme", "https")]) = "https://none".
Proof. rewrite origin_no_host; reflexivity. Defined.

(** The boundary of this multipart content type contains [charset=]:
    [req.charset] is ["charset"]. *)
Lemma charset_first_part_witness :
  charset (meta_request [("CONTENT_TYPE", "multipart/form-data; boundary=charset=xyz")]) = Some "charset".
Proof.
  apply (charset_first_part _ ["multipart/form-data"] " boundary=charset=xyz" []);
    [reflexivity|repeat constructor|reflexivity].
Defined.
