(* ===== verification/Routes.v ===== *)
(** * Views and the route table (src/src/restipy/core/application.py)

    A view (restipy/core/view.py is not among the sources; the spec's
    section 4.3 and the calls in [process_request] fix its interface) is
    a route, a list of methods and four hooks.  The hooks are the
    application's code: any computation over the request, returning a
    Python object ([pyobj]: a Response or any other value) or raising.
    [after_handler] may change the response in place, so it returns the
    response as it leaves the call.

    The route table [RestiPy._routes] is a [gmap] from upper-case method
    names to lists of views in registration order.  [_add_view] appends a
    view under each of its methods; [match_route] is [RestiPy.match]:
    the requested method first, [GET] after [HEAD], first match wins, and
    a miss raises the 404 [ROUTE_NOT_FOUND] HTTPException.  The nested
    loops scan the method lists concatenated in search order
    ([match_in_flat]), which gives [match_route_404_iff], and
    [add_view_match_roundtrip] shows that what [_add_view] registers is what [match] then finds.

    The guard of [_add_view] compiles a route only when it is *not* a
    string, so a string route stays a string and [route.match(path)]
    raises AttributeError when the scan reaches it ([match_str_route]).
    The theorems about matching therefore assume the invariant
    [routes_compiled], which [_add_view] preserves exactly for views
    whose route is already a compiled pattern. *)

From stdpp Require Import base list strings gmap.
From Stdlib Require Import Ascii.
From S2P Require Import Prelude Values Response Regex Request.



(** ** Views *)

(** What a hook returns: a Response, or any other object. *)
Inductive pyobj : Type :=
| OResp (r : response)
| OVal (v : pyval).

(** [view.route]: the pattern text, or a compiled pattern. *)
Inductive route_slot : Type :=
| RouteStr (s : string)
| RoutePattern (p : regex).

Record view : Type := mkView {
  route : route_slot;
  methods : list string;
  v_before_handler : RM pyobj;
  v_handler : RM pyobj;
  v_after_handler : response -> RM response;
  v_on_exception : exc -> RM pyobj
}.

Definition is_compiled (v : view) : Prop :=
  match route v with RoutePattern _ => True | RouteStr _ => False end.

#[export] Instance is_compiled_dec v : Decision (is_compiled v).
Proof. unfold is_compiled. destruct (route v); apply _. Defined.

(** [if not isinstance(view.route, str): view.route = re.compile(view.route)]:
    [re.compile] of a compiled pattern is that pattern, and a string is
    left alone. *)
Definition compile_route (v : view) : view :=
  match route v with
  | RouteStr s => v
  | RoutePattern p => {| route := RoutePattern p; methods := methods v;
                         v_before_handler := v_before_handler v; v_handler := v_handler v;
                         v_after_handler := v_after_handler v;
                         v_on_exception := v_on_exception v |}
  end.

(** ** The route table *)

Abbreviation route_table := (gmap string (list view)).

(** [method = method.upper(); self._routes.setdefault(method, []).append(view)]. *)
Definition add_route_method (v : view) (routes : route_table) (m : string) : route_table :=
  let m := str_upper m in
  <[m := (default [] (routes !! m) ++ [v])%list]> routes.

(** [RestiPy._add_view]. *)
Definition _add_view (routes : route_table) (v : view) : route_table :=
  let v := compile_route v in
  foldl (add_route_method v) routes (methods v).

(** [view.route.match(path)] and [match.groupdict()]; a string route has
    no [match] method. *)
Definition view_match (v : view) (path : string) : outcome exc (option (list (pykey * pyval))) :=
  match route v with
  | RoutePattern p => Ok (option_map (groupdict p) (re_match p path))
  | RouteStr _ => Exn (attribute_error "str" "match")
  end.

(** The inner loop of [RestiPy.match]: the first view of the list whose
    pattern matches. *)
Fixpoint scan (vs : list view) (path : string) : outcome exc (option (view * list (pykey * pyval))) :=
  match vs with
  | [] => Ok None
  | v :: vs' =>
      match view_match v path with
      | Exn e => Exn e
      | Ok (Some g) => Ok (Some (v, g))
      | Ok None => scan vs' path
      end
  end.

(** [methods = [method]; if method == 'HEAD': methods.append('GET')]. *)
Definition search_methods (m : string) : list string :=
  if String.eqb m "HEAD" then [m; "GET"] else [m].

Definition route_not_found : exc :=
  HTTPException "Route not found." 404 "ROUTE_NOT_FOUND" None.

(** The outer loop over the candidate methods. *)
Fixpoint match_in (routes : route_table) (ms : list string) (path : string)
    : outcome exc (view * list (pykey * pyval)) :=
  match ms with
  | [] => Exn route_not_found
  | m :: ms' =>
      match scan (default [] (routes !! m)) path with
      | Exn e => Exn e
      | Ok (Some res) => Ok res
      | Ok None => match_in routes ms' path
      end
  end.

(** [RestiPy.match(path, method)]. *)
Definition match_route (routes : route_table) (path m : string)
    : outcome exc (view * list (pykey * pyval)) :=
  match_in routes (search_methods m) path.

(** [self._routes = {}] in [RestiPy.__init__]. *)
Definition empty_routes : route_table := ∅.

(** ** Invariants *)

(** Every view listed under a method declares that method. *)
Definition routes_wf (routes : route_table) : Prop :=
  map_Forall (fun m vs => Forall (fun v => m ∈ map str_upper (methods v)) vs) routes.

(** Every listed view has a compiled pattern. *)
Definition routes_compiled (routes : route_table) : Prop :=
  map_Forall (fun _ vs => Forall is_compiled vs) routes.

(** ** Registration *)

Lemma add_route_method_lookup v routes m m' :
  add_route_method v routes m !! m' =
  if decide (m' = str_upper m) then Some (default [] (routes !! m') ++ [v])%list
  else routes !! m'.
Proof.
  unfold add_route_method. case_decide as Hm.
  - subst. by rewrite lookup_insert_eq.
  - by rewrite lookup_insert_ne by congruence.
Qed.

Lemma filter_eq_not_in (m : string) l : m ∉ l -> filter (eq m) l = [].
Proof.
  induction l as [|x l IH]; intros Hin; [done|]. rewrite filter_cons.
  case_decide; subst; [by destruct Hin; left|]. apply IH. intros H'. apply Hin. by right.
Qed.

(** The table after registering under the methods [ms]: a method listed
    [n] times gets the view appended [n] times, the others are
    unchanged. *)
Lemma foldl_add_route_method_lookup v ms routes m :
  foldl (add_route_method v) routes ms !! m =
  if decide (m ∈ map str_upper ms)
  then Some (default [] (routes !! m) ++ replicate (length (filter (eq m) (map str_upper ms))) v)%list
  else routes !! m.
Proof.
  revert routes. induction ms as [|x ms IH]; intros routes; cbn [foldl map].
  { rewrite decide_False by (intros Hin; inversion Hin). done. }
  rewrite IH, add_route_method_lookup, filter_cons.
  repeat case_decide; simplify_eq; cbn [length replicate] in *; rewrite ?elem_of_cons in *.
  all: try naive_solver.
  - simpl. by rewrite <- app_assoc.
  - by rewrite filter_eq_not_in.
Qed.

Lemma add_view_lookup_core routes v m :
  _add_view routes v !! m =
  if decide (m ∈ map str_upper (methods v))
  then Some (default [] (routes !! m) ++
             replicate (length (filter (eq m) (map str_upper (methods v)))) (compile_route v))%list
  else routes !! m.
Proof.
  unfold _add_view. rewrite foldl_add_route_method_lookup.
  assert (methods (compile_route v) = methods v) as ->
    by (unfold compile_route; by destruct (route v)).
  done.
Qed.

(** [_add_view] appends the (same) view to the list of every method it
    declares, once per occurrence of the upper-cased name, and leaves the
    other lists alone. *)
Theorem add_view_lookup routes v m :
  _add_view routes v !! m =
  if decide (m ∈ map str_upper (methods v))
  then Some (default [] (routes !! m) ++
             replicate (length (filter (eq m) (map str_upper (methods v)))) (compile_route v))%list
  else routes !! m.
Proof. exact (add_view_lookup_core routes v m). Qed.

Lemma compile_route_methods v : methods (compile_route v) = methods v.
Proof. unfold compile_route. by destruct (route v). Qed.

Lemma compile_route_compiled v : is_compiled (compile_route v) <-> is_compiled v.
Proof. unfold compile_route, is_compiled. destruct (route v) eqn:E; simpl; rewrite ?E; tauto. Qed.

(** Registering preserves both invariants of the table, the second one
    only for a view whose route is already compiled. *)
Lemma add_view_preserves routes v (P : view -> Prop) :
  map_Forall (fun _ vs => Forall P vs) routes -> P (compile_route v) ->
  map_Forall (fun _ vs => Forall P vs) (_add_view routes v).
Proof.
  intros Hall Hv m vs Hm. rewrite add_view_lookup_core in Hm. case_decide; [|by apply Hall in Hm].
  simplify_eq. apply Forall_app. split; [|by apply Forall_replicate].
  destruct (routes !! m) eqn:E; [by apply (Hall m)|constructor].
Qed.

Lemma add_view_invariants_core routes v :
  routes_wf routes -> routes_compiled routes -> is_compiled v ->
  routes_wf (_add_view routes v) /\ routes_compiled (_add_view routes v).
Proof.
  intros Hwf Hc Hv. split.
  - intros m vs Hm. rewrite add_view_lookup_core in Hm. case_decide as Hin; [|by apply Hwf in Hm].
    simplify_eq. apply Forall_app. split.
    + destruct (routes !! m) eqn:E; [by apply (Hwf m)|constructor].
    + apply Forall_replicate. by rewrite compile_route_methods.
  - apply add_view_preserves; [done|]. by apply compile_route_compiled.
Qed.

(** [_add_view] preserves the well-formedness of the table (every view
    listed under a method declares it), and keeps every route compiled
    when the new view's route is a compiled pattern. *)
Theorem add_view_invariants routes v :
  routes_wf routes -> routes_compiled routes -> is_compiled v ->
  routes_wf (_add_view routes v) /\ routes_compiled (_add_view routes v).
Proof. exact (add_view_invariants_core routes v). Qed.

Lemma empty_routes_ok : routes_wf empty_routes /\ routes_compiled empty_routes.
Proof. split; intros m vs H; unfold empty_routes in H; by rewrite lookup_empty in H. Qed.

(** ** Matching *)

Definition no_match (path : string) (u : view) : Prop := view_match u path = Ok None.

Lemma scan_app l1 l2 path :
  scan (l1 ++ l2) path =
  match scan l1 path with Ok None => scan l2 path | o => o end.
Proof.
  induction l1 as [|u l1 IH]; [done|]. cbn [app scan].
  destruct (view_match u path) as [[g|]|e]; [done|apply IH|done].
Qed.

Lemma scan_None vs path : scan vs path = Ok None <-> Forall (no_match path) vs.
Proof.
  induction vs as [|u vs IH]; cbn [scan]; [split; [constructor|done]|].
  rewrite Forall_cons. unfold no_match at 1.
  destruct (view_match u path) as [[g|]|e]; rewrite <- ?IH; naive_solver.
Qed.

Lemma scan_Some vs path v g :
  scan vs path = Ok (Some (v, g)) ->
  exists l1 l2, vs = l1 ++ v :: l2 /\ Forall (no_match path) l1 /\
                view_match v path = Ok (Some g).
Proof.
  induction vs as [|u vs IH]; cbn [scan]; [done|].
  destruct (view_match u path) as [[g'|]|e] eqn:Hu; intros H; simplify_eq.
  - by exists [], vs.
  - destruct (IH H) as (l1 & l2 & -> & Hl1 & Hv). exists (u :: l1), l2.
    split; [done|split; [by constructor|done]].
Qed.

(** A compiled pattern never raises. *)
Lemma view_match_compiled v path : is_compiled v -> exists o, view_match v path = Ok o.
Proof. unfold is_compiled, view_match. destruct (route v); [done|eauto]. Qed.

Lemma scan_compiled vs path :
  Forall is_compiled vs -> exists o, scan vs path = Ok o.
Proof.
  induction 1 as [|u vs Hu _ IH]; [eauto|]. cbn [scan].
  destruct (view_match_compiled u path Hu) as [[g|] ->]; eauto.
Qed.

Definition table (routes : route_table) (m : string) : list view := default [] (routes !! m).

(** C1: what [RestiPy.match] returns is the first matching view in the
    search order: the methods searched before gave no match, and in the
    list of its method every earlier view did not match. *)
Theorem match_route_first routes path m v g :
  match_route routes path m = Ok (v, g) ->
  exists ms1 m' ms2 l1 l2,
    search_methods m = ms1 ++ m' :: ms2 /\
    Forall (fun m0 => Forall (no_match path) (table routes m0)) ms1 /\
    table routes m' = l1 ++ v :: l2 /\ Forall (no_match path) l1 /\
    view_match v path = Ok (Some g).
Proof.
  unfold match_route. generalize (search_methods m) as ms.
  induction ms as [|m0 ms IH]; cbn [match_in]; [done|].
  destruct (scan (default [] (routes !! m0)) path) as [[[u g']|]|e] eqn:Hs; intros H; simplify_eq.
  - destruct (scan_Some _ _ _ _ Hs) as (l1 & l2 & Ht & Hl1 & Hv).
    by exists [], m0, ms, l1, l2.
  - destruct (IH H) as (ms1 & m' & ms2 & l1 & l2 & -> & Hms1 & Ht & Hl1 & Hv).
    exists (m0 :: ms1), m', ms2, l1, l2. repeat split; try done.
    constructor; [by apply scan_None|done].
Qed.

(** First-match precedence: when a view [v1] of a compiled method list
    matches the path, [match] returns [v1] or a view registered before it
    under that method, never one registered after it. *)
Theorem match_route_precedence routes path m l1 v1 l2 g :
  routes_compiled routes ->
  routes !! m = Some (l1 ++ v1 :: l2) ->
  view_match v1 path = Ok (Some g) ->
  exists l1' u l1'' g', l1 ++ [v1] = l1' ++ u :: l1'' /\ match_route routes path m = Ok (u, g').
Proof.
  intros Hc Hm Hv. unfold match_route, search_methods.
  assert (Hfirst : forall ms, match_in routes (m :: ms) path =
                              match scan (l1 ++ v1 :: l2) path with
                              | Exn e => Exn e | Ok (Some res) => Ok res
                              | Ok None => match_in routes ms path end)
    by (intros; cbn [match_in]; by rewrite Hm).
  assert (Hscan : exists l1' u l1'' g', l1 ++ [v1] = l1' ++ u :: l1'' /\
                  scan (l1 ++ v1 :: l2) path = Ok (Some (u, g'))).
  { rewrite scan_app. pose proof (Hc m _ Hm) as Hall. rewrite Forall_app in Hall.
    destruct (scan_compiled l1 path (proj1 Hall)) as [[[u g']|] Hs1]; rewrite Hs1.
    - destruct (scan_Some _ _ _ _ Hs1) as (la & lb & -> & _ & _).
      exists la, u, (lb ++ [v1]), g'. by rewrite <- app_assoc.
    - exists l1, v1, [], g. cbn [scan]. by rewrite Hv. }
  destruct Hscan as (l1' & u & l1'' & g' & Heq & Hs). exists l1', u, l1'', g'.
  split; [done|]. destruct (String.eqb m "HEAD"); rewrite Hfirst, Hs; done.
Qed.

(** C2: a HEAD request that matches no HEAD route is routed exactly as
    the same GET request. *)
Theorem match_head_fallback routes path :
  scan (table routes "HEAD") path = Ok None ->
  match_route routes path "HEAD" = match_route routes path "GET".
Proof. intros H. unfold match_route, search_methods, table in *. cbn. by rewrite H. Qed.

(** When no view of the searched lists matches, [match] raises the
    404 [ROUTE_NOT_FOUND] HTTPException. *)
Theorem match_route_not_found routes path m :
  Forall (fun m0 => Forall (no_match path) (table routes m0)) (search_methods m) ->
  match_route routes path m = Exn route_not_found.
Proof.
  unfold match_route. induction 1 as [|m0 ms Hm0 _ IH]; [done|]. cbn [match_in].
  apply scan_None in Hm0. unfold table in Hm0. by rewrite Hm0.
Qed.

(** C25: a view registered with its route as a string is never compiled,
    and every request of one of its methods that no earlier view of that
    method matches raises AttributeError ('str' object has no attribute
    'match') instead of being routed or answered 404. *)
Theorem add_view_str_route_raises routes v s m path :
  route v = RouteStr s ->
  m ∈ map str_upper (methods v) ->
  scan (table routes m) path = Ok None ->
  match_route (_add_view routes v) path m = Exn (attribute_error "str" "match").
Proof.
  intros Hr Hm Hs. unfold match_route.
  assert (Hcv : compile_route v = v) by (unfold compile_route; by rewrite Hr).
  assert (Hfirst : exists ms, search_methods m = m :: ms)
    by (unfold search_methods; destruct (String.eqb m "HEAD"); eauto).
  destruct Hfirst as [ms ->]. cbn [match_in]. rewrite add_view_lookup_core, decide_True by done.
  unfold table in Hs. cbn [default from_option] in Hs |- *.
  unfold id in *. rewrite Hcv, scan_app, Hs.
  destruct (length (filter (eq m) (map str_upper (methods v)))) as [|n] eqn:Hn.
  - exfalso. apply (filter_nil_not_elem_of (eq m) (map str_upper (methods v)) m); [|done|done].
    by apply length_zero_iff_nil.
  - cbn. unfold view_match. by rewrite Hr.
Qed.

(** ** [match] as one scan *)

(** The nested loops of [match], each returning at its first match, are
    one scan over the lists of the searched methods laid end to end. *)
Lemma match_in_flat routes ms path :
  match_in routes ms path =
  match scan (concat (map (table routes) ms)) path with
  | Exn e => Exn e
  | Ok (Some res) => Ok res
  | Ok None => Exn route_not_found
  end.
Proof.
  induction ms as [|m ms IH]; [done|]. cbn [match_in map concat].
  rewrite scan_app, IH. unfold table.
  by destruct (scan (default [] (routes !! m)) path) as [[res|]|e].
Qed.

Lemma table_compiled routes ms :
  routes_compiled routes -> Forall is_compiled (concat (map (table routes) ms)).
Proof.
  intros Hc. induction ms as [|m ms IH]; cbn [map concat]; [constructor|]. apply Forall_app. split; [|done].
  unfold table. destruct (routes !! m) eqn:E; [by apply (Hc m)|constructor].
Qed.

(** A compiled view does not match exactly when no prefix of the path is
    in its pattern's language. *)
Lemma no_match_lang path vs :
  Forall is_compiled vs ->
  Forall (no_match path) vs <->
  Forall (fun v => forall p, route v = RoutePattern p ->
                   forall j c, ~ matches (String.list_ascii_of_string path) p 0 j [] c) vs.
Proof.
  induction 1 as [|v vs Hv _ IH]; [done|]. rewrite !Forall_cons, IH. apply and_iff_compat_r.
  unfold is_compiled, no_match, view_match in *. destruct (route v) as [s|p]; [done|]. split.
  - intros H p' [= <-] j c Hm. destruct (re_match_complete _ _ _ _ Hm) as [mo E]. by rewrite E in H.
  - intros H. destruct (re_match p path) as [mo|] eqn:E; [|done].
    by destruct (H p eq_refl _ _ (re_match_sound _ _ _ E)).
Qed.

(** C3: on a compiled route table, [match] raises the 404 exactly when no
    view listed under the searched methods has a pattern that matches a
    prefix of the path. *)
Theorem match_route_404_iff routes path m :
  routes_compiled routes ->
  match_route routes path m = Exn route_not_found <->
  Forall (fun v => forall p, route v = RoutePattern p ->
                   forall j c, ~ matches (String.list_ascii_of_string path) p 0 j [] c)
    (concat (map (table routes) (search_methods m))).
Proof.
  intros Hc. pose proof (table_compiled routes (search_methods m) Hc) as Hall.
  rewrite <- no_match_lang, <- scan_None by done. unfold match_route. rewrite match_in_flat.
  destruct (scan_compiled _ path Hall) as [[res|] ->]; split; congruence.
Qed.

Lemma search_methods_head m : exists ms, search_methods m = m :: ms.
Proof. unfold search_methods. destruct (String.eqb m "HEAD"); eauto. Qed.

(** C26: registration and lookup: once a view with a compiled pattern is
    registered for method [m], a path its pattern matches is routed to
    it, with the pattern's named groups, unless a view registered before
    it for [m] matches first. *)
Theorem add_view_match_roundtrip routes v p m path mo :
  route v = RoutePattern p -> m ∈ map str_upper (methods v) ->
  Forall (no_match path) (table routes m) -> re_match p path = Some mo ->
  match_route (_add_view routes v) path m = Ok (compile_route v, groupdict p mo).
Proof.
  intros Hr Hm Hnone Hmo. unfold match_route.
  destruct (search_methods_head m) as [ms ->]. cbn [match_in].
  rewrite add_view_lookup_core, decide_True by done. cbn [default from_option id].
  apply scan_None in Hnone. unfold table in Hnone. rewrite scan_app, Hnone.
  assert (Hlen : length (filter (eq m) (map str_upper (methods v))) <> 0%nat).
  { intros Hz%length_zero_iff_nil.
    by apply (filter_nil_not_elem_of (eq m) (map str_upper (methods v)) m). }
  destruct (length _) as [|k]; [done|]. cbn [replicate scan].
  unfold view_match, compile_route. rewrite Hr. cbn. by rewrite Hmo.
Qed.

(** ** Fixtures and concrete runs *)

Definition ok_response (body : pyval) : response :=
  {| resp_body := body; resp_status := 200;
     resp_headers := [("content-type", PStr default_content_type)] |}.

(** A view whose handler answers 200 with [body]. *)
Definition simple_view (r : route_slot) (ms : list string) (body : pyval) : view :=
  {| route := r; methods := ms;
     v_before_handler := sret (OVal PNone);
     v_handler := sret (OResp (ok_response body));
     v_after_handler := fun resp => sret resp;
     v_on_exception := fun _ => sret (OVal PNone) |}.

(** [re.compile(r'/users/(?P<id>\d+)')]. *)
Definition users_pattern : regex :=
  RSeq (RLit "/users/") (RGroup (Some "id") (RPlus (RClass false [CDigit]))).

Definition users_view : view := simple_view (RoutePattern users_pattern) ["get"] (PStr "user").

(** [re.compile(r'.*')]: matches every path. *)
Definition catch_all_view : view := simple_view (RoutePattern (RStar true RAny)) ["GET"] (PStr "any").

Definition users_routes : route_table := _add_view (_add_view empty_routes users_view) catch_all_view.

Lemma users_routes_ok : routes_wf users_routes /\ routes_compiled users_routes.
Proof.
  destruct empty_routes_ok as [Hw Hc].
  destruct (add_view_invariants_core empty_routes users_view Hw Hc I) as [Hw1 Hc1].
  exact (add_view_invariants_core _ catch_all_view Hw1 Hc1 I).
Qed.

(** End to end: [GET /users/42] on the route [/users/(?P<id>\d+)] gives
    the parameters [{id: "42"}]; [re.match] anchors only at the start, so
    [/users/42/x] is routed to the same view. *)
Example users_route_params :
  match_route users_routes "/users/42" "get" = Exn route_not_found /\
  match_route users_routes "/users/42" "GET" = Ok (users_view, [(KStr "id", PStr "42")]) /\
  match_route users_routes "/users/42/x" "GET" = Ok (users_view, [(KStr "id", PStr "42")]) /\
  match_route users_routes "/users/" "GET" = Ok (catch_all_view, []).
Proof. vm_compute. repeat split. Qed.

Lemma add_view_invariants_witness :
  routes_wf (_add_view empty_routes users_view) /\ routes_compiled (_add_view empty_routes users_view).
Proof.
  apply add_view_invariants; [apply empty_routes_ok..|exact I].
Defined.

Lemma match_route_first_witness :
  exists ms1 m' ms2 l1 l2,
    search_methods "HEAD" = ms1 ++ m' :: ms2 /\
    Forall (fun m0 => Forall (no_match "/users/7") (table users_routes m0)) ms1 /\
    table users_routes m' = l1 ++ users_view :: l2 /\ Forall (no_match "/users/7") l1 /\
    view_match users_view "/users/7" = Ok (Some [(KStr "id", PStr "7")]).
Proof. apply match_route_first. vm_compute. reflexivity. Defined.

Lemma match_route_precedence_witness :
  exists l1' u l1'' g',
    [] ++ [users_view] = l1' ++ u :: l1'' /\ match_route users_routes "/users/9" "GET" = Ok (u, g').
Proof.
  apply (match_route_precedence users_routes "/users/9" "GET" [] users_view [catch_all_view]
           [(KStr "id", PStr "9")]).
  - apply users_routes_ok.
  - vm_compute. reflexivity.
  - vm_compute. reflexivity.
Defined.

Lemma match_head_fallback_witness :
  match_route users_routes "/users/5" "HEAD" = match_route users_routes "/users/5" "GET".
Proof. apply match_head_fallback. vm_compute. reflexivity. Defined.

Lemma match_route_not_found_witness :
  match_route (_add_view empty_routes users_view) "/about" "GET" = Exn route_not_found.
Proof.
  apply match_route_not_found. cbn. constructor; [|constructor].
  vm_compute (table _ _). repeat constructor.
Defined.

Lemma add_view_str_route_raises_witness :
  match_route (_add_view empty_routes (simple_view (RouteStr "/about") ["GET"] PNone)) "/about" "GET"
  = Exn (attribute_error "str" "match").
Proof.
  apply (add_view_str_route_raises _ _ "/about"); [reflexivity|vm_compute; left|reflexivity].
Defined.

Lemma add_view_match_roundtrip_witness :
  match_route (_add_view empty_routes users_view) "/users/7" "GET" =
    Ok (compile_route users_view, groupdict users_pattern (mkMatch 8 [("id", "7")])).
Proof.
  apply (add_view_match_roundtrip _ _ users_pattern); [reflexivity|vm_compute; left|constructor|].
  vm_compute. reflexivity.
Defined.

Lemma match_route_404_iff_witness :
  match_route users_routes "/posts" "GET" = Exn route_not_found <->
  Forall (fun v => forall p, route v = RoutePattern p ->
                   forall j c, ~ matches (String.list_ascii_of_string "/posts") p 0 j [] c)
    (concat (map (table users_routes) (search_methods "GET"))).
Proof. apply match_route_404_iff. apply users_routes_ok. Defined.
