(* ===== verification/Middleware.v ===== *)
(** * The middleware registry (src/src/restipy/core/application.py)

    A middleware (restipy/core/middleware.py is not among the sources) is
    three hooks: [before_route] and [before_handler] take the request and
    may return a Response; [after_handler] takes the request and the
    response and its return value is ignored, but it may change the
    response in place, so here it returns the response as it leaves the
    call.  [RestiPy.add_middleware] appends the three hooks to three
    parallel lists; [run_before] is the loop of [process_request] that
    stops at the first hook returning a Response; [run_after] runs every
    after hook in order.

    The invariant [aligned] says the three lists are the three
    projections of one list of middlewares in registration order:
    [add_middleware] preserves it, which is the spec's "appended
    atomically" (section 3). *)

From stdpp Require Import base list strings.
From S2P Require Import Prelude Values Response Request Routes.
Local Open Scope string_scope.

Record middleware : Type := mkMiddleware {
  mw_before_route : RM pyobj;
  mw_before_handler : RM pyobj;
  mw_after_handler : response -> RM response
}.

(** [_before_route_m], [_before_m] and [_after_m]. *)
Record registry : Type := mkRegistry {
  _before_route_m : list (RM pyobj);
  _before_m : list (RM pyobj);
  _after_m : list (response -> RM response)
}.

(** The three empty lists of [RestiPy.__init__]. *)
Definition empty_registry : registry := mkRegistry [] [] [].

(** [RestiPy.add_middleware]. *)
Definition add_middleware (reg : registry) (m : middleware) : registry :=
  {| _before_route_m := _before_route_m reg ++ [mw_before_route m];
     _before_m := _before_m reg ++ [mw_before_handler m];
     _after_m := _after_m reg ++ [mw_after_handler m] |}.

(** [for middleware in hooks: out = middleware(req); if isinstance(out,
    Response): return out]. *)
Fixpoint run_before (hooks : list (RM pyobj)) : RM (option response) :=
  match hooks with
  | [] => sret None
  | h :: hs =>
      let* out := h in
      match out with
      | OResp r => sret (Some r)
      | OVal _ => run_before hs
      end
  end.

(** [for middleware in self._after_m: middleware(req, out)]. *)
Fixpoint run_after (hooks : list (response -> RM response)) (out : response) : RM response :=
  match hooks with
  | [] => sret out
  | h :: hs => let* out' := h out in run_after hs out'
  end.

(** The three lists are the projections of the registered middlewares. *)
Definition aligned (reg : registry) (ms : list middleware) : Prop :=
  _before_route_m reg = map mw_before_route ms /\
  _before_m reg = map mw_before_handler ms /\
  _after_m reg = map mw_after_handler ms.

(** ** Registration *)

Lemma add_middleware_aligned_core reg ms m :
  aligned reg ms -> aligned (add_middleware reg m) (ms ++ [m]).
Proof.
  intros (H1 & H2 & H3). unfold aligned, add_middleware; cbn.
  by rewrite !map_app, H1, H2, H3.
Qed.

(** [add_middleware] keeps the three phase lists aligned: after
    registering [m], they are the projections of the registered
    middlewares followed by [m]. *)
Theorem add_middleware_aligned reg ms m :
  aligned reg ms -> aligned (add_middleware reg m) (ms ++ [m]).
Proof. exact (add_middleware_aligned_core reg ms m). Qed.

(** Registering a list of middlewares from scratch. *)
Definition add_middlewares (reg : registry) (ms : list middleware) : registry :=
  foldl add_middleware reg ms.

Lemma add_middlewares_aligned reg ms ms' :
  aligned reg ms -> aligned (add_middlewares reg ms') (ms ++ ms').
Proof.
  revert reg ms. induction ms' as [|m ms' IH]; intros reg ms H; cbn.
  - by rewrite app_nil_r.
  - rewrite cons_middle, app_assoc. by apply IH, add_middleware_aligned_core.
Qed.

(** ** Running the phases *)

Lemma run_before_app hs1 hs2 s :
  run_before (hs1 ++ hs2) s =
  sbind (run_before hs1) (fun o => match o with Some r => sret (Some r) | None => run_before hs2 end) s.
Proof.
  revert s. induction hs1 as [|h hs1 IH]; intros s; [done|]. cbn [app run_before].
  rewrite sbind_assoc. apply sbind_ext. intros [r|v] s'; [done|apply IH].
Qed.

(** Short-circuit: when the hooks before [h] return no Response and
    [h] returns one, the phase returns it in the state [h] left, and the
    hooks after [h] are not run. *)
Theorem run_before_short_circuit hs1 h hs2 s s1 s2 r :
  run_before hs1 s = (s1, Ok None) ->
  h s1 = (s2, Ok (OResp r)) ->
  run_before (hs1 ++ h :: hs2) s = (s2, Ok (Some r)).
Proof.
  intros H1 H2. rewrite run_before_app, (sbind_ok _ _ _ _ _ H1). cbn [run_before].
  by rewrite (sbind_ok _ _ _ _ _ H2).
Qed.

(** A hook that raises stops the phase with its exception. *)
Lemma run_before_raise hs1 h hs2 s s1 s2 e :
  run_before hs1 s = (s1, Ok None) ->
  h s1 = (s2, Exn e) ->
  run_before (hs1 ++ h :: hs2) s = (s2, Exn e).
Proof.
  intros H1 H2. rewrite run_before_app, (sbind_ok _ _ _ _ _ H1). cbn [run_before].
  by rewrite (sbind_exn _ _ _ _ _ H2).
Qed.

Lemma run_after_app hs1 hs2 out s :
  run_after (hs1 ++ hs2) out s = sbind (run_after hs1 out) (run_after hs2) s.
Proof.
  revert out s. induction hs1 as [|h hs1 IH]; intros out s; [done|]. cbn [app run_after].
  rewrite sbind_assoc. apply sbind_ext. intros o s'. apply IH.
Qed.

(** ** Witnesses *)

Definition pass_hook : RM pyobj := sret (OVal PNone).

Definition answer_hook (r : response) : RM pyobj := sret (OResp r).

Definition log_mw : middleware := mkMiddleware pass_hook pass_hook (fun r => sret r).

Lemma add_middleware_aligned_witness :
  aligned (add_middleware empty_registry log_mw) ([] ++ [log_mw]).
Proof. apply add_middleware_aligned. done. Defined.

Lemma run_before_short_circuit_witness :
  let s := fixture_request "GET" "" "" [] None in
  run_before ([pass_hook] ++ answer_hook (ok_response PNone) :: [pass_hook]) s =
    (s, Ok (Some (ok_response PNone))).
Proof. intros s. apply (run_before_short_circuit _ _ _ _ s); reflexivity. Defined.
