(* ===== verification/Lifecycle.v ===== *)
(** * The view lifecycle (the inner [try] of [RestiPy.process_request])

    Once a request is routed and the before-handler middleware has let it
    through, [process_request] (src/src/restipy/core/application.py,
    lines 344-360) runs the view's hooks: [before_handler], then
    [handler] (which must return a Response), then [after_handler], all
    inside a [try] whose [except RestiPyException] clause calls
    [on_exception] (which must return a Response too).  [run_view] is
    that block as a function of the monad; [vstep] is the same block as
    the state machine of the spec (section 4.3), one transition per hook
    call.  The two agree: every run of the machine from [VBefore] reaches
    the outcome of [run_view] in at most four steps, and no other final
    state ([vstep_adequate]).  On the machine, rule induction shows which
    exceptions reach [on_exception] ([on_exception_restipy_only]). *)

From stdpp Require Import base list relations strings.
From S2P Require Import Prelude Values Response Regex Request Routes.

(** ** The view lifecycle *)

(** How the view stage ends: a Response to return at once (from [before],
    or from [on_exception]), or the handler's Response after [after]. *)
Inductive view_outcome : Type :=
| ViewEarly (r : response)
| ViewDone (r : response).

Definition handler_contract : exc :=
  RestiPyException "Route handler must return a Response object." None.

Definition exception_contract (e : exc) : exc :=
  RestiPyException "Route exception must return Response object." (Some e).

(** The body of the inner [try]. *)
Definition view_try (v : view) : RM view_outcome :=
  let* out := v_before_handler v in
  match out with
  | OResp r => sret (ViewEarly r)
  | OVal _ =>
      let* out := v_handler v in
      match out with
      | OResp r =>
          let* r' := v_after_handler v r in
          sret (ViewDone r')
      | OVal _ => sraise handler_contract
      end
  end.

(** [except RestiPyException as e: out = view.on_exception(req, e); ...]. *)
Definition on_exception_clause (v : view) (e : exc) : option (RM view_outcome) :=
  if is_restipy_exception e then
    Some (let* out := v_on_exception v e in
          match out with
          | OResp r => sret (ViewEarly r)
          | OVal _ => sraise (exception_contract e)
          end)
  else None.

Definition run_view (v : view) : RM view_outcome := stry (view_try v) (on_exception_clause v).

(** ** Runs of the lifecycle *)

(** The runs of the view lifecycle. *)
Lemma run_view_before v s s1 r :
  v_before_handler v s = (s1, Ok (OResp r)) -> run_view v s = (s1, Ok (ViewEarly r)).
Proof.
  intros H. unfold run_view. apply stry_ok. unfold view_try. by rewrite (sbind_ok _ _ _ _ _ H).
Qed.

Lemma run_view_done v s s1 s2 s3 x r r' :
  v_before_handler v s = (s1, Ok (OVal x)) ->
  v_handler v s1 = (s2, Ok (OResp r)) ->
  v_after_handler v r s2 = (s3, Ok r') ->
  run_view v s = (s3, Ok (ViewDone r')).
Proof.
  intros H1 H2 H3. unfold run_view. apply stry_ok. unfold view_try.
  by rewrite (sbind_ok _ _ _ _ _ H1), (sbind_ok _ _ _ _ _ H2), (sbind_ok _ _ _ _ _ H3).
Qed.

(** A RestiPyException raised in the inner [try] goes to [on_exception]. *)
Lemma run_view_recover v s s1 e :
  view_try v s = (s1, Exn e) -> is_restipy_exception e = true ->
  run_view v s =
  sbind (v_on_exception v e) (fun out => match out with
                                         | OResp r => sret (ViewEarly r)
                                         | OVal _ => sraise (exception_contract e) end) s1.
Proof.
  intros H He. unfold run_view. eapply stry_caught; [exact H|]. unfold on_exception_clause.
  by rewrite He.
Qed.

(** A handler that returns something other than a Response raises the
    contract RestiPyException inside the inner [try]. *)
Lemma view_try_contract v s s1 s2 x y :
  v_before_handler v s = (s1, Ok (OVal x)) ->
  v_handler v s1 = (s2, Ok (OVal y)) ->
  view_try v s = (s2, Exn handler_contract).
Proof.
  intros H1 H2. unfold view_try. by rewrite (sbind_ok _ _ _ _ _ H1), (sbind_ok _ _ _ _ _ H2).
Qed.

(** An exception from the view's [after] hook is raised inside the
    inner [try] too. *)
Lemma view_try_after_raise v s s1 s2 s3 x r e :
  v_before_handler v s = (s1, Ok (OVal x)) ->
  v_handler v s1 = (s2, Ok (OResp r)) ->
  v_after_handler v r s2 = (s3, Exn e) ->
  view_try v s = (s3, Exn e).
Proof.
  intros H1 H2 H3. unfold view_try.
  by rewrite (sbind_ok _ _ _ _ _ H1), (sbind_ok _ _ _ _ _ H2), (sbind_exn _ _ _ _ _ H3).
Qed.

(** ** The lifecycle as a state machine *)

(** The phases of the view stage: about to call [before_handler],
    [handler], [after_handler] (with the handler's Response) or
    [on_exception] (with the exception caught), or finished: with a
    [view_outcome], or with an exception that leaves the view stage for
    the outer [try] of [process_request]. *)
Inductive vphase : Type :=
| VBefore
| VHandler
| VAfter (r : response)
| VOnException (e : exc)
| VDone (o : view_outcome)
| VFatal (e : exc).

Definition vconf : Type := vphase * request.

(** Where an exception raised inside the [try] goes: a RestiPyException
    to [on_exception], anything else out of the view stage. *)
Definition raised (e : exc) : vphase :=
  if is_restipy_exception e then VOnException e else VFatal e.

(** One hook call and what the code does with its result. *)
Inductive vstep (v : view) : vconf -> vconf -> Prop :=
| vs_before_resp s s' r :
    v_before_handler v s = (s', Ok (OResp r)) -> vstep v (VBefore, s) (VDone (ViewEarly r), s')
| vs_before_val s s' x :
    v_before_handler v s = (s', Ok (OVal x)) -> vstep v (VBefore, s) (VHandler, s')
| vs_before_exn s s' e :
    v_before_handler v s = (s', Exn e) -> vstep v (VBefore, s) (raised e, s')
| vs_handler_resp s s' r :
    v_handler v s = (s', Ok (OResp r)) -> vstep v (VHandler, s) (VAfter r, s')
| vs_handler_val s s' y :
    v_handler v s = (s', Ok (OVal y)) -> vstep v (VHandler, s) (raised handler_contract, s')
| vs_handler_exn s s' e :
    v_handler v s = (s', Exn e) -> vstep v (VHandler, s) (raised e, s')
| vs_after_ok s s' r r' :
    v_after_handler v r s = (s', Ok r') -> vstep v (VAfter r, s) (VDone (ViewDone r'), s')
| vs_after_exn s s' r e :
    v_after_handler v r s = (s', Exn e) -> vstep v (VAfter r, s) (raised e, s')
| vs_exc_resp s s' e r :
    v_on_exception v e s = (s', Ok (OResp r)) -> vstep v (VOnException e, s) (VDone (ViewEarly r), s')
| vs_exc_val s s' e y :
    v_on_exception v e s = (s', Ok (OVal y)) ->
    vstep v (VOnException e, s) (VFatal (exception_contract e), s')
| vs_exc_exn s s' e e' :
    v_on_exception v e s = (s', Exn e') -> vstep v (VOnException e, s) (VFatal e', s').

#[export] Hint Constructors vstep : restipy.

(** The step as a function: the machine is executable. *)
Definition vnext (v : view) (c : vconf) : option vconf :=
  let '(p, s) := c in
  match p with
  | VBefore =>
      Some (match v_before_handler v s with
            | (s', Ok (OResp r)) => (VDone (ViewEarly r), s')
            | (s', Ok (OVal _)) => (VHandler, s')
            | (s', Exn e) => (raised e, s')
            end)
  | VHandler =>
      Some (match v_handler v s with
            | (s', Ok (OResp r)) => (VAfter r, s')
            | (s', Ok (OVal _)) => (raised handler_contract, s')
            | (s', Exn e) => (raised e, s')
            end)
  | VAfter r =>
      Some (match v_after_handler v r s with
            | (s', Ok r') => (VDone (ViewDone r'), s')
            | (s', Exn e) => (raised e, s')
            end)
  | VOnException e =>
      Some (match v_on_exception v e s with
            | (s', Ok (OResp r)) => (VDone (ViewEarly r), s')
            | (s', Ok (OVal _)) => (VFatal (exception_contract e), s')
            | (s', Exn e') => (VFatal e', s')
            end)
  | VDone _ | VFatal _ => None
  end.

(** The final configuration of a run of [run_view]. *)
Definition final_conf (p : request * outcome exc view_outcome) : vconf :=
  match p.2 with Ok o => (VDone o, p.1) | Exn e => (VFatal e, p.1) end.

Definition vterminal (c : vconf) : bool :=
  match c.1 with VDone _ | VFatal _ => true | _ => false end.

(** ** The machine and [run_view] agree *)

Lemma vstep_vnext v c c' : vstep v c c' <-> vnext v c = Some c'.
Proof.
  split.
  - destruct 1 as [s s' ? H|s s' ? H|s s' ? H|s s' ? H|s s' ? H|s s' ? H|s s' ? ? H|s s' ? ? H
                  |s s' ? ? H|s s' ? ? H|s s' ? ? H]; cbn; by rewrite H.
  - destruct c as [[| |r|e| |] s]; cbn; intros Hc; try done; injection Hc as <-;
      repeat case_match; simplify_eq; eauto with restipy.
Qed.

Lemma vterminal_nf v c : nf (vstep v) c <-> vterminal c = true.
Proof.
  rewrite (step_nf _ (vnext v) (vstep_vnext v)).
  destruct c as [[] s]; cbn; split; done.
Qed.

Lemma final_conf_terminal p : vterminal (final_conf p) = true.
Proof. destruct p as [s [o|e]]; done. Qed.

Section Iterate.
Context (v : view).

Lemma iterate_S n c :
  iterate (vnext v) (S n) c = match vnext v c with Some c' => iterate (vnext v) n c' | None => c end.
Proof. done. Qed.

Lemma iterate_terminal n c : vterminal c = true -> iterate (vnext v) n c = c.
Proof. destruct n; [done|]. destruct c as [[] s]; done. Qed.

(** From an exception raised in the [try], one more step ends the stage
    as the [except] clause does. *)
Lemma iterate_raised n e s :
  iterate (vnext v) (S n) (raised e, s) =
  final_conf (match on_exception_clause v e with Some h => h s | None => (s, Exn e) end).
Proof.
  unfold raised, on_exception_clause. destruct (is_restipy_exception e); [|by apply iterate_terminal].
  unfold sbind, sret, sraise.
  destruct (v_on_exception v e s) as [s' [[r|y]|e']] eqn:E;
    rewrite iterate_S; cbn [vnext]; rewrite E; by apply iterate_terminal.
Qed.
End Iterate.

(** Four steps of the machine compute [run_view]. *)
Lemma run_view_iterate v s : iterate (vnext v) 4 (VBefore, s) = final_conf (run_view v s).
Proof.
  unfold run_view, stry, view_try, sbind, sret, sraise.
  rewrite iterate_S; cbn [vnext].
  destruct (v_before_handler v s) as [s1 [[r|x]|e]];
    [by rewrite iterate_terminal| |by rewrite iterate_raised].
  rewrite iterate_S; cbn [vnext].
  destruct (v_handler v s1) as [s2 [[r|y]|e]]; [|by rewrite iterate_raised..].
  rewrite iterate_S; cbn [vnext].
  destruct (v_after_handler v r s2) as [s3 [r'|e]];
    [by rewrite iterate_terminal|by rewrite iterate_raised].
Qed.

Lemma run_view_refines_core v s :
  bsteps (vstep v) 4 (VBefore, s) (final_conf (run_view v s)) /\
  nf (vstep v) (final_conf (run_view v s)).
Proof.
  rewrite <- run_view_iterate. split; [exact (iterate_bsteps _ _ (vstep_vnext v) 4 _)|].
  apply vterminal_nf. rewrite run_view_iterate. apply final_conf_terminal.
Qed.

(** The machine computes [run_view]: every run of the machine from
    [VBefore] that stops, stops at the configuration [run_view] computes
    (which four steps reach), so the machine has no other behaviour. *)
Theorem vstep_adequate v s c :
  rtc (vstep v) (VBefore, s) c -> nf (vstep v) c -> c = final_conf (run_view v s).
Proof.
  intros Hc Hn. destruct (run_view_refines_core v s) as [Hb Hf].
  exact (rtc_nf_unique _ _ (vstep_vnext v) _ _ _ Hc (rtc_bsteps_2 _ _ _ Hb) Hn Hf).
Qed.

(** What every reachable configuration satisfies: [on_exception] is only
    ever about to be called with a RestiPyException. *)
Definition vinv (c : vconf) : Prop :=
  match c.1 with VOnException e => is_restipy_exception e = true | _ => True end.

Lemma raised_inv e s : vinv (raised e, s).
Proof. unfold raised, vinv. by destruct (is_restipy_exception e) eqn:E. Qed.

Lemma vstep_inv v c c' : vstep v c c' -> vinv c'.
Proof. destruct 1; try apply raised_inv; done. Qed.

(** C11: [on_exception] is called only with a RestiPyException: an
    HTTPException or any other error raised by [before_handler],
    [handler] or [after_handler] leaves the view stage untouched. *)
Theorem on_exception_restipy_only v s e s' :
  rtc (vstep v) (VBefore, s) (VOnException e, s') -> is_restipy_exception e = true.
Proof.
  intros H. apply rtc_inv_r in H as [Heq|(c & _ & Hs)]; [done|].
  exact (vstep_inv _ _ _ Hs).
Qed.

(** ** Witnesses *)

Definition plain_view : view := simple_view (RoutePattern REmpty) ["GET"] PNone.

Definition plain_request : request := fixture_request "GET" "" "" [] None.

Lemma vstep_adequate_witness :
  (VDone (ViewDone (ok_response PNone)), plain_request) = final_conf (run_view plain_view plain_request).
Proof.
  apply vstep_adequate.
  - eapply rtc_l; [apply vs_before_val with (x := PNone); reflexivity|].
    eapply rtc_l; [apply vs_handler_resp; reflexivity|].
    eapply rtc_l; [apply vs_after_ok; reflexivity|]. apply rtc_refl.
  - by apply vterminal_nf.
Defined.

(** [before_handler] raises a RestiPyException. *)
Definition failing_view : view :=
  {| route := RoutePattern REmpty; methods := ["GET"];
     v_before_handler := sraise (RestiPyException "denied" None);
     v_handler := sret (OResp (ok_response PNone));
     v_after_handler := fun resp => sret resp;
     v_on_exception := fun _ => sret (OResp (ok_response (PStr "recovered"))) |}.

Lemma on_exception_restipy_only_witness :
  is_restipy_exception (RestiPyException "denied" None) = true.
Proof.
  apply (on_exception_restipy_only failing_view plain_request _ plain_request).
  eapply rtc_l; [apply vs_before_exn; reflexivity|]. apply rtc_refl.
Defined.
