(* ===== verification/Application.v ===== *)
(** * The dispatcher (src/src/restipy/core/application.py)

    [restipy] is the state of a [RestiPy] instance: its settings
    ([self.config], unset until [bootstrap]), the route table and the
    middleware registry.  [process_request] is [RestiPy.process_request]:
    it binds the application into the environment, builds the Request
    (whose [params] is the process-wide default dict, passed in and
    returned so that consecutive requests share it), and
    runs [dispatch] (the body of the outer [try]) under [handle_exception]
    (its two [except] clauses).  [dispatch] is, in order: the before-route
    hooks, [match], [req.set_params], the before-handler hooks, the view
    lifecycle [run_view] of Lifecycle.v (the inner [try] with its [except
    RestiPyException]), and the after-handler hooks, which run only when
    the view completed normally.  [wsgi] is [RestiPy.wsgi]: it emits the
    status line and headers and yields the body, or nothing for HEAD.

    The theorems describe every path through [process_request]: the
    short-circuits, the 404, contract violations, the normal path, the
    error tiers and the debug gate, and when an exception escapes the
    dispatcher altogether. *)

From stdpp Require Import base list strings gmap.
From Stdlib.Strings Require Import Byte.
From S2P Require Import Prelude Values Response Regex Request Routes Middleware Lifecycle.

Record restipy : Type := mkRestiPy {
  config : option settings;
  _routes : route_table;
  mw : registry
}.

(** [RestiPy()]: no settings yet, no route, no middleware. *)
Definition new_app : restipy := mkRestiPy None empty_routes empty_registry.

(** [RestiPy.add_middleware] and [RestiPy._add_view] on the instance. *)
Definition app_add_middleware (app : restipy) (m : middleware) : restipy :=
  mkRestiPy (config app) (_routes app) (add_middleware (mw app) m).

Definition app_add_view (app : restipy) (v : view) : restipy :=
  mkRestiPy (config app) (_add_view (_routes app) v) (mw app).

(** The registrations [RestiPy.bootstrap] performs once the classes are
    found: set the settings, then add the views, then the middlewares, in
    order.  The fixtures below are built with it; [bootstrap] itself, with
    the module discovery, is in Discovery.v. *)
Definition register_all (app : restipy) (s : settings) (views : list view)
    (mws : list middleware) : restipy :=
  let app := mkRestiPy (Some s) (_routes app) (mw app) in
  let app := foldl app_add_view app views in
  foldl app_add_middleware app mws.

(** ** The pipeline *)

(** [view, params = self.match(req.path, req.method)]. *)
Definition route_request (routes : route_table) : RM (view * list (pykey * pyval)) :=
  fun r => (r, match_route routes (path r) (method r)).

(** The outer [try] after routing: the before-handler hooks, the view,
    and the after-handler hooks when the view completed normally. *)
Definition serve_view (app : restipy) (v : view) : RM response :=
  let* o := run_before (_before_m (mw app)) in
  match o with
  | Some r => sret r
  | None =>
      let* vo := run_view v in
      match vo with
      | ViewEarly r => sret r
      | ViewDone r => run_after (_after_m (mw app)) r
      end
  end.

(** The body of the outer [try] of [process_request]. *)
Definition dispatch (app : restipy) : RM response :=
  let* o := run_before (_before_route_m (mw app)) in
  match o with
  | Some r => sret r
  | None =>
      let* '(v, params) := route_request (_routes app) in
      let* _ := set_params params in
      serve_view app v
  end.

(** [e.get_response()] of an HTTPException: its code and message. *)
Definition http_error_body (code message : string) : pyval :=
  PDict [(KStr "code", PStr code); (KStr "error", PStr message)].

Definition generic_error_body : pyval :=
  PDict [(KStr "code", PStr "INTERNAL_SERVER_ERROR");
         (KStr "error", PStr "Something went wrong, try again later.")].

Definition debug_error_body (e : exc) : pyval :=
  PDict [(KStr "code", PStr "INTERNAL_SERVER_ERROR");
         (KStr "error", PStr (exc_str e));
         (KStr "stacktrace", PList (map PStr (splitlines (format_exc e))))].

(** [self.config.DEBUG is False]: only the boolean [False] itself. *)
Definition is_False (v : pyval) : bool :=
  match v with PBool false => true | _ => false end.

Definition set_errors (log : list string) (r : request) : request :=
  set_env {| env_vars := env_vars (req_env r); wsgi_input := wsgi_input (req_env r);
             wsgi_errors := Some log; restipy_app := restipy_app (req_env r) |} r.

(** The two [except] clauses.  An HTTPException becomes its own
    Response (the constructor rejects an unknown status); anything else
    is written to [wsgi.errors] and becomes a 500 whose body depends on
    [DEBUG].  A failure inside a clause escapes [process_request]. *)
Definition handle_exception (app : restipy) (e : exc) : RM response :=
  match e with
  | HTTPException message status code headers =>
      sof (new_response (http_error_body code message) status headers)
  | _ =>
      fun r =>
        match wsgi_errors (req_env r) with
        | None => (r, Exn (key_error "wsgi.errors"))
        | Some log =>
            let r := set_errors (log ++ [format_exc e]) r in
            match config app with
            | None => (r, Exn (attribute_error "RestiPy" "config"))
            | Some cfg =>
                match DEBUG cfg with
                | None => (r, Exn (attribute_error "module" "DEBUG"))
                | Some d =>
                    (r, new_response (if is_False d then generic_error_body else debug_error_body e)
                          500 None)
                end
            end
        end
  end.

(** [env['restipy.app'] = self]. *)
Definition bind_app (app : restipy) (env : environ) : environ :=
  {| env_vars := env_vars env; wsgi_input := wsgi_input env;
     wsgi_errors := wsgi_errors env; restipy_app := Some (config app) |}.

(** The content of the default [params] dict of [Request.__init__]:
    one object for the whole process, which every request starts with. *)
Abbreviation params_default := (list (pykey * pyval)).

(** [RestiPy.process_request(env)], called when the shared default dict
    holds [dflt]: the environment as the call leaves it, the Response or
    the exception that escapes, and the default dict as the call leaves
    it for the next request. *)
Definition process_request (app : restipy) (dflt : params_default) (env : environ)
    : environ * outcome exc response * params_default :=
  let r := new_request dflt (bind_app app env) in
  let '(r', o) := stry (dispatch app) (fun e => Some (handle_exception app e)) r in
  (req_env r', o, req_default r').

(** What the server receives from [RestiPy.wsgi]: the arguments of
    [start_response] and the body chunks. *)
Record wsgi_result : Type := mkWsgiResult {
  ws_status : string;
  ws_headers : list (string * string);
  ws_body : list (list byte)
}.

(** [RestiPy.wsgi(env, start_response)]. *)
Definition wsgi (app : restipy) (dflt : params_default) (env : environ)
    : environ * outcome exc wsgi_result * params_default :=
  let m := str_upper (default "GET" (env_vars env !! "REQUEST_METHOD")) in
  let '(env', o, d') := process_request app dflt env in
  match o with
  | Exn e => (env', Exn e, d')
  | Ok out =>
      match get_response out with
      | Exn e => (env', Exn e, d')
      | Ok (data, status, headers) =>
          (env', Ok {| ws_status := status; ws_headers := headers;
                       ws_body := if String.eqb m "HEAD" then [] else [data] |}, d')
      end
  end.

(** ** Paths through [dispatch] *)

(** The request [process_request] builds. *)
Definition initial_request (app : restipy) (dflt : params_default) (env : environ) : request :=
  new_request dflt (bind_app app env).

Lemma process_ok app dflt env s1 r :
  dispatch app (initial_request app dflt env) = (s1, Ok r) ->
  process_request app dflt env = (req_env s1, Ok r, req_default s1).
Proof. unfold process_request, initial_request, stry. by intros ->. Qed.

Lemma process_exn app dflt env s1 e :
  dispatch app (initial_request app dflt env) = (s1, Exn e) ->
  process_request app dflt env =
    ((handle_exception app e s1).1.(req_env), (handle_exception app e s1).2,
     (handle_exception app e s1).1.(req_default)).
Proof.
  unfold process_request, initial_request, stry. intros ->. by destruct (handle_exception app e s1).
Qed.

Lemma dispatch_before_route app s s1 r :
  run_before (_before_route_m (mw app)) s = (s1, Ok (Some r)) ->
  dispatch app s = (s1, Ok r).
Proof. intros H. unfold dispatch. by rewrite (sbind_ok _ _ _ _ _ H). Qed.

Lemma dispatch_before_route_exn app s s1 e :
  run_before (_before_route_m (mw app)) s = (s1, Exn e) ->
  dispatch app s = (s1, Exn e).
Proof. intros H. unfold dispatch. by rewrite (sbind_exn _ _ _ _ _ H). Qed.

(** The [except] clauses leave the shared default dict alone. *)
Lemma handle_exception_default app e s : req_default (handle_exception app e s).1 = req_default s.
Proof. destruct e; unfold handle_exception, sof; [done|..]; repeat case_match; done. Qed.

Lemma dispatch_route_error app s s1 e :
  run_before (_before_route_m (mw app)) s = (s1, Ok None) ->
  match_route (_routes app) (path s1) (method s1) = Exn e ->
  dispatch app s = (s1, Exn e).
Proof.
  intros H Hm. unfold dispatch. rewrite (sbind_ok _ _ _ _ _ H).
  unfold sbind at 1, route_request. by rewrite Hm.
Qed.

Lemma dispatch_routed app s s1 v g :
  run_before (_before_route_m (mw app)) s = (s1, Ok None) ->
  match_route (_routes app) (path s1) (method s1) = Ok (v, g) ->
  dispatch app s = serve_view app v (set_params_field g s1).
Proof.
  intros H Hm. unfold dispatch. rewrite (sbind_ok _ _ _ _ _ H).
  unfold sbind at 1, route_request. by rewrite Hm.
Qed.

Lemma serve_view_before_handler app v s s1 r :
  run_before (_before_m (mw app)) s = (s1, Ok (Some r)) ->
  serve_view app v s = (s1, Ok r).
Proof. intros H. unfold serve_view. by rewrite (sbind_ok _ _ _ _ _ H). Qed.

Lemma serve_view_run app v s s1 :
  run_before (_before_m (mw app)) s = (s1, Ok None) ->
  serve_view app v s =
  sbind (run_view v) (fun vo => match vo with
                                | ViewEarly r => sret r
                                | ViewDone r => run_after (_after_m (mw app)) r end) s1.
Proof. intros H. unfold serve_view. by rewrite (sbind_ok _ _ _ _ _ H). Qed.

(** ** Properties of [process_request] *)

Section Pipeline.
Context (app : restipy) (dflt : params_default) (env : environ).

Abbreviation s0 := (initial_request app dflt env).
Abbreviation before_route := (_before_route_m (mw app)).
Abbreviation before_handler := (_before_m (mw app)).

(** C7: a before-route hook that returns a Response ends the request
    with it: no routing, no later hook, no view, and no after-handler
    hook (the spec says after-handler middleware still runs). *)
Theorem process_before_route_short_circuit s1 r :
  run_before before_route s0 = (s1, Ok (Some r)) ->
  process_request app dflt env = (req_env s1, Ok r, req_default s1).
Proof. intros H. apply process_ok. by apply dispatch_before_route. Qed.

(** The same for a before-handler hook: the view and the
    after-handler hooks are skipped. *)
Theorem process_before_handler_short_circuit s1 s2 v g r :
  run_before before_route s0 = (s1, Ok None) ->
  match_route (_routes app) (path s1) (method s1) = Ok (v, g) ->
  run_before before_handler (set_params_field g s1) = (s2, Ok (Some r)) ->
  process_request app dflt env = (req_env s2, Ok r, req_default s2).
Proof.
  intros H1 Hm H2. apply process_ok. rewrite (dispatch_routed _ _ _ _ _ H1 Hm).
  by apply serve_view_before_handler.
Qed.

(** C6: a request no route matches is answered 404 with the body
    [{"code": "ROUTE_NOT_FOUND", "error": "Route not found."}]; the view
    lifecycle is not entered. *)
Theorem process_route_not_found s1 :
  run_before before_route s0 = (s1, Ok None) ->
  match_route (_routes app) (path s1) (method s1) = Exn route_not_found ->
  exists resp, process_request app dflt env = (req_env s1, Ok resp, req_default s1) /\
               resp_status resp = 404%Z /\
               resp_body resp = http_error_body "ROUTE_NOT_FOUND" "Route not found.".
Proof.
  intros H Hm. rewrite (process_exn _ _ _ _ _ (dispatch_route_error _ _ _ _ H Hm)).
  cbn. by eexists.
Qed.

(** C8: the normal path: [before] returns no Response, [handler] returns
    one, [after] sees it, then every after-handler hook runs in order on
    the same response object, and the response as they leave it is
    returned. *)
Theorem process_normal s1 s2 s3 s4 s5 s6 v g x r r' r'' :
  run_before before_route s0 = (s1, Ok None) ->
  match_route (_routes app) (path s1) (method s1) = Ok (v, g) ->
  run_before before_handler (set_params_field g s1) = (s2, Ok None) ->
  v_before_handler v s2 = (s3, Ok (OVal x)) ->
  v_handler v s3 = (s4, Ok (OResp r)) ->
  v_after_handler v r s4 = (s5, Ok r') ->
  run_after (_after_m (mw app)) r' s5 = (s6, Ok r'') ->
  process_request app dflt env = (req_env s6, Ok r'', req_default s6).
Proof.
  intros H1 Hm H2 H3 H4 H5 H6. apply process_ok. rewrite (dispatch_routed _ _ _ _ _ H1 Hm).
  rewrite (serve_view_run _ _ _ _ H2).
  by rewrite (sbind_ok _ _ _ _ _ (run_view_done _ _ _ _ _ _ _ _ H3 H4 H5)).
Qed.

(** C9: a view whose [before] hook returns a Response ends the request
    with it, and the after-handler middleware does not run (the spec
    says it does). *)
Theorem process_view_before_skips_after s1 s2 s3 v g r :
  run_before before_route s0 = (s1, Ok None) ->
  match_route (_routes app) (path s1) (method s1) = Ok (v, g) ->
  run_before before_handler (set_params_field g s1) = (s2, Ok None) ->
  v_before_handler v s2 = (s3, Ok (OResp r)) ->
  process_request app dflt env = (req_env s3, Ok r, req_default s3).
Proof.
  intros H1 Hm H2 H3. apply process_ok. rewrite (dispatch_routed _ _ _ _ _ H1 Hm).
  rewrite (serve_view_run _ _ _ _ H2). by rewrite (sbind_ok _ _ _ _ _ (run_view_before _ _ _ _ H3)).
Qed.

(** C10: a handler that returns something other than a Response is not
    fatal: the contract RestiPyException it causes is handed to the
    view's [on_exception], and a Response from there is returned (the
    spec calls this a fatal contract violation). *)
Theorem process_handler_contract s1 s2 s3 s4 s5 v g x y r :
  run_before before_route s0 = (s1, Ok None) ->
  match_route (_routes app) (path s1) (method s1) = Ok (v, g) ->
  run_before before_handler (set_params_field g s1) = (s2, Ok None) ->
  v_before_handler v s2 = (s3, Ok (OVal x)) ->
  v_handler v s3 = (s4, Ok (OVal y)) ->
  v_on_exception v handler_contract s4 = (s5, Ok (OResp r)) ->
  process_request app dflt env = (req_env s5, Ok r, req_default s5).
Proof.
  intros H1 Hm H2 H3 H4 H5. apply process_ok. rewrite (dispatch_routed _ _ _ _ _ H1 Hm).
  rewrite (serve_view_run _ _ _ _ H2).
  assert (Hv : run_view v s2 = (s5, Ok (ViewEarly r))).
  { rewrite (run_view_recover _ _ _ _ (view_try_contract _ _ _ _ _ _ H3 H4)) by done.
    by rewrite (sbind_ok _ _ _ _ _ H5). }
  by rewrite (sbind_ok _ _ _ _ _ Hv).
Qed.

(** C20: a RestiPyException raised by the view's [after] hook is handed
    to [on_exception] (the spec reserves it for [before] and
    [handler]), and its Response is returned without running the
    after-handler middleware. *)
Theorem process_after_error_recovered s1 s2 s3 s4 s5 s6 v g x r e r' :
  run_before before_route s0 = (s1, Ok None) ->
  match_route (_routes app) (path s1) (method s1) = Ok (v, g) ->
  run_before before_handler (set_params_field g s1) = (s2, Ok None) ->
  v_before_handler v s2 = (s3, Ok (OVal x)) ->
  v_handler v s3 = (s4, Ok (OResp r)) ->
  v_after_handler v r s4 = (s5, Exn e) -> is_restipy_exception e = true ->
  v_on_exception v e s5 = (s6, Ok (OResp r')) ->
  process_request app dflt env = (req_env s6, Ok r', req_default s6).
Proof.
  intros H1 Hm H2 H3 H4 H5 He H6. apply process_ok. rewrite (dispatch_routed _ _ _ _ _ H1 Hm).
  rewrite (serve_view_run _ _ _ _ H2).
  assert (Hv : run_view v s2 = (s6, Ok (ViewEarly r'))).
  { rewrite (run_view_recover _ _ _ _ (view_try_after_raise _ _ _ _ _ _ _ _ H3 H4 H5)) by done.
    by rewrite (sbind_ok _ _ _ _ _ H6). }
  by rewrite (sbind_ok _ _ _ _ _ Hv).
Qed.

Lemma process_http_exception_core s1 message status code headers :
  dispatch app s0 = (s1, Exn (HTTPException message status code headers)) ->
  process_request app dflt env =
    (req_env s1, new_response (http_error_body code message) status headers, req_default s1).
Proof. intros H. by rewrite (process_exn _ _ _ _ _ H). Qed.

(** C14: an HTTPException that reaches the boundary becomes the Response
    [Response(e.get_response(), status_code=e.status_code,
    headers=e.headers)]; with a status outside the table the constructor
    raises, and that exception escapes [process_request]. *)
Theorem process_http_exception s1 message status code headers :
  dispatch app s0 = (s1, Exn (HTTPException message status code headers)) ->
  process_request app dflt env =
    (req_env s1, new_response (http_error_body code message) status headers, req_default s1).
Proof. exact (process_http_exception_core s1 message status code headers). Qed.

(** The other exceptions: logged to [wsgi.errors], then a 500 whose
    body is decided by [DEBUG is False]. *)
Lemma process_internal_error s1 e log cfg d :
  dispatch app s0 = (s1, Exn e) -> is_http_exception e = false ->
  wsgi_errors (req_env s1) = Some log -> config app = Some cfg -> DEBUG cfg = Some d ->
  process_request app dflt env =
    (req_env (set_errors (log ++ [format_exc e]) s1),
     new_response (if is_False d then generic_error_body else debug_error_body e) 500 None,
     req_default s1).
Proof.
  intros H He Hlog Hcfg Hd. rewrite (process_exn _ _ _ _ _ H).
  destruct e; [done| |]; cbn; by rewrite Hlog, Hcfg, Hd.
Qed.

(** C12 (the security boundary): with [DEBUG = False], any exception
    other than an HTTPException is answered 500 with the fixed generic
    body, whatever the exception, and its trace goes to [wsgi.errors]
    only. *)
Theorem process_internal_error_nondebug s1 e log cfg :
  dispatch app s0 = (s1, Exn e) -> is_http_exception e = false ->
  wsgi_errors (req_env s1) = Some log -> config app = Some cfg -> DEBUG cfg = Some (PBool false) ->
  exists resp,
    process_request app dflt env =
      (req_env (set_errors (log ++ [format_exc e]) s1), Ok resp, req_default s1) /\
    resp_status resp = 500%Z /\ resp_body resp = generic_error_body.
Proof. intros. rewrite (process_internal_error s1 e log cfg (PBool false)) by done. by eexists. Qed.

(** C13: the gate is [DEBUG is False], not [not DEBUG]: a falsy setting
    such as [DEBUG = 0] or [DEBUG = None] sends the exception message
    and the whole trace to the client. *)
Theorem process_internal_error_falsy_debug_leaks s1 e log cfg d :
  dispatch app s0 = (s1, Exn e) -> is_http_exception e = false ->
  wsgi_errors (req_env s1) = Some log -> config app = Some cfg -> DEBUG cfg = Some d ->
  truthy d = false -> d <> PBool false ->
  exists resp,
    process_request app dflt env =
      (req_env (set_errors (log ++ [format_exc e]) s1), Ok resp, req_default s1) /\
    resp_status resp = 500%Z /\ resp_body resp = debug_error_body e /\
    splitlines (format_exc e) <> [].
Proof.
  intros H He Hlog Hcfg Hd Hf Hne. rewrite (process_internal_error s1 e log cfg d) by done.
  assert (is_False d = false) as -> by (destruct d as [|[]| | | | |]; done).
  eexists. split; [done|]. split; [done|]. split; [done|].
  apply format_exc_splitlines_nonempty.
Qed.

(** C15: when the error stream and the DEBUG setting are there, the only
    exception that escapes [process_request] is the constructor's
    rejection of an HTTPException with an unknown status. *)
Theorem process_escape s1 e log cfg d env' e' d' :
  dispatch app s0 = (s1, Exn e) ->
  wsgi_errors (req_env s1) = Some log -> config app = Some cfg -> DEBUG cfg = Some d ->
  process_request app dflt env = (env', Exn e', d') ->
  is_http_exception e = true /\ e' = invalid_status_code.
Proof.
  intros H Hlog Hcfg Hd Hp. destruct e as [m st c hs| |].
  - rewrite (process_http_exception_core s1 m st c hs H) in Hp. unfold new_response in Hp.
    destruct (status_valid st); simplify_eq. done.
  - by rewrite (process_internal_error s1 _ log cfg d H) in Hp.
  - by rewrite (process_internal_error s1 _ log cfg d H) in Hp.
Qed.
(** C33: [Request(env)] takes its [params] from the default argument
    [params={}], one dict for the whole process.  When the before-route
    hooks leave [req.params] on that dict and the request is not routed
    (a hook answers, a hook raises, or [match] fails), the next request,
    whatever its environment, starts with [req.params] equal to the dict
    those hooks left: what one request wrote is visible to the next. *)
Theorem shared_params_across_requests s1 o env2 :
  run_before before_route s0 = (s1, o) ->
  req_params s1 = SharedDefault ->
  (o = Ok None -> exists e, match_route (_routes app) (path s1) (method s1) = Exn e) ->
  params (initial_request app (process_request app dflt env).2 env2) = params s1.
Proof.
  intros H Hp Hr. unfold params at 2. rewrite Hp. cbn.
  destruct o as [[r|]|e].
  - by rewrite (process_ok _ _ _ _ _ (dispatch_before_route _ _ _ _ H)).
  - destruct (Hr eq_refl) as [e He].
    rewrite (process_exn _ _ _ _ _ (dispatch_route_error _ _ _ _ H He)). apply handle_exception_default.
  - rewrite (process_exn _ _ _ _ _ (dispatch_before_route_exn _ _ _ _ H)). apply handle_exception_default.
Qed.
End Pipeline.

(** ** Emission *)

(** C16: [wsgi] emits the status line and headers of the Response, and the
    body only when the method is not HEAD: a HEAD request gets no body
    bytes whatever the handler produced. *)
Theorem wsgi_emits app dflt env env' out d' data status headers :
  process_request app dflt env = (env', Ok out, d') ->
  get_response out = Ok (data, status, headers) ->
  wsgi app dflt env =
    (env', Ok {| ws_status := status; ws_headers := headers;
                 ws_body := if String.eqb (str_upper (default "GET" (env_vars env !! "REQUEST_METHOD"))) "HEAD"
                            then [] else [data] |}, d').
Proof. intros Hp Hg. unfold wsgi. by rewrite Hp, Hg. Qed.

(** ** Bootstrap *)

Lemma foldl_add_view_config vs app :
  config (foldl app_add_view app vs) = config app /\ mw (foldl app_add_view app vs) = mw app.
Proof.
  revert app. induction vs as [|v vs IH]; intros app; [done|]. cbn [foldl].
  destruct (IH (app_add_view app v)) as [-> ->]. done.
Qed.

Lemma foldl_add_middleware_parts ms app :
  config (foldl app_add_middleware app ms) = config app /\
  _routes (foldl app_add_middleware app ms) = _routes app /\
  mw (foldl app_add_middleware app ms) = add_middlewares (mw app) ms.
Proof.
  revert app. induction ms as [|m ms IH]; intros app; [done|]. cbn [foldl].
  destruct (IH (app_add_middleware app m)) as (-> & -> & ->). done.
Qed.

Lemma foldl_add_view_invariants vs app :
  Forall is_compiled vs -> routes_wf (_routes app) -> routes_compiled (_routes app) ->
  routes_wf (_routes (foldl app_add_view app vs)) /\
  routes_compiled (_routes (foldl app_add_view app vs)).
Proof.
  intros Hvs. revert app. induction Hvs as [|v vs Hv _ IH]; intros app Hw Hc; [done|].
  cbn [foldl]. apply IH; apply add_view_invariants_core; done.
Qed.

(** ** Fixtures: a small application *)

(** [GET /users/<id>] answers the captured parameters. *)
Definition echo_view : view :=
  {| route := RoutePattern users_pattern; methods := ["GET"];
     v_before_handler := sret (OVal PNone);
     v_handler := sgets (fun r => OResp (ok_response (PDict (params r))));
     v_after_handler := fun resp => sret resp;
     v_on_exception := fun _ => sret (OVal PNone) |}.

(** [GET /crash] divides by zero. *)
Definition crash_view : view :=
  {| route := RoutePattern (RLit "/crash"); methods := ["GET"];
     v_before_handler := sret (OVal PNone);
     v_handler := sraise (PyError "ZeroDivisionError" "division by zero");
     v_after_handler := fun resp => sret resp;
     v_on_exception := fun _ => sret (OVal PNone) |}.

Definition conflict_response : response :=
  {| resp_body := http_error_body "BAD_HANDLER" "handler failed"; resp_status := 409;
     resp_headers := [("content-type", PStr default_content_type)] |}.

(** [GET /bad]: the handler returns [None]; [on_exception] answers 409. *)
Definition contract_view : view :=
  {| route := RoutePattern (RLit "/bad"); methods := ["GET"];
     v_before_handler := sret (OVal PNone);
     v_handler := sret (OVal PNone);
     v_after_handler := fun resp => sret resp;
     v_on_exception := fun _ => sret (OResp conflict_response) |}.

(** [GET /cached]: [before] answers from a cache. *)
Definition cached_view : view :=
  {| route := RoutePattern (RLit "/cached"); methods := ["GET"];
     v_before_handler := sret (OResp (ok_response (PStr "cached")));
     v_handler := sret (OResp (ok_response (PStr "fresh")));
     v_after_handler := fun resp => sret resp;
     v_on_exception := fun _ => sret (OVal PNone) |}.

(** [GET /teapot] raises an HTTPException with a status the table lacks. *)
Definition teapot_view : view :=
  {| route := RoutePattern (RLit "/teapot"); methods := ["GET"];
     v_before_handler := sret (OVal PNone);
     v_handler := sraise (HTTPException "teapot" 999 "TEAPOT" None);
     v_after_handler := fun resp => sret resp;
     v_on_exception := fun _ => sret (OVal PNone) |}.

Definition blocked_response : response :=
  {| resp_body := http_error_body "BLOCKED" "blocked"; resp_status := 403;
     resp_headers := [("content-type", PStr default_content_type)] |}.

(** A middleware that blocks [/blocked] before routing, [/private]
    before the handler, and tags every response that reaches it. *)
Definition guard_mw : middleware :=
  {| mw_before_route := sgets (fun r => if String.eqb (path r) "/blocked"
                                        then OResp blocked_response else OVal PNone);
     mw_before_handler := sgets (fun r => if String.eqb (path r) "/private"
                                          then OResp blocked_response else OVal PNone);
     mw_after_handler := fun resp =>
       sret {| resp_body := resp_body resp; resp_status := resp_status resp;
               resp_headers := dict_set (resp_headers resp) "x-served-by" (PStr "restipy") |} |}.

Definition private_view : view := simple_view (RoutePattern (RLit "/private")) ["GET"] (PStr "secret").

Definition demo_views : list view :=
  [echo_view; crash_view; contract_view; cached_view; teapot_view; private_view].

Definition demo_settings (debug : pyval) : settings := mkSettings (Some debug) (Some 1024%Z).

Definition demo_app (debug : pyval) : restipy :=
  register_all new_app (demo_settings debug) demo_views [guard_mw].

Definition demo_env (meth p : string) : environ :=
  {| env_vars := list_to_map [("REQUEST_METHOD", meth); ("PATH_INFO", p)];
     wsgi_input := []; wsgi_errors := Some []; restipy_app := None |}.

Definition demo : restipy := demo_app (PBool false).

(** The request [process_request] builds for [GET p] on [demo]. *)
Definition req0 (p : string) : request := initial_request demo [] (demo_env "GET" p).

Definition users_42_params : list (pykey * pyval) := [(KStr "id", PStr "42")].

(** The echo Response after the guard middleware tagged it. *)
Definition users_42_response : response :=
  {| resp_body := PDict users_42_params; resp_status := 200;
     resp_headers := [("content-type", PStr default_content_type);
                      ("x-served-by", PStr "restipy")] |}.

(** The three values [get_response] gives, or empty ones on failure. *)
Definition emitted (out : response) : list byte * string * list (string * string) :=
  match get_response out with Ok t => t | Exn _ => ([], "", []) end.

(** End to end through [wsgi]: [GET /users/42] is answered 200 with the
    JSON body [{"id": "42"}] and the header the middleware added; [HEAD]
    on the same path is routed to the GET view and emits the same status
    and headers with no body. *)
Example demo_users_get :
  (wsgi demo [] (demo_env "GET" "/users/42")).1.2 =
    Ok {| ws_status := "200 OK";
          ws_headers := [("content-type", "application/json; charset=utf-8");
                         ("x-served-by", "restipy")];
          ws_body := [bytes_of "{" ++ bytes_of dquote ++ bytes_of "id" ++ bytes_of dquote ++
                      bytes_of ": " ++ bytes_of dquote ++ bytes_of "42" ++ bytes_of dquote ++
                      bytes_of "}"] |} /\
  (wsgi demo [] (demo_env "HEAD" "/users/42")).1.2 =
    Ok {| ws_status := "200 OK";
          ws_headers := [("content-type", "application/json; charset=utf-8");
                         ("x-served-by", "restipy")];
          ws_body := [] |}.
Proof. split; vm_compute; reflexivity. Qed.

(** End to end: with [DEBUG = False] a crash is a generic 500; with
    [DEBUG = 0] the same crash shows its message and trace; an unknown
    path is a 404; an HTTPException with an unknown status escapes. *)
Example demo_errors :
  (process_request demo [] (demo_env "GET" "/crash")).1.2 =
    new_response generic_error_body 500 None /\
  (process_request (demo_app (PInt 0)) [] (demo_env "GET" "/crash")).1.2 =
    new_response (debug_error_body (PyError "ZeroDivisionError" "division by zero")) 500 None /\
  (process_request demo [] (demo_env "GET" "/nowhere")).1.2 =
    new_response (http_error_body "ROUTE_NOT_FOUND" "Route not found.") 404 None /\
  (process_request demo [] (demo_env "GET" "/teapot")).1.2 = Exn invalid_status_code.
Proof. repeat split; vm_compute; reflexivity. Qed.

(** ** Witnesses *)

Lemma process_before_route_short_circuit_witness :
  process_request demo [] (demo_env "GET" "/blocked") =
    (req_env (req0 "/blocked"), Ok blocked_response, req_default (req0 "/blocked")).
Proof. apply process_before_route_short_circuit. vm_compute. reflexivity. Defined.

Lemma process_before_handler_short_circuit_witness :
  let s := set_params_field [] (req0 "/private") in
  process_request demo [] (demo_env "GET" "/private") = (req_env s, Ok blocked_response, req_default s).
Proof.
  intros s. apply (process_before_handler_short_circuit _ _ _ (req0 "/private") _ private_view []);
    vm_compute; reflexivity.
Defined.

Lemma process_route_not_found_witness :
  exists resp, process_request demo [] (demo_env "GET" "/nowhere") =
                 (req_env (req0 "/nowhere"), Ok resp, req_default (req0 "/nowhere")) /\
               resp_status resp = 404%Z /\
               resp_body resp = http_error_body "ROUTE_NOT_FOUND" "Route not found.".
Proof. apply process_route_not_found; vm_compute; reflexivity. Defined.

Lemma process_view_before_skips_after_witness :
  let s := set_params_field [] (req0 "/cached") in
  process_request demo [] (demo_env "GET" "/cached") =
    (req_env s, Ok (ok_response (PStr "cached")), req_default s).
Proof.
  intros s. apply (process_view_before_skips_after _ _ _ (req0 "/cached") s _ cached_view []);
    vm_compute; reflexivity.
Defined.

Lemma process_normal_witness :
  let s := set_params_field users_42_params (req0 "/users/42") in
  process_request demo [] (demo_env "GET" "/users/42") = (req_env s, Ok users_42_response, req_default s).
Proof.
  intros s.
  apply (process_normal _ _ _ (req0 "/users/42") s s s s s echo_view users_42_params PNone
           (ok_response (PDict users_42_params)) (ok_response (PDict users_42_params)));
    vm_compute; reflexivity.
Defined.

Lemma process_handler_contract_witness :
  let s := set_params_field [] (req0 "/bad") in
  process_request demo [] (demo_env "GET" "/bad") = (req_env s, Ok conflict_response, req_default s).
Proof.
  intros s.
  apply (process_handler_contract _ _ _ (req0 "/bad") s s s s contract_view [] PNone PNone);
    vm_compute; reflexivity.
Defined.

Lemma process_http_exception_witness :
  let s := set_params_field [] (req0 "/teapot") in
  process_request demo [] (demo_env "GET" "/teapot") =
    (req_env s, new_response (http_error_body "TEAPOT" "teapot") 999 None, req_default s).
Proof. intros s. apply process_http_exception. vm_compute. reflexivity. Defined.

Lemma process_internal_error_nondebug_witness :
  let s := set_params_field [] (req0 "/crash") in
  exists resp,
    process_request demo [] (demo_env "GET" "/crash") =
      (req_env (set_errors ([] ++ [format_exc (PyError "ZeroDivisionError" "division by zero")]) s),
       Ok resp, req_default s) /\
    resp_status resp = 500%Z /\ resp_body resp = generic_error_body.
Proof.
  intros s.
  apply (process_internal_error_nondebug _ _ _ _ _ [] (demo_settings (PBool false)));
    vm_compute; reflexivity.
Defined.

Lemma process_internal_error_falsy_debug_leaks_witness :
  let app := demo_app (PInt 0) in
  let e := PyError "ZeroDivisionError" "division by zero" in
  let s := set_params_field [] (initial_request app [] (demo_env "GET" "/crash")) in
  exists resp,
    process_request app [] (demo_env "GET" "/crash") =
      (req_env (set_errors ([] ++ [format_exc e]) s), Ok resp, req_default s) /\
    resp_status resp = 500%Z /\ resp_body resp = debug_error_body e /\
    splitlines (format_exc e) <> [].
Proof.
  intros app e s.
  apply (process_internal_error_falsy_debug_leaks _ _ _ _ _ [] (demo_settings (PInt 0)) (PInt 0));
    vm_compute; [reflexivity..|discriminate].
Defined.

Lemma process_escape_witness :
  is_http_exception (HTTPException "teapot" 999 "TEAPOT" None) = true /\
  invalid_status_code = invalid_status_code.
Proof.
  set (s := set_params_field [] (req0 "/teapot")).
  apply (process_escape demo [] (demo_env "GET" "/teapot") s _ [] (demo_settings (PBool false))
           (PBool false) (req_env s) _ (req_default s));
    vm_compute; reflexivity.
Defined.

Lemma wsgi_emits_witness :
  let env := demo_env "HEAD" "/users/42" in
  wsgi demo [] env =
    ((process_request demo [] env).1.1,
     Ok {| ws_status := (emitted users_42_response).1.2; ws_headers := (emitted users_42_response).2;
           ws_body := if String.eqb (str_upper (default "GET" (env_vars env !! "REQUEST_METHOD"))) "HEAD"
                      then [] else [(emitted users_42_response).1.1] |},
     (process_request demo [] env).2).
Proof. intros env. apply (wsgi_emits _ _ _ _ users_42_response); vm_compute; reflexivity. Defined.

(** [GET /audit]: the [after] hook raises a RestiPyException, which
    [on_exception] turns into a 409. *)
Definition audit_error : exc := RestiPyException "audit failed" None.

Definition audit_view : view :=
  {| route := RoutePattern (RLit "/audit"); methods := ["GET"];
     v_before_handler := sret (OVal PNone);
     v_handler := sret (OResp (ok_response (PStr "done")));
     v_after_handler := fun _ => sraise audit_error;
     v_on_exception := fun _ => sret (OResp conflict_response) |}.

Definition audit_app : restipy :=
  register_all new_app (demo_settings (PBool false)) [audit_view] [guard_mw].

Lemma process_after_error_recovered_witness :
  let env := demo_env "GET" "/audit" in
  let s := set_params_field [] (initial_request audit_app [] env) in
  process_request audit_app [] env = (req_env s, Ok conflict_response, req_default s).
Proof.
  intros env s.
  apply (process_after_error_recovered _ _ _ (initial_request audit_app [] env) s s s s s audit_view []
           PNone (ok_response (PStr "done")) audit_error); vm_compute; reflexivity.
Defined.

(** ** The shared default [params] dict *)

(** A middleware that remembers the last path in [req.params] before
    routing, and answers [/peek] with what it finds there. *)
Definition memo_mw : middleware :=
  {| mw_before_route := fun r =>
       if String.eqb (path r) "/peek"
       then (r, Ok (OResp (ok_response (default PNone (dict_get (params r) (KStr "last"))))))
       else (let* _ := params_setitem (KStr "last") (PStr (path r)) in sret (OVal PNone)) r;
     mw_before_handler := sret (OVal PNone);
     mw_after_handler := fun resp => sret resp |}.

Definition memo_app : restipy := register_all new_app (demo_settings (PBool false)) [echo_view] [memo_mw].

(** The same on a run: [/users/42] leaves its path for [/peek]. *)
Example shared_params_peek :
  let d1 := (process_request memo_app [] (demo_env "GET" "/users/42")).2 in
  d1 = [(KStr "last", PStr "/users/42")] /\
  (process_request memo_app d1 (demo_env "GET" "/peek")).1.2 = Ok (ok_response (PStr "/users/42")).
Proof. split; vm_compute; reflexivity. Qed.

(** A request for [/nowhere], which no route matches, leaves its path in
    the dict the next request starts with. *)
Lemma shared_params_across_requests_witness :
  params (initial_request memo_app (process_request memo_app [] (demo_env "GET" "/nowhere")).2
            (demo_env "GET" "/peek")) = [(KStr "last", PStr "/nowhere")].
Proof.
  etransitivity;
    [apply (shared_params_across_requests memo_app [] (demo_env "GET" "/nowhere")
              (run_before (_before_route_m (mw memo_app))
                 (initial_request memo_app [] (demo_env "GET" "/nowhere"))).1 (Ok None))|].
  - vm_compute. reflexivity.
  - vm_compute. reflexivity.
  - intros _. eexists. vm_compute. reflexivity.
  - vm_compute. reflexivity.
Defined.

