(* ===== verification/Discovery.v ===== *)
(** * Module discovery and [RestiPy.bootstrap] (src/src/restipy/core/application.py)

    [bootstrap(settings)] (lines 73-88) stores the settings, then imports
    every module named in [settings.VIEWS] and registers the View
    subclasses it defines, then does the same with [settings.MIDDLEWARES]
    and the Middleware subclasses.  The discovery goes through
    [_import_module] (lines 114-126: a path becomes a dotted name, then
    [importlib.import_module]), [_get_module_members] (lines 128-144: the
    classes [inspect.getmembers] lists, kept when defined in the module
    itself) and [_import_view] / [_import_middleware] (lines 146-171).

    The interpreter's modules are a table from dotted name to module: a
    module is its name and its attributes in definition order, a class its
    [__module__] and what [issubclass] says of it (the instance [mview(self)]
    builds when it is a View or a Middleware).  [inspect.getmembers] sorts
    the attributes by name: here [merge_sort] on [String.le].  The
    application is threaded through [st restipy exc]: an import that fails
    leaves the registrations made before it in place. *)

From stdpp Require Import base list strings gmap sorting.
From Stdlib Require Import Ascii.
From S2P Require Import Prelude Values Request Routes Middleware Application.

Local Open Scope string_scope.

(** ** Modules and classes *)

Record pyclass : Type := mkClass {
  cls_module : string;                  (** [member.__module__] *)
  cls_view : option view;               (** [issubclass(member, View)]: the instance *)
  cls_middleware : option middleware    (** [issubclass(member, Middleware)]: the instance *)
}.

Inductive member : Type :=
| MClass (c : pyclass)
| MValue.                               (** a function, constant or submodule *)

Record pymodule : Type := mkModule {
  mod_name : string;                    (** [module.__name__] *)
  mod_members : list (string * member)  (** [vars(module)], in definition order *)
}.

(** The settings module: what [bootstrap] reads of it. *)
Record settings_module : Type := mkSettingsModule {
  sm_config : settings;
  VIEWS : list string;
  MIDDLEWARES : list string
}.

Abbreviation module_table := (gmap string pymodule).

(** The application monad: [self] threaded, exceptions as values. *)
Abbreviation AM := (st restipy exc).

(** ** [_import_module] *)

(** [os.path.sep] on POSIX. *)
Definition path_sep : ascii := "/".

(** [if os.path.sep in filename: filename = filename.replace(os.path.sep, '.')]. *)
Definition module_name (filename : string) : string :=
  if str_contains filename (String path_sep EmptyString)
  then str_replace_char path_sep "." filename else filename.

Definition module_not_found (name : string) : exc :=
  PyError "ModuleNotFoundError" ("No module named '" ++ name ++ "'").

Definition _import_module (mods : module_table) (filename : string) : outcome exc pymodule :=
  let name := module_name filename in
  match mods !! name with
  | Some m => Ok m
  | None => Exn (module_not_found name)
  end.

(** ** [_get_module_members] *)

Definition name_le (a b : string * pyclass) : Prop := String.le a.1 b.1.

#[export] Instance name_le_dec : RelDecision name_le.
Proof. intros a b. unfold name_le. apply _. Defined.

#[export] Instance name_le_total : Total name_le.
Proof. intros a b. apply (total String.le). Qed.

#[export] Instance name_le_trans : Transitive name_le.
Proof. intros a b c. unfold name_le. apply (transitivity (R:=String.le)). Qed.

(** The attributes [inspect.isclass] accepts. *)
Definition class_members (m : pymodule) : list (string * pyclass) :=
  omap (fun nm : string * member => match nm.2 with MClass c => Some (nm.1, c) | MValue => None end)
    (mod_members m).

(** [inspect.getmembers(module, inspect.isclass)]: sorted by name. *)
Definition getmembers (m : pymodule) : list (string * pyclass) :=
  merge_sort name_le (class_members m).

(** [member.__module__ == module.__name__]. *)
Definition defined_in (m : pymodule) (nc : string * pyclass) : Prop := cls_module nc.2 = mod_name m.

#[export] Instance defined_in_dec m : ∀ nc, Decision (defined_in m nc).
Proof. intros nc. unfold defined_in. apply _. Defined.

Definition _get_module_members (m : pymodule) : list (string * pyclass) :=
  filter (defined_in m) (getmembers m).

(** ** [_import_view], [_import_middleware] *)

(** One iteration of the loop of [_import_view]. *)
Definition import_view_step (app : restipy) (nc : string * pyclass) : restipy :=
  match cls_view nc.2 with
  | Some v => app_add_view app v
  | None => app
  end.

Definition _import_view (mods : module_table) (view : string) : AM unit :=
  fun app =>
    match _import_module mods view with
    | Exn e => (app, Exn e)
    | Ok m => (foldl import_view_step app (_get_module_members m), Ok tt)
    end.

Definition import_middleware_step (app : restipy) (nc : string * pyclass) : restipy :=
  match cls_middleware nc.2 with
  | Some mw => app_add_middleware app mw
  | None => app
  end.

Definition _import_middleware (mods : module_table) (middleware : string) : AM unit :=
  fun app =>
    match _import_module mods middleware with
    | Exn e => (app, Exn e)
    | Ok m => (foldl import_middleware_step app (_get_module_members m), Ok tt)
    end.

(** ** [bootstrap] *)

(** [self.config = settings]. *)
Definition set_config (s : settings) : AM unit :=
  smodify (fun app => mkRestiPy (Some s) (_routes app) (mw app)).

Definition bootstrap (mods : module_table) (settings : settings_module) : AM unit :=
  let* _ := set_config (sm_config settings) in
  let* _ := for_each (_import_view mods) (VIEWS settings) in
  for_each (_import_middleware mods) (MIDDLEWARES settings).

(** [RestiPy.__call__(env, start_response)]: [self.wsgi(env, start_response)]. *)
Definition __call__ (app : restipy) (dflt : params_default) (env : environ)
    : environ * outcome exc wsgi_result * params_default :=
  wsgi app dflt env.

(** ** The members a module contributes *)

Lemma class_members_inj m x y :
  NoDup (mod_members m).*1 -> x ∈ class_members m -> y ∈ class_members m -> x.1 = y.1 -> x = y.
Proof.
  intros Hnd Hx Hy Hxy. unfold class_members in Hx, Hy.
  apply list_elem_of_omap in Hx as ([n1 k1] & Hx & E1), Hy as ([n2 k2] & Hy & E2).
  cbn in E1, E2. destruct k1 as [c1|], k2 as [c2|]; simplify_eq. cbn in Hxy. subst n2.
  by assert (MClass c1 = MClass c2) as [= ->] by (eapply NoDup_fst_inj; eauto).
Qed.

Lemma get_module_members_sorted m : StronglySorted name_le (_get_module_members m).
Proof. apply StronglySorted_filter, StronglySorted_merge_sort; apply _. Qed.

Lemma get_module_members_perm m :
  _get_module_members m ≡ₚ filter (defined_in m) (class_members m).
Proof. unfold _get_module_members, getmembers. by rewrite merge_sort_Permutation. Qed.

(** C29: [_get_module_members] yields exactly the classes defined in the
    module itself, each once, sorted by attribute name: it is the one
    list with these two properties, whatever the order of definition. *)
Theorem get_module_members_spec m l :
  NoDup (mod_members m).*1 ->
  _get_module_members m = l <->
  StronglySorted name_le l /\ l ≡ₚ filter (defined_in m) (class_members m).
Proof.
  intros Hnd. split; [intros <-; split; [apply get_module_members_sorted|apply get_module_members_perm]|].
  intros [Hs Hp]. apply (StronglySorted_unique_strong name_le);
    [|apply get_module_members_sorted|done|by rewrite Hp, get_module_members_perm].
  intros x y Hx Hy Hxy Hyx. rewrite get_module_members_perm, list_elem_of_filter in Hx.
  rewrite Hp, list_elem_of_filter in Hy.
  apply (class_members_inj m); [done|apply Hx|apply Hy|]. by apply (anti_symm String.le).
Qed.

(** ** What an import changes *)

Lemma import_view_step_frame app nc :
  config (import_view_step app nc) = config app /\ mw (import_view_step app nc) = mw app.
Proof. unfold import_view_step. by destruct (cls_view nc.2). Qed.

Lemma import_view_frame mods n app app' o :
  _import_view mods n app = (app', o) -> config app' = config app /\ mw app' = mw app.
Proof.
  unfold _import_view. destruct (_import_module mods n); intros [= <- _]; [|done].
  generalize app. induction (_get_module_members a) as [|nc ncs IH]; intros app0; [done|].
  cbn [foldl]. destruct (IH (import_view_step app0 nc)) as [-> ->]. apply import_view_step_frame.
Qed.

Lemma import_module_ok mods n : is_Some (mods !! module_name n) -> exists m, _import_module mods n = Ok m.
Proof. unfold _import_module. intros [m ->]. eauto. Qed.

Lemma import_view_ok mods n app :
  is_Some (mods !! module_name n) -> exists app', _import_view mods n app = (app', Ok tt).
Proof. intros [m Hm]%import_module_ok. unfold _import_view. rewrite Hm. eauto. Qed.

Lemma import_view_missing mods n app :
  mods !! module_name n = None -> _import_view mods n app = (app, Exn (module_not_found (module_name n))).
Proof. unfold _import_view, _import_module. by intros ->. Qed.

(** The application once [self.config = settings] has run. *)
Definition configured (s : settings) (app : restipy) : restipy := mkRestiPy (Some s) (_routes app) (mw app).

Lemma bootstrap_unfold mods settings app :
  bootstrap mods settings app =
    sbind (for_each (_import_view mods) (VIEWS settings))
      (fun _ => for_each (_import_middleware mods) (MIDDLEWARES settings)) (configured (sm_config settings) app).
Proof. reflexivity. Qed.

(** C28: a view module that cannot be imported aborts [bootstrap] with
    [ModuleNotFoundError]: the settings are stored, the views of the
    modules listed before it are registered, and no middleware is. *)
Theorem bootstrap_missing_view mods settings app ns1 n ns2 :
  VIEWS settings = (ns1 ++ n :: ns2)%list ->
  Forall (fun n' => is_Some (mods !! module_name n')) ns1 ->
  mods !! module_name n = None ->
  exists app1,
    for_each (_import_view mods) ns1 (configured (sm_config settings) app) = (app1, Ok tt) /\
    bootstrap mods settings app = (app1, Exn (module_not_found (module_name n))) /\
    config app1 = Some (sm_config settings) /\ mw app1 = mw app.
Proof.
  intros Hv Hok Hn. destruct (for_each_total (_import_view mods) ns1 (configured (sm_config settings) app))
    as [app1 H1]; [eapply Forall_impl; [exact Hok|]; intros; by apply import_view_ok|].
  exists app1. split; [done|]. rewrite bootstrap_unfold, Hv. unfold sbind at 1.
  rewrite for_each_app, (sbind_ok _ _ _ _ _ H1). cbn [for_each].
  rewrite (sbind_exn _ _ _ _ _ (import_view_missing mods n app1 Hn)). split; [done|].
  eapply (for_each_inv (fun a => config a = Some (sm_config settings) /\ mw a = mw app) _ _ (configured (sm_config settings) app));
    [|by split|exact H1]. intros x s s' o [Hc Hm] Hx. apply import_view_frame in Hx as [-> ->]. done.
Qed.

(** ** The registration invariants through [bootstrap] *)

(** Every View class defined in a module has a compiled route. *)
Definition views_compiled (mods : module_table) : Prop :=
  map_Forall (fun _ m => Forall (fun nc : string * pyclass => from_option is_compiled True (cls_view nc.2))
                           (_get_module_members m)) mods.

(** What stays true of the application while [bootstrap] runs. *)
Definition app_inv (cfg : settings) (ms : list middleware) (app : restipy) : Prop :=
  routes_wf (_routes app) /\ routes_compiled (_routes app) /\ config app = Some cfg /\
  exists ms', aligned (mw app) (ms ++ ms').

Lemma import_module_in mods n m : _import_module mods n = Ok m -> mods !! module_name n = Some m.
Proof. unfold _import_module. by destruct (mods !! module_name n); intros [=->]. Qed.

(** The members a successful import iterates over. *)
Definition module_member (mods : module_table) (nc : string * pyclass) : Prop :=
  exists n m, mods !! n = Some m /\ nc ∈ _get_module_members m.

Lemma import_foldl_preserves (P : restipy -> Prop) mods step n app app' o :
  (forall nc app, module_member mods nc -> P app -> P (step app nc)) -> P app ->
  (fun app => match _import_module mods n with
              | Exn e => (app, Exn e)
              | Ok m => (foldl step app (_get_module_members m), Ok tt) end) app = (app', o) -> P app'.
Proof.
  intros Hstep HP. cbv beta. destruct (_import_module mods n) as [m|] eqn:Hm; intros [= <- _]; [|done].
  apply foldl_inv; [|done]. apply Forall_forall. intros nc Hnc a Ha.
  apply Hstep; [|done]. exists (module_name n), m. split; [by apply import_module_in|done].
Qed.

(** A property of the application once the settings are stored that
    every registration step of the modules' members keeps is true after
    [bootstrap], whether it completes or stops at a failed import. *)
Lemma bootstrap_preserves (P : restipy -> Prop) mods settings app app' o :
  (forall nc a, module_member mods nc -> P a -> P (import_view_step a nc)) ->
  (forall nc a, module_member mods nc -> P a -> P (import_middleware_step a nc)) ->
  P (configured (sm_config settings) app) -> bootstrap mods settings app = (app', o) -> P app'.
Proof.
  intros Hv Hm HP. rewrite bootstrap_unfold. apply (sbind_inv P); [| |done].
  - intros s s' o'. apply for_each_inv. intros ????. by apply (import_foldl_preserves P mods import_view_step).
  - intros _ s s' o'. apply for_each_inv. intros ????.
    by apply (import_foldl_preserves P mods import_middleware_step).
Qed.

Lemma import_view_step_inv mods cfg ms nc a :
  views_compiled mods -> module_member mods nc -> app_inv cfg ms a -> app_inv cfg ms (import_view_step a nc).
Proof.
  intros Hmods (n & m & Hm & Hnc) (Hw & Hc & Hcfg & Hal).
  unfold import_view_step. destruct (cls_view nc.2) as [v|] eqn:Hv; [|by split].
  pose proof (proj1 (Forall_forall _ _) (Hmods _ _ Hm) nc Hnc) as Hcv. cbv beta in Hcv. rewrite Hv in Hcv.
  destruct (add_view_invariants_core (_routes a) v Hw Hc Hcv). by repeat split.
Qed.

Lemma import_middleware_step_inv cfg ms nc a :
  app_inv cfg ms a -> app_inv cfg ms (import_middleware_step a nc).
Proof.
  intros (Hw & Hc & Hcfg & ms' & Hal).
  unfold import_middleware_step. destruct (cls_middleware nc.2) as [mw0|]; [|by repeat split; eauto].
  repeat split; [done..|]. exists (ms' ++ [mw0])%list. rewrite app_assoc. by apply add_middleware_aligned_core.
Qed.

(** C27: [bootstrap] keeps the registrations well formed, whether it
    completes or an import fails half-way: the route table stays
    well formed and compiled when the modules' views are, the settings
    are stored, and the three middleware lists stay aligned with the
    registered middlewares, extended in registration order. *)
Theorem bootstrap_invariants mods settings app app' o ms :
  views_compiled mods -> routes_wf (_routes app) -> routes_compiled (_routes app) -> aligned (mw app) ms ->
  bootstrap mods settings app = (app', o) ->
  routes_wf (_routes app') /\ routes_compiled (_routes app') /\ config app' = Some (sm_config settings) /\
  exists ms', aligned (mw app') (ms ++ ms').
Proof.
  intros Hmods Hw Hc Hal. apply (bootstrap_preserves (app_inv (sm_config settings) ms)).
  - intros nc a. by apply import_view_step_inv.
  - intros nc a _. apply import_middleware_step_inv.
  - repeat split; [done..|]. exists []. by rewrite app_nil_r.
Qed.

(** ** Fixtures: a project with a views module and a middleware module *)

#[export] Instance view_compiled_dec (o : option view) : Decision (from_option is_compiled True o).
Proof. destruct o; cbn; apply _. Defined.

(** [from restipy.core.view import View]: imported, so not defined here. *)
Definition View_class : pyclass := mkClass "restipy.core.view" (Some (simple_view (RouteStr "/") [] PNone)) None.

Definition admin_view : view := simple_view (RoutePattern users_pattern) ["GET"] (PStr "admin").

Definition UserView_class : pyclass := mkClass "app.views.users" (Some echo_view) None.
Definition AdminView_class : pyclass := mkClass "app.views.users" (Some admin_view) None.

(** [app/views/users.py]: [UserView] is written before [AdminView]; both
    answer [GET /users/<id>]. *)
Definition users_module : pymodule :=
  mkModule "app.views.users"
    [("View", MClass View_class); ("UserView", MClass UserView_class);
     ("AdminView", MClass AdminView_class); ("PAGE_SIZE", MValue)].

Definition Middleware_class : pyclass := mkClass "restipy.core.middleware" None (Some (mkMiddleware pass_hook pass_hook (fun r => sret r))).
Definition Guard_class : pyclass := mkClass "app.middleware" None (Some guard_mw).

Definition middleware_module : pymodule :=
  mkModule "app.middleware" [("Middleware", MClass Middleware_class); ("Guard", MClass Guard_class)].

Definition demo_modules : module_table :=
  list_to_map [("app.views.users", users_module); ("app.middleware", middleware_module)].

Definition demo_settings_module (views mws : list string) : settings_module :=
  mkSettingsModule (demo_settings (PBool false)) views mws.

(** ** Route precedence follows class names *)

(** Which of two views of one module that answer the same request
    wins is decided by their class names, not by the order in which the
    module defines them: [AdminView] is registered before [UserView],
    which the module defines first, and serves [GET /users/7]. *)
Example discovery_precedence :
  let app := (bootstrap demo_modules (demo_settings_module ["app/views/users"] []) new_app).1 in
  _get_module_members users_module = [("AdminView", AdminView_class); ("UserView", UserView_class)] /\
  (process_request app [] (demo_env "GET" "/users/7")).1.2 = Ok (ok_response (PStr "admin")).
Proof. split; vm_compute; reflexivity. Qed.

(** ** Witnesses *)

Lemma get_module_members_spec_witness :
  NoDup (mod_members users_module).*1 /\
  (_get_module_members users_module = [("AdminView", AdminView_class); ("UserView", UserView_class)] <->
   StronglySorted name_le [("AdminView", AdminView_class); ("UserView", UserView_class)] /\
   [("AdminView", AdminView_class); ("UserView", UserView_class)] ≡ₚ
     filter (defined_in users_module) (class_members users_module)).
Proof.
  assert (Hnd : NoDup (mod_members users_module).*1) by (apply (bool_decide_unpack _); vm_compute; reflexivity).
  split; [done|]. by apply get_module_members_spec.
Defined.

Lemma bootstrap_missing_view_witness :
  exists app1,
    for_each (_import_view demo_modules) ["app/views/users"]
      (configured (demo_settings (PBool false)) new_app) = (app1, Ok tt) /\
    bootstrap demo_modules (demo_settings_module ["app/views/users"; "app/views/admin"] ["app/middleware"]) new_app =
      (app1, Exn (module_not_found (module_name "app/views/admin"))) /\
    config app1 = Some (demo_settings (PBool false)) /\ mw app1 = mw new_app.
Proof.
  apply (bootstrap_missing_view _ (demo_settings_module _ _) _ ["app/views/users"] "app/views/admin" []);
    [reflexivity| |vm_compute; reflexivity].
  repeat constructor. apply (bool_decide_unpack _). vm_compute. reflexivity.
Defined.

Lemma bootstrap_invariants_witness :
  let r := bootstrap demo_modules (demo_settings_module ["app/views/users"] ["app/middleware"]) new_app in
  routes_wf (_routes r.1) /\ routes_compiled (_routes r.1) /\
  config r.1 = Some (demo_settings (PBool false)) /\ exists ms', aligned (mw r.1) ([] ++ ms').
Proof.
  intros r. destruct empty_routes_ok as [Hw Hc].
  apply (bootstrap_invariants demo_modules (demo_settings_module ["app/views/users"] ["app/middleware"]) new_app r.1 r.2 []);
    [|done|done|by repeat split|unfold r; by destruct (bootstrap _ _ _)].
  apply (bool_decide_unpack _). vm_compute. reflexivity.
Defined.
